(** * lvgl_kawaii_face: the animation engine of [lvgl_kawaii_face.c]

    A shallow embedding of the face animation state machine: the emotion
    profile switch, the timer callback (blink scheduler, transition blender,
    idle motion, decay of the secondary effects), the public setters and the
    shape selection of the eye and mouth renderers.

    Conventions.
    - A C integer of width w is a [Z]; every store into a narrower field
      writes the wrap-around out ([to_uint8], [to_int8], ...).  Arithmetic
      on [uint8_t]/[int8_t] operands is done in [int] after promotion, as C
      does, and C's [/] on [int] is [Z.quot].
    - A pointer is a [bool] (is it non-NULL); the face container carries the
      position LVGL keeps for it.
    - The canvases are write-only outputs: [draw_eye] and [draw_mouth] read
      [face_state] and never write it, so the state transformers below leave
      the draw calls out.  The branch structure of the two renderers is
      modelled on its own, as [draw_eye] and [draw_mouth].
    - Values computed in floating point ([sinf], [cos], products with
      decimal constants, then a cast to an integer type) come from an
      oracle [fp : float_site -> Z -> Z]: one site per source expression,
      applied to the integer the expression is computed from. *)

From Stdlib Require Import ZArith Bool List Lia.
Import ListNotations.
Local Open Scope Z_scope.

(** ** C integer conversions *)

Definition to_uint8 (z : Z) : Z := z mod 256.
Definition to_int8 (z : Z) : Z := (z + 128) mod 256 - 128.
Definition to_uint16 (z : Z) : Z := z mod 65536.
Definition to_int16 (z : Z) : Z := (z + 32768) mod 65536 - 32768.
Definition to_uint32 (z : Z) : Z := z mod 4294967296.

(** ** [face_emotion_t] (lvgl_kawaii_face.h) *)

Inductive face_emotion_t : Type :=
  | FACE_NEUTRAL
  | FACE_HAPPY
  | FACE_WORRIED
  | FACE_SAD
  | FACE_SURPRISED
  | FACE_ANGRY
  | FACE_SLEEPY
  | FACE_WINK
  | FACE_LOVE
  | FACE_PLAYFUL
  | FACE_SILLY
  | FACE_SMIRK
  | FACE_CRY
  | FACE_WORKING_HARD
  | FACE_EXCITED
  | FACE_CONFUSED
  | FACE_COOL
  | FACE_BLINK
  | FACE_EMOTION_COUNT.

(** The enumerator's integer value. *)
Definition emotion_code (e : face_emotion_t) : Z :=
  match e with
  | FACE_NEUTRAL => 0 | FACE_HAPPY => 1 | FACE_WORRIED => 2 | FACE_SAD => 3
  | FACE_SURPRISED => 4 | FACE_ANGRY => 5 | FACE_SLEEPY => 6 | FACE_WINK => 7
  | FACE_LOVE => 8 | FACE_PLAYFUL => 9 | FACE_SILLY => 10 | FACE_SMIRK => 11
  | FACE_CRY => 12 | FACE_WORKING_HARD => 13 | FACE_EXCITED => 14
  | FACE_CONFUSED => 15 | FACE_COOL => 16 | FACE_BLINK => 17
  | FACE_EMOTION_COUNT => 18
  end.

Definition emotion_eqb (a b : face_emotion_t) : bool :=
  emotion_code a =? emotion_code b.

(** The 17 emotions the example application cycles through: every
    enumerator below [FACE_BLINK]. *)
Definition selectable (e : face_emotion_t) : bool := emotion_code e <? 17.

(** ** [face_config_t] and [face_state_t] *)

Record face_config_t : Type := mk_face_config {
  parent : bool;
  animation_speed : Z;
  blink_interval : Z;
  auto_blink : bool
}.

Definition config_zero : face_config_t := mk_face_config false 0 0 false.

Definition DEFAULT_ANIM_SPEED_MS : Z := 30.
Definition DEFAULT_BLINK_INTERVAL : Z := 3000.

(** The fields of [face_state_t] in declaration order, followed by the
    function-local statics of [animation_timer_cb] ([bounce_counter],
    [pupil_counter], [idle], [diamond_direction], [heart_direction]), which
    live as long as the program and are not touched by [memset]. *)
Record face_state_t : Type := mk_face_state {
  left_eye_canvas : bool;
  right_eye_canvas : bool;
  mouth_canvas : bool;
  face_container : option (Z * Z);
  left_eye_buf : bool;
  right_eye_buf : bool;
  mouth_buf : bool;
  config : face_config_t;
  current_emotion : face_emotion_t;
  target_emotion : face_emotion_t;
  left_eye_openness : Z;
  right_eye_openness : Z;
  mouth_curve : Z;
  left_eyebrow_angle : Z;
  right_eyebrow_angle : Z;
  eyebrow_height : Z;
  transition_progress : Z;
  last_blink_time : Z;
  is_blinking : bool;
  blink_phase : Z;
  blush_intensity : Z;
  bounce_offset : Z;
  sparkle_phase : Z;
  heart_beat_phase : Z;
  pupil_offset_x : Z;
  pupil_offset_y : Z;
  tear_fall_offset : Z;
  diamond_mouth_phase : Z;
  sweat_drop_offset : Z;
  face_sz : Z;
  eye_cw : Z;
  mouth_cw : Z;
  mouth_ch : Z;
  anim_timer : bool;
  initialized : bool;
  bounce_counter : Z;
  pupil_counter : Z;
  idle : Z;
  diamond_direction : Z;
  heart_direction : Z
}.

Definition set_left_eye_canvas (v : bool) (s : face_state_t) : face_state_t :=
  mk_face_state v (right_eye_canvas s) (mouth_canvas s) (face_container s) (left_eye_buf s)
    (right_eye_buf s) (mouth_buf s) (config s) (current_emotion s) (target_emotion s)
    (left_eye_openness s) (right_eye_openness s) (mouth_curve s) (left_eyebrow_angle s)
    (right_eyebrow_angle s) (eyebrow_height s) (transition_progress s) (last_blink_time s)
    (is_blinking s) (blink_phase s) (blush_intensity s) (bounce_offset s) (sparkle_phase s)
    (heart_beat_phase s) (pupil_offset_x s) (pupil_offset_y s) (tear_fall_offset s)
    (diamond_mouth_phase s) (sweat_drop_offset s) (face_sz s) (eye_cw s) (mouth_cw s)
    (mouth_ch s) (anim_timer s) (initialized s) (bounce_counter s) (pupil_counter s) (idle s)
    (diamond_direction s) (heart_direction s).

Definition set_right_eye_canvas (v : bool) (s : face_state_t) : face_state_t :=
  mk_face_state (left_eye_canvas s) v (mouth_canvas s) (face_container s) (left_eye_buf s)
    (right_eye_buf s) (mouth_buf s) (config s) (current_emotion s) (target_emotion s)
    (left_eye_openness s) (right_eye_openness s) (mouth_curve s) (left_eyebrow_angle s)
    (right_eyebrow_angle s) (eyebrow_height s) (transition_progress s) (last_blink_time s)
    (is_blinking s) (blink_phase s) (blush_intensity s) (bounce_offset s) (sparkle_phase s)
    (heart_beat_phase s) (pupil_offset_x s) (pupil_offset_y s) (tear_fall_offset s)
    (diamond_mouth_phase s) (sweat_drop_offset s) (face_sz s) (eye_cw s) (mouth_cw s)
    (mouth_ch s) (anim_timer s) (initialized s) (bounce_counter s) (pupil_counter s) (idle s)
    (diamond_direction s) (heart_direction s).

Definition set_mouth_canvas (v : bool) (s : face_state_t) : face_state_t :=
  mk_face_state (left_eye_canvas s) (right_eye_canvas s) v (face_container s) (left_eye_buf s)
    (right_eye_buf s) (mouth_buf s) (config s) (current_emotion s) (target_emotion s)
    (left_eye_openness s) (right_eye_openness s) (mouth_curve s) (left_eyebrow_angle s)
    (right_eyebrow_angle s) (eyebrow_height s) (transition_progress s) (last_blink_time s)
    (is_blinking s) (blink_phase s) (blush_intensity s) (bounce_offset s) (sparkle_phase s)
    (heart_beat_phase s) (pupil_offset_x s) (pupil_offset_y s) (tear_fall_offset s)
    (diamond_mouth_phase s) (sweat_drop_offset s) (face_sz s) (eye_cw s) (mouth_cw s)
    (mouth_ch s) (anim_timer s) (initialized s) (bounce_counter s) (pupil_counter s) (idle s)
    (diamond_direction s) (heart_direction s).

Definition set_face_container (v : option (Z * Z)) (s : face_state_t) : face_state_t :=
  mk_face_state (left_eye_canvas s) (right_eye_canvas s) (mouth_canvas s) v (left_eye_buf s)
    (right_eye_buf s) (mouth_buf s) (config s) (current_emotion s) (target_emotion s)
    (left_eye_openness s) (right_eye_openness s) (mouth_curve s) (left_eyebrow_angle s)
    (right_eyebrow_angle s) (eyebrow_height s) (transition_progress s) (last_blink_time s)
    (is_blinking s) (blink_phase s) (blush_intensity s) (bounce_offset s) (sparkle_phase s)
    (heart_beat_phase s) (pupil_offset_x s) (pupil_offset_y s) (tear_fall_offset s)
    (diamond_mouth_phase s) (sweat_drop_offset s) (face_sz s) (eye_cw s) (mouth_cw s)
    (mouth_ch s) (anim_timer s) (initialized s) (bounce_counter s) (pupil_counter s) (idle s)
    (diamond_direction s) (heart_direction s).

Definition set_left_eye_buf (v : bool) (s : face_state_t) : face_state_t :=
  mk_face_state (left_eye_canvas s) (right_eye_canvas s) (mouth_canvas s) (face_container s) v
    (right_eye_buf s) (mouth_buf s) (config s) (current_emotion s) (target_emotion s)
    (left_eye_openness s) (right_eye_openness s) (mouth_curve s) (left_eyebrow_angle s)
    (right_eyebrow_angle s) (eyebrow_height s) (transition_progress s) (last_blink_time s)
    (is_blinking s) (blink_phase s) (blush_intensity s) (bounce_offset s) (sparkle_phase s)
    (heart_beat_phase s) (pupil_offset_x s) (pupil_offset_y s) (tear_fall_offset s)
    (diamond_mouth_phase s) (sweat_drop_offset s) (face_sz s) (eye_cw s) (mouth_cw s)
    (mouth_ch s) (anim_timer s) (initialized s) (bounce_counter s) (pupil_counter s) (idle s)
    (diamond_direction s) (heart_direction s).

Definition set_right_eye_buf (v : bool) (s : face_state_t) : face_state_t :=
  mk_face_state (left_eye_canvas s) (right_eye_canvas s) (mouth_canvas s) (face_container s)
    (left_eye_buf s) v (mouth_buf s) (config s) (current_emotion s) (target_emotion s)
    (left_eye_openness s) (right_eye_openness s) (mouth_curve s) (left_eyebrow_angle s)
    (right_eyebrow_angle s) (eyebrow_height s) (transition_progress s) (last_blink_time s)
    (is_blinking s) (blink_phase s) (blush_intensity s) (bounce_offset s) (sparkle_phase s)
    (heart_beat_phase s) (pupil_offset_x s) (pupil_offset_y s) (tear_fall_offset s)
    (diamond_mouth_phase s) (sweat_drop_offset s) (face_sz s) (eye_cw s) (mouth_cw s)
    (mouth_ch s) (anim_timer s) (initialized s) (bounce_counter s) (pupil_counter s) (idle s)
    (diamond_direction s) (heart_direction s).

Definition set_mouth_buf (v : bool) (s : face_state_t) : face_state_t :=
  mk_face_state (left_eye_canvas s) (right_eye_canvas s) (mouth_canvas s) (face_container s)
    (left_eye_buf s) (right_eye_buf s) v (config s) (current_emotion s) (target_emotion s)
    (left_eye_openness s) (right_eye_openness s) (mouth_curve s) (left_eyebrow_angle s)
    (right_eyebrow_angle s) (eyebrow_height s) (transition_progress s) (last_blink_time s)
    (is_blinking s) (blink_phase s) (blush_intensity s) (bounce_offset s) (sparkle_phase s)
    (heart_beat_phase s) (pupil_offset_x s) (pupil_offset_y s) (tear_fall_offset s)
    (diamond_mouth_phase s) (sweat_drop_offset s) (face_sz s) (eye_cw s) (mouth_cw s)
    (mouth_ch s) (anim_timer s) (initialized s) (bounce_counter s) (pupil_counter s) (idle s)
    (diamond_direction s) (heart_direction s).

Definition set_config (v : face_config_t) (s : face_state_t) : face_state_t :=
  mk_face_state (left_eye_canvas s) (right_eye_canvas s) (mouth_canvas s) (face_container s)
    (left_eye_buf s) (right_eye_buf s) (mouth_buf s) v (current_emotion s) (target_emotion s)
    (left_eye_openness s) (right_eye_openness s) (mouth_curve s) (left_eyebrow_angle s)
    (right_eyebrow_angle s) (eyebrow_height s) (transition_progress s) (last_blink_time s)
    (is_blinking s) (blink_phase s) (blush_intensity s) (bounce_offset s) (sparkle_phase s)
    (heart_beat_phase s) (pupil_offset_x s) (pupil_offset_y s) (tear_fall_offset s)
    (diamond_mouth_phase s) (sweat_drop_offset s) (face_sz s) (eye_cw s) (mouth_cw s)
    (mouth_ch s) (anim_timer s) (initialized s) (bounce_counter s) (pupil_counter s) (idle s)
    (diamond_direction s) (heart_direction s).

Definition set_current_emotion (v : face_emotion_t) (s : face_state_t) : face_state_t :=
  mk_face_state (left_eye_canvas s) (right_eye_canvas s) (mouth_canvas s) (face_container s)
    (left_eye_buf s) (right_eye_buf s) (mouth_buf s) (config s) v (target_emotion s)
    (left_eye_openness s) (right_eye_openness s) (mouth_curve s) (left_eyebrow_angle s)
    (right_eyebrow_angle s) (eyebrow_height s) (transition_progress s) (last_blink_time s)
    (is_blinking s) (blink_phase s) (blush_intensity s) (bounce_offset s) (sparkle_phase s)
    (heart_beat_phase s) (pupil_offset_x s) (pupil_offset_y s) (tear_fall_offset s)
    (diamond_mouth_phase s) (sweat_drop_offset s) (face_sz s) (eye_cw s) (mouth_cw s)
    (mouth_ch s) (anim_timer s) (initialized s) (bounce_counter s) (pupil_counter s) (idle s)
    (diamond_direction s) (heart_direction s).

Definition set_target_emotion (v : face_emotion_t) (s : face_state_t) : face_state_t :=
  mk_face_state (left_eye_canvas s) (right_eye_canvas s) (mouth_canvas s) (face_container s)
    (left_eye_buf s) (right_eye_buf s) (mouth_buf s) (config s) (current_emotion s) v
    (left_eye_openness s) (right_eye_openness s) (mouth_curve s) (left_eyebrow_angle s)
    (right_eyebrow_angle s) (eyebrow_height s) (transition_progress s) (last_blink_time s)
    (is_blinking s) (blink_phase s) (blush_intensity s) (bounce_offset s) (sparkle_phase s)
    (heart_beat_phase s) (pupil_offset_x s) (pupil_offset_y s) (tear_fall_offset s)
    (diamond_mouth_phase s) (sweat_drop_offset s) (face_sz s) (eye_cw s) (mouth_cw s)
    (mouth_ch s) (anim_timer s) (initialized s) (bounce_counter s) (pupil_counter s) (idle s)
    (diamond_direction s) (heart_direction s).

Definition set_left_eye_openness (v : Z) (s : face_state_t) : face_state_t :=
  mk_face_state (left_eye_canvas s) (right_eye_canvas s) (mouth_canvas s) (face_container s)
    (left_eye_buf s) (right_eye_buf s) (mouth_buf s) (config s) (current_emotion s)
    (target_emotion s) v (right_eye_openness s) (mouth_curve s) (left_eyebrow_angle s)
    (right_eyebrow_angle s) (eyebrow_height s) (transition_progress s) (last_blink_time s)
    (is_blinking s) (blink_phase s) (blush_intensity s) (bounce_offset s) (sparkle_phase s)
    (heart_beat_phase s) (pupil_offset_x s) (pupil_offset_y s) (tear_fall_offset s)
    (diamond_mouth_phase s) (sweat_drop_offset s) (face_sz s) (eye_cw s) (mouth_cw s)
    (mouth_ch s) (anim_timer s) (initialized s) (bounce_counter s) (pupil_counter s) (idle s)
    (diamond_direction s) (heart_direction s).

Definition set_right_eye_openness (v : Z) (s : face_state_t) : face_state_t :=
  mk_face_state (left_eye_canvas s) (right_eye_canvas s) (mouth_canvas s) (face_container s)
    (left_eye_buf s) (right_eye_buf s) (mouth_buf s) (config s) (current_emotion s)
    (target_emotion s) (left_eye_openness s) v (mouth_curve s) (left_eyebrow_angle s)
    (right_eyebrow_angle s) (eyebrow_height s) (transition_progress s) (last_blink_time s)
    (is_blinking s) (blink_phase s) (blush_intensity s) (bounce_offset s) (sparkle_phase s)
    (heart_beat_phase s) (pupil_offset_x s) (pupil_offset_y s) (tear_fall_offset s)
    (diamond_mouth_phase s) (sweat_drop_offset s) (face_sz s) (eye_cw s) (mouth_cw s)
    (mouth_ch s) (anim_timer s) (initialized s) (bounce_counter s) (pupil_counter s) (idle s)
    (diamond_direction s) (heart_direction s).

Definition set_mouth_curve (v : Z) (s : face_state_t) : face_state_t :=
  mk_face_state (left_eye_canvas s) (right_eye_canvas s) (mouth_canvas s) (face_container s)
    (left_eye_buf s) (right_eye_buf s) (mouth_buf s) (config s) (current_emotion s)
    (target_emotion s) (left_eye_openness s) (right_eye_openness s) v (left_eyebrow_angle s)
    (right_eyebrow_angle s) (eyebrow_height s) (transition_progress s) (last_blink_time s)
    (is_blinking s) (blink_phase s) (blush_intensity s) (bounce_offset s) (sparkle_phase s)
    (heart_beat_phase s) (pupil_offset_x s) (pupil_offset_y s) (tear_fall_offset s)
    (diamond_mouth_phase s) (sweat_drop_offset s) (face_sz s) (eye_cw s) (mouth_cw s)
    (mouth_ch s) (anim_timer s) (initialized s) (bounce_counter s) (pupil_counter s) (idle s)
    (diamond_direction s) (heart_direction s).

Definition set_left_eyebrow_angle (v : Z) (s : face_state_t) : face_state_t :=
  mk_face_state (left_eye_canvas s) (right_eye_canvas s) (mouth_canvas s) (face_container s)
    (left_eye_buf s) (right_eye_buf s) (mouth_buf s) (config s) (current_emotion s)
    (target_emotion s) (left_eye_openness s) (right_eye_openness s) (mouth_curve s) v
    (right_eyebrow_angle s) (eyebrow_height s) (transition_progress s) (last_blink_time s)
    (is_blinking s) (blink_phase s) (blush_intensity s) (bounce_offset s) (sparkle_phase s)
    (heart_beat_phase s) (pupil_offset_x s) (pupil_offset_y s) (tear_fall_offset s)
    (diamond_mouth_phase s) (sweat_drop_offset s) (face_sz s) (eye_cw s) (mouth_cw s)
    (mouth_ch s) (anim_timer s) (initialized s) (bounce_counter s) (pupil_counter s) (idle s)
    (diamond_direction s) (heart_direction s).

Definition set_right_eyebrow_angle (v : Z) (s : face_state_t) : face_state_t :=
  mk_face_state (left_eye_canvas s) (right_eye_canvas s) (mouth_canvas s) (face_container s)
    (left_eye_buf s) (right_eye_buf s) (mouth_buf s) (config s) (current_emotion s)
    (target_emotion s) (left_eye_openness s) (right_eye_openness s) (mouth_curve s)
    (left_eyebrow_angle s) v (eyebrow_height s) (transition_progress s) (last_blink_time s)
    (is_blinking s) (blink_phase s) (blush_intensity s) (bounce_offset s) (sparkle_phase s)
    (heart_beat_phase s) (pupil_offset_x s) (pupil_offset_y s) (tear_fall_offset s)
    (diamond_mouth_phase s) (sweat_drop_offset s) (face_sz s) (eye_cw s) (mouth_cw s)
    (mouth_ch s) (anim_timer s) (initialized s) (bounce_counter s) (pupil_counter s) (idle s)
    (diamond_direction s) (heart_direction s).

Definition set_eyebrow_height (v : Z) (s : face_state_t) : face_state_t :=
  mk_face_state (left_eye_canvas s) (right_eye_canvas s) (mouth_canvas s) (face_container s)
    (left_eye_buf s) (right_eye_buf s) (mouth_buf s) (config s) (current_emotion s)
    (target_emotion s) (left_eye_openness s) (right_eye_openness s) (mouth_curve s)
    (left_eyebrow_angle s) (right_eyebrow_angle s) v (transition_progress s) (last_blink_time s)
    (is_blinking s) (blink_phase s) (blush_intensity s) (bounce_offset s) (sparkle_phase s)
    (heart_beat_phase s) (pupil_offset_x s) (pupil_offset_y s) (tear_fall_offset s)
    (diamond_mouth_phase s) (sweat_drop_offset s) (face_sz s) (eye_cw s) (mouth_cw s)
    (mouth_ch s) (anim_timer s) (initialized s) (bounce_counter s) (pupil_counter s) (idle s)
    (diamond_direction s) (heart_direction s).

Definition set_transition_progress (v : Z) (s : face_state_t) : face_state_t :=
  mk_face_state (left_eye_canvas s) (right_eye_canvas s) (mouth_canvas s) (face_container s)
    (left_eye_buf s) (right_eye_buf s) (mouth_buf s) (config s) (current_emotion s)
    (target_emotion s) (left_eye_openness s) (right_eye_openness s) (mouth_curve s)
    (left_eyebrow_angle s) (right_eyebrow_angle s) (eyebrow_height s) v (last_blink_time s)
    (is_blinking s) (blink_phase s) (blush_intensity s) (bounce_offset s) (sparkle_phase s)
    (heart_beat_phase s) (pupil_offset_x s) (pupil_offset_y s) (tear_fall_offset s)
    (diamond_mouth_phase s) (sweat_drop_offset s) (face_sz s) (eye_cw s) (mouth_cw s)
    (mouth_ch s) (anim_timer s) (initialized s) (bounce_counter s) (pupil_counter s) (idle s)
    (diamond_direction s) (heart_direction s).

Definition set_last_blink_time (v : Z) (s : face_state_t) : face_state_t :=
  mk_face_state (left_eye_canvas s) (right_eye_canvas s) (mouth_canvas s) (face_container s)
    (left_eye_buf s) (right_eye_buf s) (mouth_buf s) (config s) (current_emotion s)
    (target_emotion s) (left_eye_openness s) (right_eye_openness s) (mouth_curve s)
    (left_eyebrow_angle s) (right_eyebrow_angle s) (eyebrow_height s) (transition_progress s) v
    (is_blinking s) (blink_phase s) (blush_intensity s) (bounce_offset s) (sparkle_phase s)
    (heart_beat_phase s) (pupil_offset_x s) (pupil_offset_y s) (tear_fall_offset s)
    (diamond_mouth_phase s) (sweat_drop_offset s) (face_sz s) (eye_cw s) (mouth_cw s)
    (mouth_ch s) (anim_timer s) (initialized s) (bounce_counter s) (pupil_counter s) (idle s)
    (diamond_direction s) (heart_direction s).

Definition set_is_blinking (v : bool) (s : face_state_t) : face_state_t :=
  mk_face_state (left_eye_canvas s) (right_eye_canvas s) (mouth_canvas s) (face_container s)
    (left_eye_buf s) (right_eye_buf s) (mouth_buf s) (config s) (current_emotion s)
    (target_emotion s) (left_eye_openness s) (right_eye_openness s) (mouth_curve s)
    (left_eyebrow_angle s) (right_eyebrow_angle s) (eyebrow_height s) (transition_progress s)
    (last_blink_time s) v (blink_phase s) (blush_intensity s) (bounce_offset s)
    (sparkle_phase s) (heart_beat_phase s) (pupil_offset_x s) (pupil_offset_y s)
    (tear_fall_offset s) (diamond_mouth_phase s) (sweat_drop_offset s) (face_sz s) (eye_cw s)
    (mouth_cw s) (mouth_ch s) (anim_timer s) (initialized s) (bounce_counter s)
    (pupil_counter s) (idle s) (diamond_direction s) (heart_direction s).

Definition set_blink_phase (v : Z) (s : face_state_t) : face_state_t :=
  mk_face_state (left_eye_canvas s) (right_eye_canvas s) (mouth_canvas s) (face_container s)
    (left_eye_buf s) (right_eye_buf s) (mouth_buf s) (config s) (current_emotion s)
    (target_emotion s) (left_eye_openness s) (right_eye_openness s) (mouth_curve s)
    (left_eyebrow_angle s) (right_eyebrow_angle s) (eyebrow_height s) (transition_progress s)
    (last_blink_time s) (is_blinking s) v (blush_intensity s) (bounce_offset s)
    (sparkle_phase s) (heart_beat_phase s) (pupil_offset_x s) (pupil_offset_y s)
    (tear_fall_offset s) (diamond_mouth_phase s) (sweat_drop_offset s) (face_sz s) (eye_cw s)
    (mouth_cw s) (mouth_ch s) (anim_timer s) (initialized s) (bounce_counter s)
    (pupil_counter s) (idle s) (diamond_direction s) (heart_direction s).

Definition set_blush_intensity (v : Z) (s : face_state_t) : face_state_t :=
  mk_face_state (left_eye_canvas s) (right_eye_canvas s) (mouth_canvas s) (face_container s)
    (left_eye_buf s) (right_eye_buf s) (mouth_buf s) (config s) (current_emotion s)
    (target_emotion s) (left_eye_openness s) (right_eye_openness s) (mouth_curve s)
    (left_eyebrow_angle s) (right_eyebrow_angle s) (eyebrow_height s) (transition_progress s)
    (last_blink_time s) (is_blinking s) (blink_phase s) v (bounce_offset s) (sparkle_phase s)
    (heart_beat_phase s) (pupil_offset_x s) (pupil_offset_y s) (tear_fall_offset s)
    (diamond_mouth_phase s) (sweat_drop_offset s) (face_sz s) (eye_cw s) (mouth_cw s)
    (mouth_ch s) (anim_timer s) (initialized s) (bounce_counter s) (pupil_counter s) (idle s)
    (diamond_direction s) (heart_direction s).

Definition set_bounce_offset (v : Z) (s : face_state_t) : face_state_t :=
  mk_face_state (left_eye_canvas s) (right_eye_canvas s) (mouth_canvas s) (face_container s)
    (left_eye_buf s) (right_eye_buf s) (mouth_buf s) (config s) (current_emotion s)
    (target_emotion s) (left_eye_openness s) (right_eye_openness s) (mouth_curve s)
    (left_eyebrow_angle s) (right_eyebrow_angle s) (eyebrow_height s) (transition_progress s)
    (last_blink_time s) (is_blinking s) (blink_phase s) (blush_intensity s) v (sparkle_phase s)
    (heart_beat_phase s) (pupil_offset_x s) (pupil_offset_y s) (tear_fall_offset s)
    (diamond_mouth_phase s) (sweat_drop_offset s) (face_sz s) (eye_cw s) (mouth_cw s)
    (mouth_ch s) (anim_timer s) (initialized s) (bounce_counter s) (pupil_counter s) (idle s)
    (diamond_direction s) (heart_direction s).

Definition set_sparkle_phase (v : Z) (s : face_state_t) : face_state_t :=
  mk_face_state (left_eye_canvas s) (right_eye_canvas s) (mouth_canvas s) (face_container s)
    (left_eye_buf s) (right_eye_buf s) (mouth_buf s) (config s) (current_emotion s)
    (target_emotion s) (left_eye_openness s) (right_eye_openness s) (mouth_curve s)
    (left_eyebrow_angle s) (right_eyebrow_angle s) (eyebrow_height s) (transition_progress s)
    (last_blink_time s) (is_blinking s) (blink_phase s) (blush_intensity s) (bounce_offset s) v
    (heart_beat_phase s) (pupil_offset_x s) (pupil_offset_y s) (tear_fall_offset s)
    (diamond_mouth_phase s) (sweat_drop_offset s) (face_sz s) (eye_cw s) (mouth_cw s)
    (mouth_ch s) (anim_timer s) (initialized s) (bounce_counter s) (pupil_counter s) (idle s)
    (diamond_direction s) (heart_direction s).

Definition set_heart_beat_phase (v : Z) (s : face_state_t) : face_state_t :=
  mk_face_state (left_eye_canvas s) (right_eye_canvas s) (mouth_canvas s) (face_container s)
    (left_eye_buf s) (right_eye_buf s) (mouth_buf s) (config s) (current_emotion s)
    (target_emotion s) (left_eye_openness s) (right_eye_openness s) (mouth_curve s)
    (left_eyebrow_angle s) (right_eyebrow_angle s) (eyebrow_height s) (transition_progress s)
    (last_blink_time s) (is_blinking s) (blink_phase s) (blush_intensity s) (bounce_offset s)
    (sparkle_phase s) v (pupil_offset_x s) (pupil_offset_y s) (tear_fall_offset s)
    (diamond_mouth_phase s) (sweat_drop_offset s) (face_sz s) (eye_cw s) (mouth_cw s)
    (mouth_ch s) (anim_timer s) (initialized s) (bounce_counter s) (pupil_counter s) (idle s)
    (diamond_direction s) (heart_direction s).

Definition set_pupil_offset_x (v : Z) (s : face_state_t) : face_state_t :=
  mk_face_state (left_eye_canvas s) (right_eye_canvas s) (mouth_canvas s) (face_container s)
    (left_eye_buf s) (right_eye_buf s) (mouth_buf s) (config s) (current_emotion s)
    (target_emotion s) (left_eye_openness s) (right_eye_openness s) (mouth_curve s)
    (left_eyebrow_angle s) (right_eyebrow_angle s) (eyebrow_height s) (transition_progress s)
    (last_blink_time s) (is_blinking s) (blink_phase s) (blush_intensity s) (bounce_offset s)
    (sparkle_phase s) (heart_beat_phase s) v (pupil_offset_y s) (tear_fall_offset s)
    (diamond_mouth_phase s) (sweat_drop_offset s) (face_sz s) (eye_cw s) (mouth_cw s)
    (mouth_ch s) (anim_timer s) (initialized s) (bounce_counter s) (pupil_counter s) (idle s)
    (diamond_direction s) (heart_direction s).

Definition set_pupil_offset_y (v : Z) (s : face_state_t) : face_state_t :=
  mk_face_state (left_eye_canvas s) (right_eye_canvas s) (mouth_canvas s) (face_container s)
    (left_eye_buf s) (right_eye_buf s) (mouth_buf s) (config s) (current_emotion s)
    (target_emotion s) (left_eye_openness s) (right_eye_openness s) (mouth_curve s)
    (left_eyebrow_angle s) (right_eyebrow_angle s) (eyebrow_height s) (transition_progress s)
    (last_blink_time s) (is_blinking s) (blink_phase s) (blush_intensity s) (bounce_offset s)
    (sparkle_phase s) (heart_beat_phase s) (pupil_offset_x s) v (tear_fall_offset s)
    (diamond_mouth_phase s) (sweat_drop_offset s) (face_sz s) (eye_cw s) (mouth_cw s)
    (mouth_ch s) (anim_timer s) (initialized s) (bounce_counter s) (pupil_counter s) (idle s)
    (diamond_direction s) (heart_direction s).

Definition set_tear_fall_offset (v : Z) (s : face_state_t) : face_state_t :=
  mk_face_state (left_eye_canvas s) (right_eye_canvas s) (mouth_canvas s) (face_container s)
    (left_eye_buf s) (right_eye_buf s) (mouth_buf s) (config s) (current_emotion s)
    (target_emotion s) (left_eye_openness s) (right_eye_openness s) (mouth_curve s)
    (left_eyebrow_angle s) (right_eyebrow_angle s) (eyebrow_height s) (transition_progress s)
    (last_blink_time s) (is_blinking s) (blink_phase s) (blush_intensity s) (bounce_offset s)
    (sparkle_phase s) (heart_beat_phase s) (pupil_offset_x s) (pupil_offset_y s) v
    (diamond_mouth_phase s) (sweat_drop_offset s) (face_sz s) (eye_cw s) (mouth_cw s)
    (mouth_ch s) (anim_timer s) (initialized s) (bounce_counter s) (pupil_counter s) (idle s)
    (diamond_direction s) (heart_direction s).

Definition set_diamond_mouth_phase (v : Z) (s : face_state_t) : face_state_t :=
  mk_face_state (left_eye_canvas s) (right_eye_canvas s) (mouth_canvas s) (face_container s)
    (left_eye_buf s) (right_eye_buf s) (mouth_buf s) (config s) (current_emotion s)
    (target_emotion s) (left_eye_openness s) (right_eye_openness s) (mouth_curve s)
    (left_eyebrow_angle s) (right_eyebrow_angle s) (eyebrow_height s) (transition_progress s)
    (last_blink_time s) (is_blinking s) (blink_phase s) (blush_intensity s) (bounce_offset s)
    (sparkle_phase s) (heart_beat_phase s) (pupil_offset_x s) (pupil_offset_y s)
    (tear_fall_offset s) v (sweat_drop_offset s) (face_sz s) (eye_cw s) (mouth_cw s)
    (mouth_ch s) (anim_timer s) (initialized s) (bounce_counter s) (pupil_counter s) (idle s)
    (diamond_direction s) (heart_direction s).

Definition set_sweat_drop_offset (v : Z) (s : face_state_t) : face_state_t :=
  mk_face_state (left_eye_canvas s) (right_eye_canvas s) (mouth_canvas s) (face_container s)
    (left_eye_buf s) (right_eye_buf s) (mouth_buf s) (config s) (current_emotion s)
    (target_emotion s) (left_eye_openness s) (right_eye_openness s) (mouth_curve s)
    (left_eyebrow_angle s) (right_eyebrow_angle s) (eyebrow_height s) (transition_progress s)
    (last_blink_time s) (is_blinking s) (blink_phase s) (blush_intensity s) (bounce_offset s)
    (sparkle_phase s) (heart_beat_phase s) (pupil_offset_x s) (pupil_offset_y s)
    (tear_fall_offset s) (diamond_mouth_phase s) v (face_sz s) (eye_cw s) (mouth_cw s)
    (mouth_ch s) (anim_timer s) (initialized s) (bounce_counter s) (pupil_counter s) (idle s)
    (diamond_direction s) (heart_direction s).

Definition set_face_sz (v : Z) (s : face_state_t) : face_state_t :=
  mk_face_state (left_eye_canvas s) (right_eye_canvas s) (mouth_canvas s) (face_container s)
    (left_eye_buf s) (right_eye_buf s) (mouth_buf s) (config s) (current_emotion s)
    (target_emotion s) (left_eye_openness s) (right_eye_openness s) (mouth_curve s)
    (left_eyebrow_angle s) (right_eyebrow_angle s) (eyebrow_height s) (transition_progress s)
    (last_blink_time s) (is_blinking s) (blink_phase s) (blush_intensity s) (bounce_offset s)
    (sparkle_phase s) (heart_beat_phase s) (pupil_offset_x s) (pupil_offset_y s)
    (tear_fall_offset s) (diamond_mouth_phase s) (sweat_drop_offset s) v (eye_cw s) (mouth_cw s)
    (mouth_ch s) (anim_timer s) (initialized s) (bounce_counter s) (pupil_counter s) (idle s)
    (diamond_direction s) (heart_direction s).

Definition set_eye_cw (v : Z) (s : face_state_t) : face_state_t :=
  mk_face_state (left_eye_canvas s) (right_eye_canvas s) (mouth_canvas s) (face_container s)
    (left_eye_buf s) (right_eye_buf s) (mouth_buf s) (config s) (current_emotion s)
    (target_emotion s) (left_eye_openness s) (right_eye_openness s) (mouth_curve s)
    (left_eyebrow_angle s) (right_eyebrow_angle s) (eyebrow_height s) (transition_progress s)
    (last_blink_time s) (is_blinking s) (blink_phase s) (blush_intensity s) (bounce_offset s)
    (sparkle_phase s) (heart_beat_phase s) (pupil_offset_x s) (pupil_offset_y s)
    (tear_fall_offset s) (diamond_mouth_phase s) (sweat_drop_offset s) (face_sz s) v
    (mouth_cw s) (mouth_ch s) (anim_timer s) (initialized s) (bounce_counter s)
    (pupil_counter s) (idle s) (diamond_direction s) (heart_direction s).

Definition set_mouth_cw (v : Z) (s : face_state_t) : face_state_t :=
  mk_face_state (left_eye_canvas s) (right_eye_canvas s) (mouth_canvas s) (face_container s)
    (left_eye_buf s) (right_eye_buf s) (mouth_buf s) (config s) (current_emotion s)
    (target_emotion s) (left_eye_openness s) (right_eye_openness s) (mouth_curve s)
    (left_eyebrow_angle s) (right_eyebrow_angle s) (eyebrow_height s) (transition_progress s)
    (last_blink_time s) (is_blinking s) (blink_phase s) (blush_intensity s) (bounce_offset s)
    (sparkle_phase s) (heart_beat_phase s) (pupil_offset_x s) (pupil_offset_y s)
    (tear_fall_offset s) (diamond_mouth_phase s) (sweat_drop_offset s) (face_sz s) (eye_cw s) v
    (mouth_ch s) (anim_timer s) (initialized s) (bounce_counter s) (pupil_counter s) (idle s)
    (diamond_direction s) (heart_direction s).

Definition set_mouth_ch (v : Z) (s : face_state_t) : face_state_t :=
  mk_face_state (left_eye_canvas s) (right_eye_canvas s) (mouth_canvas s) (face_container s)
    (left_eye_buf s) (right_eye_buf s) (mouth_buf s) (config s) (current_emotion s)
    (target_emotion s) (left_eye_openness s) (right_eye_openness s) (mouth_curve s)
    (left_eyebrow_angle s) (right_eyebrow_angle s) (eyebrow_height s) (transition_progress s)
    (last_blink_time s) (is_blinking s) (blink_phase s) (blush_intensity s) (bounce_offset s)
    (sparkle_phase s) (heart_beat_phase s) (pupil_offset_x s) (pupil_offset_y s)
    (tear_fall_offset s) (diamond_mouth_phase s) (sweat_drop_offset s) (face_sz s) (eye_cw s)
    (mouth_cw s) v (anim_timer s) (initialized s) (bounce_counter s) (pupil_counter s) (idle s)
    (diamond_direction s) (heart_direction s).

Definition set_anim_timer (v : bool) (s : face_state_t) : face_state_t :=
  mk_face_state (left_eye_canvas s) (right_eye_canvas s) (mouth_canvas s) (face_container s)
    (left_eye_buf s) (right_eye_buf s) (mouth_buf s) (config s) (current_emotion s)
    (target_emotion s) (left_eye_openness s) (right_eye_openness s) (mouth_curve s)
    (left_eyebrow_angle s) (right_eyebrow_angle s) (eyebrow_height s) (transition_progress s)
    (last_blink_time s) (is_blinking s) (blink_phase s) (blush_intensity s) (bounce_offset s)
    (sparkle_phase s) (heart_beat_phase s) (pupil_offset_x s) (pupil_offset_y s)
    (tear_fall_offset s) (diamond_mouth_phase s) (sweat_drop_offset s) (face_sz s) (eye_cw s)
    (mouth_cw s) (mouth_ch s) v (initialized s) (bounce_counter s) (pupil_counter s) (idle s)
    (diamond_direction s) (heart_direction s).

Definition set_initialized (v : bool) (s : face_state_t) : face_state_t :=
  mk_face_state (left_eye_canvas s) (right_eye_canvas s) (mouth_canvas s) (face_container s)
    (left_eye_buf s) (right_eye_buf s) (mouth_buf s) (config s) (current_emotion s)
    (target_emotion s) (left_eye_openness s) (right_eye_openness s) (mouth_curve s)
    (left_eyebrow_angle s) (right_eyebrow_angle s) (eyebrow_height s) (transition_progress s)
    (last_blink_time s) (is_blinking s) (blink_phase s) (blush_intensity s) (bounce_offset s)
    (sparkle_phase s) (heart_beat_phase s) (pupil_offset_x s) (pupil_offset_y s)
    (tear_fall_offset s) (diamond_mouth_phase s) (sweat_drop_offset s) (face_sz s) (eye_cw s)
    (mouth_cw s) (mouth_ch s) (anim_timer s) v (bounce_counter s) (pupil_counter s) (idle s)
    (diamond_direction s) (heart_direction s).

Definition set_bounce_counter (v : Z) (s : face_state_t) : face_state_t :=
  mk_face_state (left_eye_canvas s) (right_eye_canvas s) (mouth_canvas s) (face_container s)
    (left_eye_buf s) (right_eye_buf s) (mouth_buf s) (config s) (current_emotion s)
    (target_emotion s) (left_eye_openness s) (right_eye_openness s) (mouth_curve s)
    (left_eyebrow_angle s) (right_eyebrow_angle s) (eyebrow_height s) (transition_progress s)
    (last_blink_time s) (is_blinking s) (blink_phase s) (blush_intensity s) (bounce_offset s)
    (sparkle_phase s) (heart_beat_phase s) (pupil_offset_x s) (pupil_offset_y s)
    (tear_fall_offset s) (diamond_mouth_phase s) (sweat_drop_offset s) (face_sz s) (eye_cw s)
    (mouth_cw s) (mouth_ch s) (anim_timer s) (initialized s) v (pupil_counter s) (idle s)
    (diamond_direction s) (heart_direction s).

Definition set_pupil_counter (v : Z) (s : face_state_t) : face_state_t :=
  mk_face_state (left_eye_canvas s) (right_eye_canvas s) (mouth_canvas s) (face_container s)
    (left_eye_buf s) (right_eye_buf s) (mouth_buf s) (config s) (current_emotion s)
    (target_emotion s) (left_eye_openness s) (right_eye_openness s) (mouth_curve s)
    (left_eyebrow_angle s) (right_eyebrow_angle s) (eyebrow_height s) (transition_progress s)
    (last_blink_time s) (is_blinking s) (blink_phase s) (blush_intensity s) (bounce_offset s)
    (sparkle_phase s) (heart_beat_phase s) (pupil_offset_x s) (pupil_offset_y s)
    (tear_fall_offset s) (diamond_mouth_phase s) (sweat_drop_offset s) (face_sz s) (eye_cw s)
    (mouth_cw s) (mouth_ch s) (anim_timer s) (initialized s) (bounce_counter s) v (idle s)
    (diamond_direction s) (heart_direction s).

Definition set_idle (v : Z) (s : face_state_t) : face_state_t :=
  mk_face_state (left_eye_canvas s) (right_eye_canvas s) (mouth_canvas s) (face_container s)
    (left_eye_buf s) (right_eye_buf s) (mouth_buf s) (config s) (current_emotion s)
    (target_emotion s) (left_eye_openness s) (right_eye_openness s) (mouth_curve s)
    (left_eyebrow_angle s) (right_eyebrow_angle s) (eyebrow_height s) (transition_progress s)
    (last_blink_time s) (is_blinking s) (blink_phase s) (blush_intensity s) (bounce_offset s)
    (sparkle_phase s) (heart_beat_phase s) (pupil_offset_x s) (pupil_offset_y s)
    (tear_fall_offset s) (diamond_mouth_phase s) (sweat_drop_offset s) (face_sz s) (eye_cw s)
    (mouth_cw s) (mouth_ch s) (anim_timer s) (initialized s) (bounce_counter s)
    (pupil_counter s) v (diamond_direction s) (heart_direction s).

Definition set_diamond_direction (v : Z) (s : face_state_t) : face_state_t :=
  mk_face_state (left_eye_canvas s) (right_eye_canvas s) (mouth_canvas s) (face_container s)
    (left_eye_buf s) (right_eye_buf s) (mouth_buf s) (config s) (current_emotion s)
    (target_emotion s) (left_eye_openness s) (right_eye_openness s) (mouth_curve s)
    (left_eyebrow_angle s) (right_eyebrow_angle s) (eyebrow_height s) (transition_progress s)
    (last_blink_time s) (is_blinking s) (blink_phase s) (blush_intensity s) (bounce_offset s)
    (sparkle_phase s) (heart_beat_phase s) (pupil_offset_x s) (pupil_offset_y s)
    (tear_fall_offset s) (diamond_mouth_phase s) (sweat_drop_offset s) (face_sz s) (eye_cw s)
    (mouth_cw s) (mouth_ch s) (anim_timer s) (initialized s) (bounce_counter s)
    (pupil_counter s) (idle s) v (heart_direction s).

Definition set_heart_direction (v : Z) (s : face_state_t) : face_state_t :=
  mk_face_state (left_eye_canvas s) (right_eye_canvas s) (mouth_canvas s) (face_container s)
    (left_eye_buf s) (right_eye_buf s) (mouth_buf s) (config s) (current_emotion s)
    (target_emotion s) (left_eye_openness s) (right_eye_openness s) (mouth_curve s)
    (left_eyebrow_angle s) (right_eyebrow_angle s) (eyebrow_height s) (transition_progress s)
    (last_blink_time s) (is_blinking s) (blink_phase s) (blush_intensity s) (bounce_offset s)
    (sparkle_phase s) (heart_beat_phase s) (pupil_offset_x s) (pupil_offset_y s)
    (tear_fall_offset s) (diamond_mouth_phase s) (sweat_drop_offset s) (face_sz s) (eye_cw s)
    (mouth_cw s) (mouth_ch s) (anim_timer s) (initialized s) (bounce_counter s)
    (pupil_counter s) (idle s) (diamond_direction s) v.

Definition face_state_zero : face_state_t :=
  mk_face_state false false false None false false false config_zero FACE_NEUTRAL FACE_NEUTRAL 0
    0 0 0 0 0 0 0 false 0 0 0 0 0 0 0 0 0 0 0 0 0 0 false false 0 0 0 1 (-1).

(** ** Floating-point sites

    One constructor per floating-point expression of [face_animation_init]
    and [animation_timer_cb]; the comment gives the C expression, with [bc]
    for [bounce_counter] and [pc] for [pupil_counter].  The oracle returns
    the value of the expression after its cast to an integer type. *)

Inductive float_site : Type :=
  (* face_animation_init, argument face_sz *)
  | init_eye_cw            (* (uint16_t)(face_sz * 0.45f) *)
  | init_mouth_cw          (* (uint16_t)(face_sz * 0.45f) *)
  | init_mouth_ch          (* (uint16_t)(face_sz * 0.38f) *)
  (* pupil switch *)
  | happy_pupil_x          (* (int8_t)(7.0f * cosf(ha)), ha = (pc % 80) * 0.1572f; argument pc % 80 *)
  | happy_pupil_y          (* (int8_t)(4.0f * sinf(ha)); argument pc % 80 *)
  | worried_pupil_x        (* (int8_t)(5.0f * sinf(pc * 0.06f)) *)
  | worried_pupil_y        (* (int8_t)(1.0f * sinf(pc * 0.09f)) *)
  | orbit_pupil_x          (* 6 * cos(angle), angle = (pc % 100) * 0.125; argument pc % 100 *)
  | orbit_pupil_y          (* 4 * sin(angle); argument pc % 100 *)
  | pupil_decay            (* offset * 0.8; argument the offset *)
  | confused_pupil_x       (* (int8_t)(7.0f * cosf(pc * 0.03f)) *)
  | confused_pupil_y       (* (int8_t)(5.0f * sinf(pc * 0.05f)) *)
  | cool_pupil_rise        (* (int8_t)(8.0f * (cp / 60.0f)); argument cp *)
  | cool_pupil_fall        (* (int8_t)(8.0f * (1.0f - (cp - 120) / 60.0f)); argument cp *)
  (* idle switch, argument bc unless stated *)
  | happy_bounce           (* (int8_t)(3.5f * sinf(bc * 0.28f)) *)
  | happy_eye              (* (uint8_t)(13 * fabsf(sinf(bc * 0.28f))) *)
  | happy_sparkle          (* (uint8_t)(35 * fabsf(sinf(bc * 0.20f))) *)
  | happy_blush            (* (uint8_t)(18 * fabsf(sinf(bc * 0.13f))) *)
  | happy_mouth            (* (int8_t)(8 * fabsf(sinf(bc * 0.28f))) *)
  | worried_bounce         (* (int8_t)(1.2f * sinf(bc * 0.10f) + 0.8f * sinf(bc * 0.23f)) *)
  | worried_brow           (* (int8_t)(7 * fabsf(sinf(bc * 0.17f))) *)
  | worried_brow_height    (* (int8_t)(4 * fabsf(sinf(bc * 0.17f))) *)
  | worried_mouth          (* (int8_t)(12 * fabsf(sinf(bc * 0.13f))) *)
  | love_bounce            (* (int8_t)(2.0 * sin(bc * 0.12)) *)
  | love_eye               (* (uint8_t)(88 + 12 * fabs(sin(bc * 0.15))) *)
  | love_sparkle           (* (uint8_t)(72 + 28 * fabs(sin(bc * 0.25))) *)
  | love_heart             (* (uint8_t)(65 + 35 * fabs(sin(bc * 0.20))) *)
  | love_blush             (* (uint8_t)(80 + 15 * fabs(sin(bc * 0.15))) *)
  | angry_blush            (* (uint8_t)(40 + 28 * fabs(sin(bc * 0.3))) *)
  | angry_mouth            (* (int8_t)(8 * sin(bc * 0.5)) *)
  | angry_brow             (* (int8_t)(5 * sin(bc * 0.4)) *)
  | sleepy_bounce          (* (int8_t)(3.0 * sin(bc * 0.04)) *)
  | sleepy_droop           (* (int16_t)(20 * fabs(sin(bc * 0.03))) *)
  | surprised_eye          (* (int8_t)(7 * fabs(sin(bc * 0.4))) *)
  | cry_bounce             (* (int8_t)(2 * sin(bc * 0.6)) *)
  | cry_squeeze            (* (int16_t)(20 * fabs(sin(bc * 0.3))) *)
  | cry_blush              (* (int8_t)(18 * fabs(sin(bc * 0.3))) *)
  | sad_bounce             (* (int8_t)(1.5 * sin(bc * 0.06)) *)
  | sad_pupil_y            (* (int8_t)(3 * fabs(sin(bc * 0.08))) *)
  | wink_sparkle           (* (int8_t)(38 * fabs(sin(bc * 0.2))) *)
  | wink_bounce            (* (int8_t)(1.5 * sin(bc * 0.25)) *)
  | smirk_brow             (* (int8_t)(8 * sin(bc * 0.10)) *)
  | smirk_brow_height      (* (int8_t)(4 * sin(bc * 0.10)) *)
  | smirk_pupil_x          (* (int8_t)(4 * sin(bc * 0.07)) *)
  | smirk_sparkle          (* (int8_t)(30 * fabs(sin(bc * 0.15))) *)
  | smirk_bounce           (* (int8_t)(sin(bc * 0.10)) *)
  | playful_mouth          (* (int8_t)(10 * sin(bc * 0.35)) *)
  | playful_sparkle        (* (int8_t)(28 * fabs(sin(bc * 0.28))) *)
  | playful_bounce         (* (int8_t)(2.5 * sin(bc * 0.30)) *)
  | silly_bounce           (* (int8_t)(3.5 * sin(bc * 0.25)) *)
  | silly_sparkle          (* (int8_t)(37 * fabs(sin(bc * 0.30))) *)
  | excited_bounce         (* (int8_t)(3.5f * sinf(bc * 0.55f)) *)
  | excited_eye            (* (uint8_t)(10 * fabsf(sinf(bc * 0.55f))) *)
  | excited_sparkle        (* (uint8_t)(20 * fabsf(sinf(bc * 0.40f))) *)
  | excited_blush          (* (uint8_t)(20 * fabsf(sinf(bc * 0.20f))) *)
  | confused_bounce        (* (int8_t)(2.0f * sinf(bc * 0.07f) + 1.0f * sinf(bc * 0.19f)) *)
  | confused_brow_left     (* (int8_t)(12 * brow_wave), brow_wave = sinf(bc * 0.06f) *)
  | confused_brow_right    (* (int8_t)(6 * brow_wave) *)
  | confused_brow_height   (* (int8_t)(4 * fabsf(brow_wave)) *)
  | cool_bounce            (* (int8_t)(1.5f * sinf(bc * 0.04f)) *)
  | cool_sparkle           (* (uint8_t)(30 * fabsf(sinf(bc * 0.08f))) *)
  | cool_squint            (* (uint8_t)(8 * fabsf(sinf(bc * 0.05f))) *)
  | neutral_bounce         (* (int8_t)(1.2f * sinf(idle * 0.05f)); argument idle *)
  | neutral_gaze_right_out (* (int8_t)(7.0f * t), t = (gp - 160) / 35.0f; argument gp *)
  | neutral_gaze_right_in  (* (int8_t)(7.0f * (1.0f - t)), t = (gp - 240) / 35.0f; argument gp *)
  | neutral_gaze_down_out_x (* (int8_t)(-5.0f * t), t = (gp - 340) / 28.0f; argument gp *)
  | neutral_gaze_down_out_y (* (int8_t)(5.0f * t); argument gp *)
  | neutral_gaze_down_in_x (* (int8_t)(-5.0f * (1.0f - t)), t = (gp - 390) / 30.0f; argument gp *)
  | neutral_gaze_down_in_y (* (int8_t)(5.0f * (1.0f - t)); argument gp *)
  | neutral_brow_left      (* (int8_t)(8.0f * intensity), raw_t = (bp - 230) / 25.0f; argument bp *)
  | neutral_brow_right     (* (int8_t)(-2.0f * intensity); argument bp *)
  | neutral_brow_height    (* (int8_t)(-4.0f * intensity); argument bp *)
  | neutral_mouth          (* (int8_t)(14.0f * intensity), raw_t = (sp - 300) / 30.0f; argument sp *)
  | default_bounce.        (* (int8_t)(sinf(bc * 0.1f) * 0.5f) *)

(** What mathematics says about the sites that reach an eye or the mouth:
    [|sin x| <= 1], and the smile intensity of the neutral face is within
    [0, 1] on the arguments the code passes ([300 <= sp < 360]). *)
Definition channel_site_range (site : float_site) : option (Z * Z) :=
  match site with
  | happy_eye => Some (0, 13)
  | happy_mouth => Some (0, 8)
  | worried_mouth => Some (0, 12)
  | love_eye => Some (88, 100)
  | angry_mouth => Some (-8, 8)
  | sleepy_droop => Some (0, 20)
  | surprised_eye => Some (0, 7)
  | cry_squeeze => Some (0, 20)
  | playful_mouth => Some (-10, 10)
  | excited_eye => Some (0, 10)
  | cool_squint => Some (0, 8)
  | neutral_mouth => Some (0, 14)
  | _ => None
  end.

Definition channel_site_domain (site : float_site) (arg : Z) : bool :=
  match site with
  | neutral_mouth => (300 <=? arg) && (arg <? 360)
  | _ => true
  end.

Definition fp_bounded (fp : float_site -> Z -> Z) : Prop :=
  forall site arg lo hi,
    channel_site_range site = Some (lo, hi) ->
    channel_site_domain site arg = true ->
    lo <= fp site arg <= hi.

(** ** [update_emotion_parameters]

    The six out-parameters are returned as a record; the writes to
    [face_state] that the switch performs on the way are applied to the
    state that is returned with them. *)

Record emotion_params : Type := mk_params {
  p_left_eye : Z;
  p_right_eye : Z;
  p_mouth : Z;
  p_left_brow : Z;
  p_right_brow : Z;
  p_brow_height : Z
}.

(** The secondary effects every case but [FACE_NEUTRAL] writes. *)
Definition write_effects (blush sparkle heart : Z) (s : face_state_t) : face_state_t :=
  set_heart_beat_phase heart (set_sparkle_phase sparkle (set_blush_intensity blush s)).

Definition update_emotion_parameters (emotion : face_emotion_t) (s : face_state_t)
  : emotion_params * face_state_t :=
  match emotion with
  | FACE_NEUTRAL => (mk_params 100 100 0 0 0 0, set_blush_intensity 0 s)
  | FACE_HAPPY => (mk_params 96 96 90 (-4) (-4) (-5), write_effects 82 90 40 s)
  | FACE_WORRIED => (mk_params 78 78 28 18 18 (-7), write_effects 20 0 0 s)
  | FACE_SAD => (mk_params 60 60 (-75) (-15) 15 3, write_effects 0 0 0 s)
  | FACE_SURPRISED => (mk_params 100 100 50 0 0 (-10), write_effects 20 60 0 s)
  | FACE_ANGRY => (mk_params 75 75 (-45) 25 (-25) 5, write_effects 50 0 0 s)
  | FACE_SLEEPY => (mk_params 35 35 (-5) (-5) 5 8, write_effects 30 0 0 s)
  | FACE_WINK => (mk_params 85 15 70 8 (-8) (-2), write_effects 60 75 0 s)
  | FACE_LOVE => (mk_params 95 95 80 3 3 (-3), write_effects 90 100 100 s)
  | FACE_PLAYFUL => (mk_params 78 80 110 12 (-8) 0, write_effects 45 85 0 s)
  | FACE_SILLY => (mk_params 95 92 75 25 (-18) 4, write_effects 55 65 0 s)
  | FACE_SMIRK => (mk_params 80 75 40 15 (-5) (-5), write_effects 25 50 0 s)
  | FACE_CRY => (mk_params 70 70 (-70) (-15) 15 8, write_effects 35 0 0 s)
  | FACE_WORKING_HARD => (mk_params 65 65 0 22 (-22) 4, write_effects 60 0 0 s)
  | FACE_EXCITED => (mk_params 100 100 95 8 8 (-8), write_effects 85 100 80 s)
  | FACE_CONFUSED => (mk_params 88 75 12 (-18) 8 (-3), write_effects 15 0 0 s)
  | FACE_COOL => (mk_params 48 48 35 5 (-3) (-4), write_effects 10 40 0 s)
  | FACE_BLINK | FACE_EMOTION_COUNT => (mk_params 100 100 0 0 0 0, write_effects 0 0 0 s)
  end.

(** The table the switch encodes: the out-parameters do not depend on the
    state. *)
Definition profileOf (emotion : face_emotion_t) : emotion_params :=
  fst (update_emotion_parameters emotion face_state_zero).

(** The six resolved channels of a state, in the order of the
    out-parameters. *)
Definition channels (s : face_state_t) : emotion_params :=
  mk_params (left_eye_openness s) (right_eye_openness s) (mouth_curve s)
    (left_eyebrow_angle s) (right_eyebrow_angle s) (eyebrow_height s).

Definition store_channels (p : emotion_params) (s : face_state_t) : face_state_t :=
  set_eyebrow_height (p_brow_height p)
    (set_right_eyebrow_angle (p_right_brow p)
      (set_left_eyebrow_angle (p_left_brow p)
        (set_mouth_curve (p_mouth p)
          (set_right_eye_openness (p_right_eye p)
            (set_left_eye_openness (p_left_eye p) s))))).

(** ** [face_trigger_blink] *)

Definition face_trigger_blink (s : face_state_t) : face_state_t :=
  if negb (initialized s) || is_blinking s then s
  else set_blink_phase 0 (set_is_blinking true s).

(** ** [face_set_emotion] *)

Definition face_set_emotion (emotion : face_emotion_t) (smooth : bool) (s : face_state_t)
  : face_state_t :=
  if negb (initialized s) || (emotion_code FACE_EMOTION_COUNT <=? emotion_code emotion) then s
  else
    let s := set_target_emotion emotion s in
    if negb smooth then
      let s := set_current_emotion emotion s in
      let s := set_transition_progress 100 s in
      let '(p, s) := update_emotion_parameters emotion s in
      store_channels p s
    else set_transition_progress 0 s.

Definition face_get_emotion (s : face_state_t) : face_emotion_t := current_emotion s.

(** ** [face_set_eye_openness], [face_set_mouth_shape]

    The parameters are [uint8_t] and [int8_t]: an [int] argument is
    converted at the call. *)

Definition face_set_eye_openness (left_eye right_eye : Z) (s : face_state_t) : face_state_t :=
  let left_eye := to_uint8 left_eye in
  let right_eye := to_uint8 right_eye in
  if negb (initialized s) then s
  else
    let s := set_left_eye_openness (if 100 <? left_eye then 100 else left_eye) s in
    set_right_eye_openness (if 100 <? right_eye then 100 else right_eye) s.

Definition face_set_mouth_shape (value : Z) (s : face_state_t) : face_state_t :=
  let value := to_int8 value in
  if negb (initialized s) then s
  else
    let value := if 100 <? value then 100 else value in
    let value := if value <? -100 then -100 else value in
    set_mouth_curve value s.

(** ** [face_set_auto_blink], [face_set_position], [face_get_container] *)

Definition face_set_auto_blink (enable : bool) (s : face_state_t) : face_state_t :=
  set_config
    (mk_face_config (parent (config s)) (animation_speed (config s))
       (blink_interval (config s)) enable) s.

(** [lv_obj_set_pos] on the container; the coordinates are [int16_t]. *)

Definition face_set_position (x y : Z) (s : face_state_t) : face_state_t :=
  if negb (initialized s) then s
  else
    match face_container s with
    | Some _ => set_face_container (Some (to_int16 x, to_int16 y)) s
    | None => s
    end.

Definition face_get_container (s : face_state_t) : option (Z * Z) :=
  if initialized s then face_container s else None.

(** ** [animation_timer_cb]: blink scheduler and transition blender *)

(** [face_state.blink_phase += 20] and the opening/closing curve
    (the [if (face_state.is_blinking)] branch). *)
Definition blink_step (current_time : Z) (s : face_state_t) : face_state_t :=
  let s := set_blink_phase (to_uint8 (blink_phase s + 20)) s in
  let s :=
    if 100 <=? blink_phase s then
      set_last_blink_time current_time (set_is_blinking false (set_blink_phase 0 s))
    else s in
  let blink_openness :=
    to_uint8 (if blink_phase s <? 50 then 100 - blink_phase s * 2
              else (blink_phase s - 50) * 2) in
  set_right_eye_openness blink_openness (set_left_eye_openness blink_openness s).

(** [current + ((target - current) * progress) / 100] in [int]. *)
Definition blend (current target progress : Z) : Z :=
  current + Z.quot ((target - current) * progress) 100.

Definition blend_params (current target : emotion_params) (progress : Z) : emotion_params :=
  mk_params
    (to_uint8 (blend (p_left_eye current) (p_left_eye target) progress))
    (to_uint8 (blend (p_right_eye current) (p_right_eye target) progress))
    (to_int8 (blend (p_mouth current) (p_mouth target) progress))
    (to_int8 (blend (p_left_brow current) (p_left_brow target) progress))
    (to_int8 (blend (p_right_brow current) (p_right_brow target) progress))
    (to_int8 (blend (p_brow_height current) (p_brow_height target) progress)).

(** The [current_emotion != target_emotion && transition_progress < 100]
    branch.  The profile of [current_emotion] is read after the progress
    has been advanced, so on the last step it is already the target's. *)
Definition transition_step (s : face_state_t) : face_state_t :=
  let s := set_transition_progress (to_uint8 (transition_progress s + 10)) s in
  let s :=
    if 100 <=? transition_progress s then
      set_current_emotion (target_emotion s) (set_transition_progress 100 s)
    else s in
  let rt := update_emotion_parameters (target_emotion s) s in
  let rc := update_emotion_parameters (current_emotion (snd rt)) (snd rt) in
  let s := snd rc in
  store_channels (blend_params (fst rc) (fst rt) (transition_progress s)) s.

(** The auto-blink test, in [uint32_t]. *)
Definition blink_due (current_time : Z) (s : face_state_t) : bool :=
  auto_blink (config s) &&
  (blink_interval (config s) <? to_uint32 (current_time - last_blink_time s)).

Definition transition_pending (s : face_state_t) : bool :=
  negb (emotion_eqb (current_emotion s) (target_emotion s)) && (transition_progress s <? 100).

(** The [if / else if / else if] chain that opens the callback: at most
    one of blink, auto-blink trigger and transition runs in a tick. *)
Definition scheduler_step (current_time : Z) (s : face_state_t) : face_state_t :=
  if is_blinking s then blink_step current_time s
  else if blink_due current_time s then face_trigger_blink s
  else if transition_pending s then transition_step s
  else s.

(** [bounce_counter++; pupil_counter++;] *)
Definition count_step (s : face_state_t) : face_state_t :=
  set_pupil_counter (to_uint32 (pupil_counter s + 1))
    (set_bounce_counter (to_uint32 (bounce_counter s + 1)) s).

(** ** [animation_timer_cb]: tears, sweat, the diamond mouth *)

Definition tear_step (s : face_state_t) : face_state_t :=
  match current_emotion s with
  | FACE_SAD | FACE_CRY =>
      let s := set_tear_fall_offset (to_uint8 (tear_fall_offset s + 2)) s in
      if 80 <? tear_fall_offset s then set_tear_fall_offset 0 s else s
  | _ => set_tear_fall_offset 0 s
  end.

Definition sweat_step (s : face_state_t) : face_state_t :=
  match current_emotion s with
  | FACE_WORKING_HARD =>
      let s := set_sweat_drop_offset (to_uint8 (sweat_drop_offset s + 3)) s in
      if 100 <? sweat_drop_offset s then set_sweat_drop_offset 0 s else s
  | FACE_SLEEPY =>
      let s := set_sweat_drop_offset (to_uint8 (sweat_drop_offset s + 1)) s in
      if 100 <? sweat_drop_offset s then set_sweat_drop_offset 0 s else s
  | _ => set_sweat_drop_offset 0 s
  end.

Definition diamond_step (s : face_state_t) : face_state_t :=
  match current_emotion s with
  | FACE_SURPRISED =>
      let s :=
        set_diamond_mouth_phase
          (to_uint8 (diamond_mouth_phase s + diamond_direction s * 8)) s in
      if 100 <=? diamond_mouth_phase s then
        set_diamond_direction (-1) (set_diamond_mouth_phase 100 s)
      else if diamond_mouth_phase s <=? 50 then
        set_diamond_direction 1 (set_diamond_mouth_phase 50 s)
      else s
  | _ => set_diamond_mouth_phase 0 s
  end.

(** ** [animation_timer_cb]: decay of sparkle and heartbeat *)

Definition sparkle_decay (s : face_state_t) : face_state_t :=
  match current_emotion s with
  | FACE_NEUTRAL | FACE_ANGRY | FACE_SAD | FACE_CRY | FACE_SLEEPY | FACE_SURPRISED
  | FACE_WORKING_HARD | FACE_CONFUSED | FACE_WORRIED =>
      if 0 <? sparkle_phase s then
        set_sparkle_phase
          (if 2 <=? sparkle_phase s then to_uint8 (sparkle_phase s - 2) else 0) s
      else s
  | _ => s
  end.

(** [heart_beat_phase] is a [uint8_t]: the sum is stored modulo 256 before
    it is compared with 0 and 100. *)
Definition heart_decay (s : face_state_t) : face_state_t :=
  if emotion_eqb (current_emotion s) FACE_LOVE then s
  else if 0 <? heart_beat_phase s then
    let s := set_heart_beat_phase (to_uint8 (heart_beat_phase s + heart_direction s * 5)) s in
    if heart_beat_phase s <=? 0 then
      set_heart_direction 1 (set_heart_beat_phase 0 s)
    else if 100 <=? heart_beat_phase s then
      set_heart_direction (-1) (set_heart_beat_phase 100 s)
    else s
  else s.

(** ** [face_animation_deinit] *)

(** [memset(&face_state, 0, sizeof(face_state_t))]: the statics of the
    timer callback keep their values. *)
Definition face_animation_deinit (s : face_state_t) : face_state_t :=
  if negb (initialized s) then s
  else
    set_heart_direction (heart_direction s)
      (set_diamond_direction (diamond_direction s)
        (set_idle (idle s)
          (set_pupil_counter (pupil_counter s)
            (set_bounce_counter (bounce_counter s) face_state_zero)))).

Inductive esp_err_t : Type := ESP_OK | ESP_ERR_NO_MEM.

(** What [face_animation_init] reads from its environment: the size LVGL
    reports for the parent, the three [malloc] results and [lv_tick_get]
    (a [uint32_t], as is every tick time passed to the timer callback). *)
Record init_env : Type := mk_init_env {
  parent_w : Z;
  parent_h : Z;
  left_eye_alloc : bool;
  right_eye_alloc : bool;
  mouth_alloc : bool;
  init_tick : Z
}.

(** ** The public operations as data

    The observable states are those reached from the zero-initialised
    [face_state] by a sequence of public operations and timer ticks. *)

Inductive operation : Type :=
  | op_init (cfg : option face_config_t) (env : init_env)
  | op_deinit
  | op_set_emotion (emotion : face_emotion_t) (smooth : bool)
  | op_set_eye_openness (left_eye right_eye : Z)
  | op_set_mouth_shape (value : Z)
  | op_set_auto_blink (enable : bool)
  | op_trigger_blink
  | op_set_position (x y : Z)
  | op_timer (current_time : Z)
  | op_update (current_time : Z).

Section WithFloats.

Variable fp : float_site -> Z -> Z.

(** ** [face_animation_init] *)

Definition face_animation_init (cfg : option face_config_t) (env : init_env)
  (s : face_state_t) : esp_err_t * face_state_t :=
  if initialized s then (ESP_OK, s)
  else
    let s :=
      set_config
        (match cfg with
         | Some c => c
         | None => mk_face_config false DEFAULT_ANIM_SPEED_MS DEFAULT_BLINK_INTERVAL true
         end) s in
    let sz := to_uint16 (if parent_w env <? parent_h env then parent_w env else parent_h env) in
    let s := set_face_sz sz s in
    let s := set_eye_cw (to_uint16 (fp init_eye_cw sz)) s in
    let s := set_mouth_cw (to_uint16 (fp init_mouth_cw sz)) s in
    let s := set_mouth_ch (to_uint16 (fp init_mouth_ch sz)) s in
    let s := set_face_container (Some (0, 0)) s in
    let s := set_left_eye_buf (left_eye_alloc env) s in
    let s := set_right_eye_buf (right_eye_alloc env) s in
    let s := set_mouth_buf (mouth_alloc env) s in
    if negb (left_eye_buf s) || negb (right_eye_buf s) || negb (mouth_buf s) then
      (ESP_ERR_NO_MEM, s)
    else
      let s := set_left_eye_canvas true s in
      let s := set_right_eye_canvas true s in
      let s := set_mouth_canvas true s in
      let s := set_current_emotion FACE_NEUTRAL s in
      let s := set_target_emotion FACE_NEUTRAL s in
      let s := store_channels (mk_params 100 100 0 0 0 0) s in
      let s := set_transition_progress 100 s in
      let s := set_last_blink_time (init_tick env) s in
      let s := set_blush_intensity 0 s in
      let s := set_bounce_offset 0 s in
      let s := set_sparkle_phase 0 s in
      let s := set_heart_beat_phase 0 s in
      let s := set_anim_timer true s in
      (ESP_OK, set_initialized true s).

(** ** [animation_timer_cb]: the pupil switch *)

Definition set_pupil (x y : Z) (s : face_state_t) : face_state_t :=
  set_pupil_offset_y (to_int8 y) (set_pupil_offset_x (to_int8 x) s).

Definition pupil_motion (s : face_state_t) : face_state_t :=
  let pc := pupil_counter s in
  match current_emotion s with
  | FACE_HAPPY => set_pupil (fp happy_pupil_x (pc mod 80)) (fp happy_pupil_y (pc mod 80)) s
  | FACE_WORRIED => set_pupil (fp worried_pupil_x pc) (fp worried_pupil_y pc) s
  | FACE_PLAYFUL | FACE_LOVE =>
      if pc mod 100 <? 50 then
        set_pupil (fp orbit_pupil_x (pc mod 100)) (fp orbit_pupil_y (pc mod 100)) s
      else
        let s := set_pupil_offset_x (to_int8 (fp pupil_decay (pupil_offset_x s))) s in
        set_pupil_offset_y (to_int8 (fp pupil_decay (pupil_offset_y s))) s
  | FACE_SURPRISED => set_pupil 0 (-8) s
  | FACE_SLEEPY => set_pupil 0 5 s
  | FACE_SILLY => set_pupil (if (pc / 5) mod 2 =? 0 then -10 else 10) 0 s
  | FACE_WINK | FACE_SMIRK => set_pupil 5 0 s
  | FACE_WORKING_HARD => set_pupil 0 4 s
  | FACE_EXCITED =>
      set_pupil (if (pc / 3) mod 2 =? 0 then -9 else 9)
        (if (pc / 5) mod 2 =? 0 then -7 else 7) s
  | FACE_CONFUSED => set_pupil (fp confused_pupil_x pc) (fp confused_pupil_y pc) s
  | FACE_COOL =>
      let cp := pc mod 240 in
      if cp <? 60 then set_pupil (fp cool_pupil_rise cp) 0 s
      else if cp <? 120 then set_pupil 8 0 s
      else if cp <? 180 then set_pupil (fp cool_pupil_fall cp) 0 s
      else set_pupil 0 0 s
  | FACE_NEUTRAL | FACE_SAD | FACE_CRY | FACE_ANGRY | FACE_BLINK | FACE_EMOTION_COUNT =>
      set_pupil 0 0 s
  end.

(** ** [animation_timer_cb]: the idle-motion switch *)

Definition set_eyes (v : Z) (s : face_state_t) : face_state_t :=
  let s := set_left_eye_openness (to_uint8 v) s in
  set_right_eye_openness (left_eye_openness s) s.

(** [transition_done && !face_state.is_blinking] *)
Definition eyes_free (s : face_state_t) : bool :=
  (transition_progress s =? 100) && negb (is_blinking s).

Definition neutral_idle (s : face_state_t) : face_state_t :=
  let transition_done := transition_progress s =? 100 in
  let s := if transition_done then set_idle (to_uint32 (idle s + 1)) s else s in
  let s := set_bounce_offset (to_int8 (fp neutral_bounce (idle s))) s in
  let gp := idle s mod 420 in
  let s :=
    if gp <? 160 then set_pupil 0 0 s
    else if gp <? 195 then set_pupil (fp neutral_gaze_right_out gp) 0 s
    else if gp <? 240 then set_pupil 7 0 s
    else if gp <? 275 then set_pupil (fp neutral_gaze_right_in gp) 0 s
    else if gp <? 340 then set_pupil 0 0 s
    else if gp <? 368 then
      set_pupil (fp neutral_gaze_down_out_x gp) (fp neutral_gaze_down_out_y gp) s
    else if gp <? 390 then set_pupil (-5) 5 s
    else set_pupil (fp neutral_gaze_down_in_x gp) (fp neutral_gaze_down_in_y gp) s in
  if transition_done then
    let bp := idle s mod 280 in
    let s :=
      if (230 <=? bp) && (bp <? 280) then
        let s := set_left_eyebrow_angle (to_int8 (fp neutral_brow_left bp)) s in
        let s := set_right_eyebrow_angle (to_int8 (fp neutral_brow_right bp)) s in
        set_eyebrow_height (to_int8 (fp neutral_brow_height bp)) s
      else
        set_eyebrow_height 0 (set_right_eyebrow_angle 0 (set_left_eyebrow_angle 0 s)) in
    let sp := idle s mod 360 in
    if (300 <=? sp) && (sp <? 360) then set_mouth_curve (to_int8 (fp neutral_mouth sp)) s
    else set_mouth_curve 0 s
  else s.

Definition idle_motion (s : face_state_t) : face_state_t :=
  let bc := bounce_counter s in
  let transition_done := transition_progress s =? 100 in
  match current_emotion s with
  | FACE_HAPPY =>
      let s := set_bounce_offset (to_int8 (fp happy_bounce bc)) s in
      let s := if eyes_free s then set_eyes (87 + fp happy_eye bc) s else s in
      let s := set_sparkle_phase (to_uint8 (65 + fp happy_sparkle bc)) s in
      let s := set_blush_intensity (to_uint8 (72 + fp happy_blush bc)) s in
      if transition_done then set_mouth_curve (to_int8 (87 + fp happy_mouth bc)) s else s
  | FACE_WORRIED =>
      let s := set_bounce_offset (to_int8 (fp worried_bounce bc)) s in
      if transition_done then
        let s := set_left_eyebrow_angle (to_int8 (16 + fp worried_brow bc)) s in
        let s := set_right_eyebrow_angle (left_eyebrow_angle s) s in
        let s := set_eyebrow_height (to_int8 (-6 - fp worried_brow_height bc)) s in
        set_mouth_curve (to_int8 (22 + fp worried_mouth bc)) s
      else s
  | FACE_LOVE =>
      let s := set_bounce_offset (to_int8 (fp love_bounce bc)) s in
      let s := if eyes_free s then set_eyes (fp love_eye bc) s else s in
      let s := set_sparkle_phase (to_uint8 (fp love_sparkle bc)) s in
      let s := set_heart_beat_phase (to_uint8 (fp love_heart bc)) s in
      set_blush_intensity (to_uint8 (fp love_blush bc)) s
  | FACE_ANGRY =>
      let s := set_blush_intensity (to_uint8 (fp angry_blush bc)) s in
      let s :=
        if transition_done then
          let s := set_mouth_curve (to_int8 (-42 + fp angry_mouth bc)) s in
          let s := set_left_eyebrow_angle (to_int8 (22 + fp angry_brow bc)) s in
          set_right_eyebrow_angle (to_int8 (-22 - fp angry_brow bc)) s
        else s in
      set_bounce_offset (if bc mod 8 <? 2 then 1 else 0) s
  | FACE_SLEEPY =>
      let s := set_bounce_offset (to_int8 (fp sleepy_bounce bc)) s in
      if eyes_free s then
        let new_open := to_int16 (35 - fp sleepy_droop bc) in
        set_eyes (if new_open <? 10 then 10 else new_open) s
      else s
  | FACE_SURPRISED =>
      let s := set_bounce_offset (to_int8 (to_uint32 (bc mod 4 - 2))) s in
      if eyes_free s then set_eyes (93 + fp surprised_eye bc) s else s
  | FACE_CRY =>
      let s := set_bounce_offset (to_int8 (fp cry_bounce bc)) s in
      let s :=
        if eyes_free s then
          let new_open := to_int16 (65 - fp cry_squeeze bc) in
          set_eyes (if new_open <? 30 then 30 else new_open) s
        else s in
      set_blush_intensity (to_uint8 (27 + fp cry_blush bc)) s
  | FACE_SAD =>
      let s := set_bounce_offset (to_int8 (fp sad_bounce bc)) s in
      set_pupil_offset_y (to_int8 (3 + fp sad_pupil_y bc)) s
  | FACE_WINK =>
      let s := set_sparkle_phase (to_uint8 (42 + fp wink_sparkle bc)) s in
      set_bounce_offset (to_int8 (fp wink_bounce bc)) s
  | FACE_SMIRK =>
      let s :=
        if transition_done then
          let s := set_left_eyebrow_angle (to_int8 (12 + fp smirk_brow bc)) s in
          set_eyebrow_height (to_int8 (-5 + fp smirk_brow_height bc)) s
        else s in
      let s := set_pupil_offset_x (to_int8 (3 + fp smirk_pupil_x bc)) s in
      let s := set_sparkle_phase (to_uint8 (25 + fp smirk_sparkle bc)) s in
      set_bounce_offset (to_int8 (fp smirk_bounce bc)) s
  | FACE_PLAYFUL =>
      let s :=
        if transition_done then set_mouth_curve (to_int8 (105 + fp playful_mouth bc)) s
        else s in
      let s := set_sparkle_phase (to_uint8 (62 + fp playful_sparkle bc)) s in
      set_bounce_offset (to_int8 (fp playful_bounce bc)) s
  | FACE_SILLY =>
      let s := set_bounce_offset (to_int8 (fp silly_bounce bc)) s in
      set_sparkle_phase (to_uint8 (38 + fp silly_sparkle bc)) s
  | FACE_WORKING_HARD => set_bounce_offset (if bc mod 6 <? 3 then 1 else -1) s
  | FACE_EXCITED =>
      let s := set_bounce_offset (to_int8 (fp excited_bounce bc)) s in
      let s := if eyes_free s then set_eyes (90 + fp excited_eye bc) s else s in
      let s := set_sparkle_phase (to_uint8 (80 + fp excited_sparkle bc)) s in
      set_blush_intensity (to_uint8 (75 + fp excited_blush bc)) s
  | FACE_CONFUSED =>
      let s := set_bounce_offset (to_int8 (fp confused_bounce bc)) s in
      if transition_done then
        let s := set_left_eyebrow_angle (to_int8 (-18 + fp confused_brow_left bc)) s in
        let s := set_right_eyebrow_angle (to_int8 (8 - fp confused_brow_right bc)) s in
        set_eyebrow_height (to_int8 (-3 - fp confused_brow_height bc)) s
      else s
  | FACE_COOL =>
      let s := set_bounce_offset (to_int8 (fp cool_bounce bc)) s in
      let s := set_sparkle_phase (to_uint8 (15 + fp cool_sparkle bc)) s in
      if eyes_free s then
        let squint := fp cool_squint bc in
        set_eyes (48 - (if 38 <? squint then 38 else squint)) s
      else s
  | FACE_NEUTRAL => neutral_idle s
  | FACE_BLINK | FACE_EMOTION_COUNT => set_bounce_offset (to_int8 (fp default_bounce bc)) s
  end.

(** ** [animation_timer_cb], [face_animation_update] *)

Definition motion_step (s : face_state_t) : face_state_t :=
  heart_decay (sparkle_decay (idle_motion (diamond_step (sweat_step (tear_step
    (pupil_motion (count_step s))))))).

Definition animation_timer_cb (current_time : Z) (s : face_state_t) : face_state_t :=
  if negb (initialized s) then s
  else motion_step (scheduler_step current_time s).

Definition face_animation_update (current_time : Z) (s : face_state_t) : face_state_t :=
  if anim_timer s then animation_timer_cb current_time s else s.

(** A run of the timer: one callback per tick time, oldest first. *)
Fixpoint run_ticks (times : list Z) (s : face_state_t) : face_state_t :=
  match times with
  | [] => s
  | t :: times => run_ticks times (animation_timer_cb t s)
  end.

(** The steps of [motion_step] that run before the idle switch. *)
Definition pre_idle (s : face_state_t) : face_state_t :=
  diamond_step (sweat_step (tear_step (pupil_motion (count_step s)))).

Definition apply_operation (op : operation) (s : face_state_t) : face_state_t :=
  match op with
  | op_init cfg env => snd (face_animation_init cfg env s)
  | op_deinit => face_animation_deinit s
  | op_set_emotion emotion smooth => face_set_emotion emotion smooth s
  | op_set_eye_openness left_eye right_eye => face_set_eye_openness left_eye right_eye s
  | op_set_mouth_shape value => face_set_mouth_shape value s
  | op_set_auto_blink enable => face_set_auto_blink enable s
  | op_trigger_blink => face_trigger_blink s
  | op_set_position x y => face_set_position x y s
  | op_timer current_time => animation_timer_cb current_time s
  | op_update current_time => face_animation_update current_time s
  end.

Fixpoint run_operations (ops : list operation) (s : face_state_t) : face_state_t :=
  match ops with
  | [] => s
  | op :: ops => run_operations ops (apply_operation op s)
  end.

End WithFloats.

(** ** [draw_mouth]: which mouth is drawn

    The geometry is left out; what is kept is the branch taken and the
    optional parts drawn inside it.  [curve] is an [int8_t] parameter.  A
    NULL canvas draws nothing. *)

Inductive mouth_shape : Type :=
  | gritted_teeth                            (* rectangle, teeth, three separators *)
  | wide_open (tongue side_sparkles : bool)  (* curve > 65 *)
  | round_o (diamond : bool)                 (* diamond or oval, then four sparkles *)
  | frown (tears : bool)                     (* curve < -35 *)
  | smile_bar (slight_smile : bool).         (* the final else *)

(** [float diamond_factor = diamond_mouth_phase / 100.0; diamond_factor > 0.3]:
    the quotient is rounded to [float] and compared with the [double] 0.3.
    For a phase of 30 the rounded quotient is 0.300000011920929, above the
    [double] 0.299999999999999989, so the test holds from 30 on. *)
Definition diamond_test (phase : Z) : bool := 30 <=? phase.

Definition draw_mouth (curve : Z) (s : face_state_t) : option mouth_shape :=
  let curve := to_int8 curve in
  if negb (mouth_canvas s) then None
  else
    Some
      (if emotion_eqb (current_emotion s) FACE_WORKING_HARD then gritted_teeth
       else if 65 <? curve then wide_open (100 <? curve) (85 <? curve)
       else if (35 <? curve) && (curve <? 65) then
         round_o (diamond_test (diamond_mouth_phase s))
       else if curve <? -35 then frown (curve <? -50)
       else smile_bar (5 <? curve)).

(** ** A concrete oracle

    [still_libm] evaluates every site with [sin x = 0] and [cos x = 1] and
    with exact products and quotients.  It is used to run the program on
    concrete inputs; what is stated of such a run is either a field the
    floating-point results do not reach or a bound that holds for every
    oracle within [fp_bounded]. *)

Definition ramp (scale peak : Z) (x : Z) : Z := Z.quot (scale * x) peak.

(** [intensity = raw_t <= 1 ? raw_t : 2 - raw_t] with [raw_t = x / half],
    times [half]. *)
Definition triangle (half x : Z) : Z := if x <=? half then x else 2 * half - x.

Definition still_libm (site : float_site) (arg : Z) : Z :=
  match site with
  | init_eye_cw | init_mouth_cw => ramp 45 100 arg
  | init_mouth_ch => ramp 38 100 arg
  | happy_pupil_x | confused_pupil_x => 7
  | orbit_pupil_x => 6
  | pupil_decay => ramp 4 5 arg
  | cool_pupil_rise => ramp 8 60 arg
  | cool_pupil_fall => ramp 8 60 (180 - arg)
  | love_eye => 88
  | love_sparkle => 72
  | love_heart => 65
  | love_blush => 80
  | angry_blush => 40
  | neutral_gaze_right_out => ramp 7 35 (arg - 160)
  | neutral_gaze_right_in => ramp 7 35 (275 - arg)
  | neutral_gaze_down_out_x => ramp (-5) 28 (arg - 340)
  | neutral_gaze_down_out_y => ramp 5 28 (arg - 340)
  | neutral_gaze_down_in_x => ramp (-5) 30 (420 - arg)
  | neutral_gaze_down_in_y => ramp 5 30 (420 - arg)
  | neutral_brow_left => ramp 8 25 (triangle 25 (arg - 230))
  | neutral_brow_right => ramp (-2) 25 (triangle 25 (arg - 230))
  | neutral_brow_height => ramp (-4) 25 (triangle 25 (arg - 230))
  | neutral_mouth => ramp 14 30 (triangle 30 (arg - 300))
  | _ => 0
  end.

(** The state after a successful [face_animation_init] on a 135x135 panel
    with the configuration of the example application, auto-blink as
    given. *)
Definition example_env : init_env := mk_init_env 135 135 true true true 0.

Definition example_state (blink : bool) : face_state_t :=
  snd (face_animation_init still_libm (Some (mk_face_config true 30 3000 blink))
         example_env face_state_zero).

(** ** Observers and predicates used in the statements *)

(** The fields the scheduler works on. *)
Definition control (s : face_state_t)
  : bool * face_config_t * Z * bool * Z * face_emotion_t * face_emotion_t * Z :=
  (initialized s, config s, last_blink_time s, is_blinking s, blink_phase s,
   current_emotion s, target_emotion s, transition_progress s).

Definition heartbeat (s : face_state_t) : Z * Z := (heart_beat_phase s, heart_direction s).

Definition effects (s : face_state_t) : Z * Z * Z :=
  (blush_intensity s, sparkle_phase s, heart_beat_phase s).

(** Putting the three secondary effects of [s] back into [s']. *)
Definition restore_effects (s s' : face_state_t) : face_state_t :=
  set_heart_beat_phase (heart_beat_phase s)
    (set_sparkle_phase (sparkle_phase s) (set_blush_intensity (blush_intensity s) s')).

(** The identifiers [face_set_emotion] lets through its guard. *)
Definition accepted (e : face_emotion_t) : bool :=
  emotion_code e <? emotion_code FACE_EMOTION_COUNT.

(** The emotions whose case of the idle switch writes none of the six
    channels, and those whose case does not write the eyes. *)
Definition no_channel_idle (e : face_emotion_t) : bool :=
  match e with
  | FACE_SAD | FACE_WINK | FACE_SILLY | FACE_WORKING_HARD | FACE_BLINK
  | FACE_EMOTION_COUNT => true
  | _ => false
  end.

Definition no_eye_idle (e : face_emotion_t) : bool :=
  match e with
  | FACE_HAPPY | FACE_LOVE | FACE_SLEEPY | FACE_SURPRISED | FACE_CRY | FACE_EXCITED
  | FACE_COOL => false
  | _ => true
  end.

(** The blink curve of [blink_step]: [100 - 2 * phase] while closing,
    [2 * (phase - 50)] while opening. *)
Definition blink_curve (phase : Z) : Z :=
  if phase <? 50 then 100 - phase * 2 else (phase - 50) * 2.

(** No auto-blink fires at any of the tick times. *)
Definition no_blink_due (times : list Z) (s : face_state_t) : Prop :=
  Forall (fun t => blink_due t s = false) times.

(** [blend_params] without the conversions of the stores. *)
Definition blend_exact (current target : emotion_params) (progress : Z) : emotion_params :=
  mk_params
    (blend (p_left_eye current) (p_left_eye target) progress)
    (blend (p_right_eye current) (p_right_eye target) progress)
    (blend (p_mouth current) (p_mouth target) progress)
    (blend (p_left_brow current) (p_left_brow target) progress)
    (blend (p_right_brow current) (p_right_brow target) progress)
    (blend (p_brow_height current) (p_brow_height target) progress).

(** The ranges the channels are shown to stay in. *)
Definition channel_inv (s : face_state_t) : Prop :=
  0 <= left_eye_openness s <= 100 /\
  0 <= right_eye_openness s <= 100 /\
  -100 <= mouth_curve s <= 115.

(** ** Further observers *)

(** The emotion pair and the progress between them. *)
Definition emotion_view (s : face_state_t) : face_emotion_t * face_emotion_t * Z :=
  (current_emotion s, target_emotion s, transition_progress s).

(** The channels a blink does not touch. *)
Definition below_eyes (s : face_state_t) : Z * Z * Z * Z :=
  (mouth_curve s, left_eyebrow_angle s, right_eyebrow_angle s, eyebrow_height s).

(** The function-local statics of the timer callback. *)
Definition statics (s : face_state_t) : Z * Z * Z * Z * Z :=
  (bounce_counter s, pupil_counter s, idle s, diamond_direction s, heart_direction s).

(** The pointers of [face_state_t]: canvases, container, buffers, timer. *)
Definition resources (s : face_state_t) : bool * bool * bool * bool * bool * bool * bool * bool :=
  (left_eye_canvas s, right_eye_canvas s, mouth_canvas s,
   match face_container s with Some _ => true | None => false end,
   left_eye_buf s, right_eye_buf s, mouth_buf s, anim_timer s).

(** The configuration [face_animation_init] stores. *)
Definition stored_config (cfg : option face_config_t) : face_config_t :=
  match cfg with
  | Some c => c
  | None => mk_face_config false DEFAULT_ANIM_SPEED_MS DEFAULT_BLINK_INTERVAL true
  end.

Definition all_allocated (env : init_env) : bool :=
  left_eye_alloc env && right_eye_alloc env && mouth_alloc env.

(** The statics of [s] put into [s']. *)
Definition with_statics_of (s s' : face_state_t) : face_state_t :=
  set_heart_direction (heart_direction s)
    (set_diamond_direction (diamond_direction s)
      (set_idle (idle s)
        (set_pupil_counter (pupil_counter s)
          (set_bounce_counter (bounce_counter s) s')))).

(** The fields of the blink scheduler. *)
Definition blink_view (s : face_state_t) : bool * face_config_t * Z * bool * Z :=
  (initialized s, config s, last_blink_time s, is_blinking s, blink_phase s).

(** The counters of the overlays (tears, sweat, diamond mouth) and the
    two direction statics. *)
Definition overlay (s : face_state_t) : Z * Z * Z * Z * Z :=
  (tear_fall_offset s, sweat_drop_offset s, diamond_mouth_phase s,
   diamond_direction s, heart_direction s).

Definition sched_inv (s : face_state_t) : Prop :=
  (0 <= transition_progress s <= 100 /\ transition_progress s mod 10 = 0) /\
  (0 <= blink_phase s <= 80 /\ blink_phase s mod 20 = 0) /\
  (is_blinking s = false -> blink_phase s = 0).

Definition overlay_ok (v : Z * Z * Z * Z * Z) : Prop :=
  let '(tear, sweat, diamond, ddir, hdir) := v in
  (0 <= tear <= 80 /\ tear mod 2 = 0) /\
  0 <= sweat <= 100 /\
  (diamond = 0 \/ 50 <= diamond <= 100) /\
  (ddir = 1 \/ ddir = -1) /\
  (hdir = 1 \/ hdir = -1).

Definition counters_inv (s : face_state_t) : Prop :=
  sched_inv s /\ overlay_ok (overlay s).

(** The emotions in whose state the callback fades the sparkles (the
    nine-way test before the sparkle decay). *)
Definition sparkle_fades (e : face_emotion_t) : bool :=
  match e with
  | FACE_NEUTRAL | FACE_ANGRY | FACE_SAD | FACE_CRY | FACE_SLEEPY | FACE_SURPRISED
  | FACE_WORKING_HARD | FACE_CONFUSED | FACE_WORRIED => true
  | _ => false
  end.

(** The emotions whose idle motion animates the blush. *)
Definition blush_idle (e : face_emotion_t) : bool :=
  match e with
  | FACE_HAPPY | FACE_LOVE | FACE_ANGRY | FACE_CRY | FACE_EXCITED => true
  | _ => false
  end.

(** The emotions whose idle motion writes the mouth curve once the
    transition is done. *)
Definition mouth_idle (e : face_emotion_t) : bool :=
  match e with
  | FACE_NEUTRAL | FACE_HAPPY | FACE_WORRIED | FACE_ANGRY | FACE_PLAYFUL => true
  | _ => false
  end.

(** ** [draw_eye]: which eye is drawn

    As for the mouth, the geometry is left out and the branch taken is
    kept, with the optional parts drawn in it.  [openness] is a [uint8_t]
    parameter; [canvas] tells whether the canvas passed is non-NULL.
    [eye_width = width * 0.75] is exact in [double] for a [uint16_t]
    width; the conversions to [int16_t] are written [to_int16], which is
    what C gives for an [eye_cw] up to 43690 (beyond it the conversion of
    the [double] is undefined). *)

Inductive eye_shape : Type :=
  | heart_eye (sparkles : bool)        (* Love and openness > 20; six sparkles *)
  | open_eye (iris sparkles : bool)    (* openness > 20; three sparkles *)
  | closed_eye.                        (* the lid line and four lashes *)

Record eye_picture : Type := mk_eye_picture {
  eye_blush : bool;          (* the blush patch under the eye *)
  eye_main : eye_shape;
  eye_sweat : option Z;      (* the sweat drop, with its [drop_offset] *)
  eye_tear : bool            (* the tear and its track *)
}.

Definition draw_eye (canvas : bool) (openness : Z) (is_left : bool) (s : face_state_t)
  : option eye_picture :=
  let openness := to_uint8 openness in
  if negb canvas then None
  else
    let eye_width := to_int16 (Z.quot (3 * eye_cw s) 4) in
    let eye_height := to_int16 (Z.quot (eye_width * openness) 100) in
    let eye_height := if eye_height <? 8 then 8 else eye_height in
    Some
      (mk_eye_picture
         (0 <? blush_intensity s)
         (if emotion_eqb (current_emotion s) FACE_LOVE && (20 <? openness) then
            heart_eye (0 <? sparkle_phase s)
          else if 20 <? openness then
            open_eye ((30 <? openness) && (16 <? eye_height)) (0 <? sparkle_phase s)
          else closed_eye)
         (if emotion_eqb (current_emotion s) FACE_WORKING_HARD then
            Some (if is_left then sweat_drop_offset s
                  else to_uint8 (Z.rem (sweat_drop_offset s + 50) 100))
          else if emotion_eqb (current_emotion s) FACE_SLEEPY && is_left then
            Some (sweat_drop_offset s)
          else None)
         (emotion_eqb (current_emotion s) FACE_CRY && (30 <? openness))).

(** The three calls that end [animation_timer_cb] when it redraws, and
    [face_set_emotion] when it is not smooth. *)
Definition redraw (s : face_state_t)
  : option eye_picture * option eye_picture * option mouth_shape :=
  (draw_eye (left_eye_canvas s) (left_eye_openness s) true s,
   draw_eye (right_eye_canvas s) (right_eye_openness s) false s,
   draw_mouth (mouth_curve s) s).

(** The main shape of the two eyes in a redraw. *)
Definition eyes_drawn (s : face_state_t) : option eye_shape * option eye_shape :=
  (option_map eye_main (fst (fst (redraw s))), option_map eye_main (snd (fst (redraw s)))).

Definition is_closed (e : option eye_shape) : bool :=
  match e with Some closed_eye => true | _ => false end.

(** Tick times each more than [interval] milliseconds (in [uint32_t]
    arithmetic) after the one before, [prev] being the time before the
    first. *)
Fixpoint spaced (interval prev : Z) (times : list Z) : Prop :=
  match times with
  | [] => True
  | t :: times => interval < to_uint32 (t - prev) /\ spaced interval t times
  end.

(** ** [face_set_emotion] on the integer its parameter carries

    [face_emotion_t] has no negative enumerator, so GCC, the compiler of
    ESP-IDF, gives it the underlying type [unsigned int]: whatever integer
    a caller passes (19, 255, a cast of -1) arrives as a [uint32_t], and
    the guard compares that number with [FACE_EMOTION_COUNT].  Below the
    guard the number is one of the enumerators 0 .. 17. *)

Definition emotion_of_code (code : Z) : face_emotion_t :=
  match code with
  | 0 => FACE_NEUTRAL | 1 => FACE_HAPPY | 2 => FACE_WORRIED | 3 => FACE_SAD
  | 4 => FACE_SURPRISED | 5 => FACE_ANGRY | 6 => FACE_SLEEPY | 7 => FACE_WINK
  | 8 => FACE_LOVE | 9 => FACE_PLAYFUL | 10 => FACE_SILLY | 11 => FACE_SMIRK
  | 12 => FACE_CRY | 13 => FACE_WORKING_HARD | 14 => FACE_EXCITED
  | 15 => FACE_CONFUSED | 16 => FACE_COOL | 17 => FACE_BLINK
  | _ => FACE_EMOTION_COUNT
  end.

Definition face_set_emotion_code (emotion : Z) (smooth : bool) (s : face_state_t)
  : face_state_t :=
  let emotion := to_uint32 emotion in
  if negb (initialized s) || (emotion_code FACE_EMOTION_COUNT <=? emotion) then s
  else
    let s := set_target_emotion (emotion_of_code emotion) s in
    if negb smooth then
      let s := set_current_emotion (emotion_of_code emotion) s in
      let s := set_transition_progress 100 s in
      let '(p, s) := update_emotion_parameters (emotion_of_code emotion) s in
      store_channels p s
    else set_transition_progress 0 s.

(** ** States that differ in the configuration only *)


(** * Properties *)

(** ** Integer conversions and emotions *)

Lemma to_uint8_small (z : Z) : 0 <= z <= 255 -> to_uint8 z = z.
Proof. intros H. unfold to_uint8. apply Z.mod_small. lia. Qed.

Lemma to_int8_small (z : Z) : -128 <= z <= 127 -> to_int8 z = z.
Proof. intros H. unfold to_int8. rewrite Z.mod_small; lia. Qed.

Lemma to_int16_small (z : Z) : -32768 <= z <= 32767 -> to_int16 z = z.
Proof. intros H. unfold to_int16. rewrite Z.mod_small; lia. Qed.

Lemma to_uint8_range (z : Z) : 0 <= to_uint8 z <= 255.
Proof. unfold to_uint8. pose proof (Z.mod_pos_bound z 256). lia. Qed.

Lemma to_int8_range (z : Z) : -128 <= to_int8 z <= 127.
Proof. unfold to_int8. pose proof (Z.mod_pos_bound (z + 128) 256). lia. Qed.

Lemma emotion_eqb_refl (e : face_emotion_t) : emotion_eqb e e = true.
Proof. unfold emotion_eqb. apply Z.eqb_refl. Qed.

Lemma emotion_eqb_eq (a b : face_emotion_t) : emotion_eqb a b = true <-> a = b.
Proof.
  split.
  - destruct a, b; cbv; intros H; try reflexivity; discriminate H.
  - intros ->. apply emotion_eqb_refl.
Qed.

Lemma update_emotion_parameters_fst (e : face_emotion_t) (s : face_state_t) :
  fst (update_emotion_parameters e s) = profileOf e.
Proof. destruct e; reflexivity. Qed.

Lemma still_libm_bounded : fp_bounded still_libm.
Proof.
  intros site arg lo hi Hr Hd.
  destruct site; cbn in Hr; try discriminate Hr;
    injection Hr as <- <-; cbn; try lia.
  cbn in Hd. apply andb_true_iff in Hd. destruct Hd as [H1 H2].
  apply Z.leb_le in H1. apply Z.ltb_lt in H2.
  unfold ramp, triangle.
  destruct (arg - 300 <=? 30) eqn:E;
    [apply Z.leb_le in E | apply Z.leb_gt in E];
    rewrite Z.quot_div_nonneg by lia;
    (split; [apply Z.div_pos; lia | apply Z.div_le_upper_bound; lia]).
Qed.

(** ** The profile switch writes the secondary effects *)

(** C7, the claim as stated fails: looking up the profile of Love in the
    zero state leaves blush, sparkle and heartbeat at 90, 100 and 100. *)
Lemma profile_lookup_writes_effects :
  effects face_state_zero = (0, 0, 0) /\
  effects (snd (update_emotion_parameters FACE_LOVE face_state_zero)) = (90, 100, 100).
Proof. split; reflexivity. Qed.

(** C7, amended: the lookup returns the table entry whatever the state is,
    and it writes the context: [blush_intensity] always, and
    [sparkle_phase] and [heart_beat_phase] for every emotion but Neutral,
    each to a value fixed by the emotion alone.  Every other field of the
    context is left as it was. *)
Theorem profile_lookup_frame (e : face_emotion_t) (s : face_state_t) :
  let r := update_emotion_parameters e s in
  let written := snd (update_emotion_parameters e face_state_zero) in
  fst r = profileOf e /\
  restore_effects s (snd r) = s /\
  blush_intensity (snd r) = blush_intensity written /\
  (if emotion_eqb e FACE_NEUTRAL
   then sparkle_phase (snd r) = sparkle_phase s /\
        heart_beat_phase (snd r) = heart_beat_phase s
   else sparkle_phase (snd r) = sparkle_phase written /\
        heart_beat_phase (snd r) = heart_beat_phase written).
Proof.
  destruct s; destruct e; cbn; repeat split; reflexivity.
Qed.

(** ** Clamping setters *)

(** C2, the claim as stated fails: the parameters are 8 bits wide, so -10
    arrives as 246 and is clamped to 100, and 200 and -200 arrive as -56
    and 56, which are in range and stored as they are. *)
Lemma setters_convert_before_clamping :
  left_eye_openness (face_set_eye_openness 150 (-10) (example_state false)) = 100 /\
  right_eye_openness (face_set_eye_openness 150 (-10) (example_state false)) = 100 /\
  mouth_curve (face_set_mouth_shape 200 (example_state false)) = -56 /\
  mouth_curve (face_set_mouth_shape (-200) (example_state false)) = 56.
Proof. repeat split; reflexivity. Qed.

(** C2, amended: on an initialised face the setters never reject.
    [face_set_eye_openness] stores each argument, taken modulo 256, capped
    at 100; [face_set_mouth_shape] stores its argument, taken as a signed
    8-bit value, clamped to [-100, 100].  So an openness in 0..255 is
    stored as [min v 100] and a mouth value in -128..127 as its clamp. *)
Theorem setters_clamp (left_eye right_eye value : Z) (s : face_state_t) :
  initialized s = true ->
  left_eye_openness (face_set_eye_openness left_eye right_eye s)
    = Z.min (to_uint8 left_eye) 100 /\
  right_eye_openness (face_set_eye_openness left_eye right_eye s)
    = Z.min (to_uint8 right_eye) 100 /\
  mouth_curve (face_set_mouth_shape value s)
    = Z.max (-100) (Z.min (to_int8 value) 100) /\
  (0 <= left_eye <= 255 -> to_uint8 left_eye = left_eye) /\
  (0 <= right_eye <= 255 -> to_uint8 right_eye = right_eye) /\
  (-128 <= value <= 127 -> to_int8 value = value).
Proof.
  intros Hi.
  unfold face_set_eye_openness, face_set_mouth_shape. rewrite Hi. cbn.
  split; [| split; [| split; [| split; [| split]]]].
  - destruct (100 <? to_uint8 left_eye) eqn:E;
      [apply Z.ltb_lt in E | apply Z.ltb_ge in E]; lia.
  - destruct (100 <? to_uint8 right_eye) eqn:E;
      [apply Z.ltb_lt in E | apply Z.ltb_ge in E]; lia.
  - destruct (100 <? to_int8 value) eqn:E;
      [apply Z.ltb_lt in E | apply Z.ltb_ge in E].
    + cbn. lia.
    + destruct (to_int8 value <? -100) eqn:E';
        [apply Z.ltb_lt in E' | apply Z.ltb_ge in E']; lia.
  - apply to_uint8_small.
  - apply to_uint8_small.
  - apply to_int8_small.
Qed.

Lemma setters_clamp_witness :
  initialized (example_state false) = true /\
  left_eye_openness (face_set_eye_openness 150 246 (example_state false)) = 100 /\
  right_eye_openness (face_set_eye_openness 150 246 (example_state false)) = 100 /\
  mouth_curve (face_set_mouth_shape 120 (example_state false)) = 100 /\
  mouth_curve (face_set_mouth_shape (-120) (example_state false)) = -100.
Proof.
  split; [reflexivity |].
  pose proof (setters_clamp 150 246 120 (example_state false) eq_refl) as (Hl & Hr & Hm & _).
  pose proof (setters_clamp 150 246 (-120) (example_state false) eq_refl) as (_ & _ & Hm' & _).
  split; [| split; [| split]].
  - rewrite Hl. reflexivity.
  - rewrite Hr. reflexivity.
  - rewrite Hm. reflexivity.
  - rewrite Hm'. reflexivity.
Defined.

(** ** Emotion identifiers outside the selectable ones *)

(** C10, the claim as stated fails for the blinking pseudo-state:
    [FACE_BLINK] is below [FACE_EMOTION_COUNT], so it is accepted and
    replaces Happy as current and target emotion, and the channels move
    to the default profile. *)
Lemma set_emotion_accepts_blink :
  let s := face_set_emotion FACE_HAPPY false (example_state false) in
  selectable FACE_BLINK = false /\
  current_emotion s = FACE_HAPPY /\
  left_eye_openness s = 96 /\
  current_emotion (face_set_emotion FACE_BLINK false s) = FACE_BLINK /\
  target_emotion (face_set_emotion FACE_BLINK false s) = FACE_BLINK /\
  left_eye_openness (face_set_emotion FACE_BLINK false s) = 100.
Proof. cbv zeta. repeat split; reflexivity. Qed.

(** The function on the enumerators is the function on their numbers. *)
Lemma emotion_of_code_code (e : face_emotion_t) : emotion_of_code (emotion_code e) = e.
Proof. destruct e; reflexivity. Qed.

Lemma face_set_emotion_code_enum (e : face_emotion_t) (smooth : bool) (s : face_state_t) :
  face_set_emotion_code (emotion_code e) smooth s = face_set_emotion e smooth s.
Proof.
  unfold face_set_emotion_code, face_set_emotion. cbv zeta.
  assert (Hc : to_uint32 (emotion_code e) = emotion_code e) by (destruct e; reflexivity).
  rewrite Hc, emotion_of_code_code. reflexivity.
Qed.

(** C10, amended: [face_set_emotion] ignores exactly the identifiers at or
    above [FACE_EMOTION_COUNT], leaving the whole state unchanged: every
    integer the parameter can carry that is 18 or more as an unsigned
    number (19, 255, a cast of -1) is ignored, and every one below 18
    becomes the target emotion.  [FACE_BLINK] is among the latter: on an
    initialised face it becomes the target emotion, and without smoothing
    also the current emotion, with the channels of the switch's default
    case. *)
Theorem set_emotion_guard (smooth : bool) (s : face_state_t) :
  initialized s = true ->
  (forall code : Z, emotion_code FACE_EMOTION_COUNT <= to_uint32 code ->
                    face_set_emotion_code code smooth s = s) /\
  (forall code : Z, to_uint32 code < emotion_code FACE_EMOTION_COUNT ->
                    target_emotion (face_set_emotion_code code smooth s)
                      = emotion_of_code (to_uint32 code)) /\
  (forall e, face_set_emotion_code (emotion_code e) smooth s = face_set_emotion e smooth s) /\
  face_set_emotion FACE_EMOTION_COUNT smooth s = s /\
  (forall e, (emotion_code FACE_EMOTION_COUNT <=? emotion_code e) = true ->
             face_set_emotion e smooth s = s) /\
  target_emotion (face_set_emotion FACE_BLINK smooth s) = FACE_BLINK /\
  current_emotion (face_set_emotion FACE_BLINK false s) = FACE_BLINK /\
  channels (face_set_emotion FACE_BLINK false s) = mk_params 100 100 0 0 0 0.
Proof.
  intros Hi.
  split.
  { intros code Hc. unfold face_set_emotion_code. cbv zeta. rewrite Hi.
    replace (emotion_code FACE_EMOTION_COUNT <=? to_uint32 code) with true
      by (symmetry; apply Z.leb_le; exact Hc).
    reflexivity. }
  split.
  { intros code Hc. unfold face_set_emotion_code. cbv zeta. rewrite Hi.
    replace (emotion_code FACE_EMOTION_COUNT <=? to_uint32 code) with false
      by (symmetry; apply Z.leb_gt; exact Hc).
    cbn [negb orb].
    destruct smooth; cbn [negb]; [reflexivity |].
    destruct (emotion_of_code (to_uint32 code)); reflexivity. }
  split; [intros e; apply face_set_emotion_code_enum |].
  unfold face_set_emotion. rewrite Hi.
  split; [reflexivity |].
  split; [intros e He; rewrite He; reflexivity |].
  destruct smooth; repeat split; reflexivity.
Qed.

Lemma set_emotion_guard_witness :
  let s := face_set_emotion FACE_HAPPY false (example_state false) in
  initialized s = true /\
  face_set_emotion_code 19 true s = s /\
  face_set_emotion_code 255 false s = s /\
  face_set_emotion_code (-1) false s = s /\
  target_emotion (face_set_emotion_code 17 true s) = FACE_BLINK.
Proof.
  cbv zeta.
  pose proof (set_emotion_guard true
                (face_set_emotion FACE_HAPPY false (example_state false)) eq_refl)
    as (Ht & Hb & _).
  pose proof (set_emotion_guard false
                (face_set_emotion FACE_HAPPY false (example_state false)) eq_refl)
    as (Hf & _).
  split; [reflexivity |].
  split; [apply Ht; vm_compute; discriminate |].
  split; [apply Hf; vm_compute; discriminate |].
  split; [apply Hf; vm_compute; discriminate |].
  apply (Hb 17). reflexivity.
Defined.

(** ** Operations before initialisation *)

(** The operations that do test [initialized] leave an uninitialised
    state as it is. *)
Lemma guarded_operations_before_init (fp : float_site -> Z -> Z) (s : face_state_t)
  (e : face_emotion_t) (smooth : bool) (l r v x y now : Z) :
  initialized s = false ->
  face_set_emotion e smooth s = s /\
  face_set_eye_openness l r s = s /\
  face_set_mouth_shape v s = s /\
  face_trigger_blink s = s /\
  face_set_position x y s = s /\
  animation_timer_cb fp now s = s /\
  face_animation_deinit s = s.
Proof.
  intros H.
  unfold face_set_emotion, face_set_eye_openness, face_set_mouth_shape, face_trigger_blink,
    face_set_position, animation_timer_cb, face_animation_deinit.
  rewrite H. cbn [negb orb]. repeat split; reflexivity.
Qed.

(** ** Mouth selection *)

(** C5, the claim as stated fails at its lower bound: at [curve = 35], the
    mouth curve of the Cool profile, the renderer draws the smile bar. *)
Lemma mouth_at_35_is_a_bar :
  let s := face_set_emotion FACE_COOL false (example_state false) in
  mouth_curve s = 35 /\
  emotion_eqb (current_emotion s) FACE_WORKING_HARD = false /\
  draw_mouth (mouth_curve s) s = Some (smile_bar true).
Proof. cbv zeta. repeat split; reflexivity. Qed.

(** C5, amended: for every mouth curve with [35 < curve < 65] and a
    current emotion other than Working-Hard, the renderer (given its
    canvas) draws the round mouth with its four sparkles and not the bar:
    the diamond when the pulsation phase is above 30, the oval when it is
    below 30. *)
Theorem mouth_round_between_35_and_65 (curve : Z) (s : face_state_t) :
  mouth_canvas s = true ->
  emotion_eqb (current_emotion s) FACE_WORKING_HARD = false ->
  35 < curve < 65 ->
  draw_mouth curve s = Some (round_o (diamond_test (diamond_mouth_phase s))) /\
  (30 < diamond_mouth_phase s -> draw_mouth curve s = Some (round_o true)) /\
  (diamond_mouth_phase s < 30 -> draw_mouth curve s = Some (round_o false)).
Proof.
  intros Hc He Hr.
  assert (Hd : draw_mouth curve s = Some (round_o (diamond_test (diamond_mouth_phase s)))).
  { unfold draw_mouth. rewrite Hc, He, to_int8_small by lia. cbn.
    replace (65 <? curve) with false by (symmetry; apply Z.ltb_ge; lia).
    replace (35 <? curve) with true by (symmetry; apply Z.ltb_lt; lia).
    replace (curve <? 65) with true by (symmetry; apply Z.ltb_lt; lia).
    reflexivity. }
  split; [exact Hd |].
  split; intros H; rewrite Hd; unfold diamond_test.
  - replace (30 <=? diamond_mouth_phase s) with true by (symmetry; apply Z.leb_le; lia).
    reflexivity.
  - replace (30 <=? diamond_mouth_phase s) with false by (symmetry; apply Z.leb_gt; lia).
    reflexivity.
Qed.

Lemma mouth_round_between_35_and_65_witness :
  let s := face_set_emotion FACE_SURPRISED false (example_state false) in
  mouth_canvas s = true /\
  emotion_eqb (current_emotion s) FACE_WORKING_HARD = false /\
  35 < mouth_curve s < 65 /\
  draw_mouth (mouth_curve s) s = Some (round_o false).
Proof.
  cbv zeta.
  assert (Hc : mouth_canvas (face_set_emotion FACE_SURPRISED false (example_state false)) = true)
    by reflexivity.
  assert (He : emotion_eqb
                 (current_emotion (face_set_emotion FACE_SURPRISED false (example_state false)))
                 FACE_WORKING_HARD = false) by reflexivity.
  assert (Hr : 35 < mouth_curve (face_set_emotion FACE_SURPRISED false (example_state false)) < 65)
    by (vm_compute; split; reflexivity).
  split; [exact Hc |]. split; [exact He |]. split; [exact Hr |].
  apply (mouth_round_between_35_and_65 _ _ Hc He Hr).
  vm_compute. reflexivity.
Defined.

(** ** What the motion steps leave alone *)

Arguments to_uint8 : simpl never.
Arguments to_int8 : simpl never.
Arguments to_int16 : simpl never.
Arguments to_uint16 : simpl never.
Arguments to_uint32 : simpl never.

(** Projections of setters, reduced with the state kept abstract. *)
Ltac norm_state :=
  cbn beta iota delta
    [left_eye_canvas right_eye_canvas mouth_canvas face_container left_eye_buf right_eye_buf
    mouth_buf config current_emotion target_emotion left_eye_openness right_eye_openness
    mouth_curve left_eyebrow_angle right_eyebrow_angle eyebrow_height transition_progress
    last_blink_time is_blinking blink_phase blush_intensity bounce_offset sparkle_phase
    heart_beat_phase pupil_offset_x pupil_offset_y tear_fall_offset diamond_mouth_phase
    sweat_drop_offset face_sz eye_cw mouth_cw mouth_ch anim_timer initialized bounce_counter
    pupil_counter idle diamond_direction heart_direction set_left_eye_canvas
    set_right_eye_canvas set_mouth_canvas set_face_container set_left_eye_buf
    set_right_eye_buf set_mouth_buf set_config set_current_emotion set_target_emotion
    set_left_eye_openness set_right_eye_openness set_mouth_curve set_left_eyebrow_angle
    set_right_eyebrow_angle set_eyebrow_height set_transition_progress set_last_blink_time
    set_is_blinking set_blink_phase set_blush_intensity set_bounce_offset set_sparkle_phase
    set_heart_beat_phase set_pupil_offset_x set_pupil_offset_y set_tear_fall_offset
    set_diamond_mouth_phase set_sweat_drop_offset set_face_sz set_eye_cw set_mouth_cw
    set_mouth_ch set_anim_timer set_initialized set_bounce_counter set_pupil_counter
    set_idle set_diamond_direction set_heart_direction
     write_effects store_channels p_left_eye p_right_eye p_mouth p_left_brow p_right_brow
     p_brow_height fst snd andb orb negb].

Ltac use_equations :=
  repeat match goal with
         | H : ?l = _ |- context [?l] => rewrite H
         end.

Lemma view_of_if {A B : Type} (V : A -> B) (c : bool) (a b : A) (r : B) :
  V a = r -> V b = r -> V (if c then a else b) = r.
Proof. intros Ha Hb. destruct c; assumption. Qed.

(** A view [V] of the state that a block never writes: the block is
    peeled from the outside, one setter, test or [let] at a time, without
    looking at the values written or the conditions tested. *)
Ltac peel :=
  repeat lazymatch goal with
         | |- ?V ?s = ?V ?s => reflexivity
         | |- ?V (let x := ?e in @?b x) = _ =>
             let t := eval cbv beta in (b e) in
             change (V (let x := e in b x)) with (V t)
         | |- ?V (if ?c then _ else _) = _ => apply view_of_if
         | |- ?V (match ?e with FACE_NEUTRAL => _ | _ => _ end) = _ =>
             destruct e; cbv beta iota
         | |- ?V (?f ?v ?inner) = ?V ?s0 => change (V inner = V s0)
         end.

(** The same with hypotheses at hand: a test the hypotheses decide is
    replaced by its value before the branches are looked at. *)
Ltac decide_test :=
  norm_state; use_equations; rewrite ?andb_false_r; norm_state; reflexivity.

Ltac peel_deciding :=
  repeat lazymatch goal with
         | |- ?V ?s = ?V ?s => reflexivity
         | |- ?V (let x := ?e in @?b x) = _ =>
             let t := eval cbv beta in (b e) in
             change (V (let x := e in b x)) with (V t)
         | |- ?V (if ?c then _ else _) = _ =>
             first [ replace c with false by (symmetry; decide_test)
                   | replace c with true by (symmetry; decide_test)
                   | apply view_of_if ]
         | |- ?V (match ?e with FACE_NEUTRAL => _ | _ => _ end) = _ =>
             destruct e; cbv beta iota
         | |- ?V (?f ?v ?inner) = ?V ?s0 => change (V inner = V s0)
         end.

Create HintDb blocks.
#[local] Hint Unfold count_step tear_step sweat_step diamond_step sparkle_decay
  heart_decay pupil_motion set_pupil idle_motion neutral_idle set_eyes eyes_free : blocks.

Ltac frame := intros; autounfold with blocks; repeat split; peel.

Lemma count_step_frame (s : face_state_t) :
  control (count_step s) = control s /\
  channels (count_step s) = channels s /\
  heartbeat (count_step s) = heartbeat s.
Proof. frame. Qed.

Lemma tear_step_frame (s : face_state_t) :
  control (tear_step s) = control s /\
  channels (tear_step s) = channels s /\
  heartbeat (tear_step s) = heartbeat s.
Proof. frame. Qed.

Lemma sweat_step_frame (s : face_state_t) :
  control (sweat_step s) = control s /\
  channels (sweat_step s) = channels s /\
  heartbeat (sweat_step s) = heartbeat s.
Proof. frame. Qed.

Lemma diamond_step_frame (s : face_state_t) :
  control (diamond_step s) = control s /\
  channels (diamond_step s) = channels s /\
  heartbeat (diamond_step s) = heartbeat s.
Proof. frame. Qed.

Lemma sparkle_decay_frame (s : face_state_t) :
  control (sparkle_decay s) = control s /\
  channels (sparkle_decay s) = channels s /\
  heartbeat (sparkle_decay s) = heartbeat s.
Proof. frame. Qed.

Lemma heart_decay_frame (s : face_state_t) :
  control (heart_decay s) = control s /\
  channels (heart_decay s) = channels s.
Proof. frame. Qed.

Section MotionFrames.

Variable fp : float_site -> Z -> Z.

Lemma pupil_motion_frame (s : face_state_t) :
  control (pupil_motion fp s) = control s /\
  channels (pupil_motion fp s) = channels s /\
  heartbeat (pupil_motion fp s) = heartbeat s.
Proof. frame. Qed.

Lemma idle_motion_control (s : face_state_t) :
  control (idle_motion fp s) = control s.
Proof. frame. Qed.

Lemma idle_motion_heartbeat (s : face_state_t) :
  emotion_eqb (current_emotion s) FACE_LOVE = false ->
  heartbeat (idle_motion fp s) = heartbeat s.
Proof.
  intros H. autounfold with blocks.
  destruct (current_emotion s); try discriminate H; peel.
Qed.

(** While a transition is in flight the idle switch writes no channel. *)
Lemma idle_motion_channels_in_transition (s : face_state_t) :
  (transition_progress s =? 100) = false ->
  channels (idle_motion fp s) = channels s.
Proof.
  intros H. autounfold with blocks. peel_deciding.
Qed.

(** During a blink the idle switch leaves both eyes to the blink curve. *)
Lemma idle_motion_eyes_in_blink (s : face_state_t) :
  is_blinking s = true ->
  left_eye_openness (idle_motion fp s) = left_eye_openness s /\
  right_eye_openness (idle_motion fp s) = right_eye_openness s.
Proof.
  intros H. autounfold with blocks. split; peel_deciding.
Qed.

Lemma idle_motion_channels_quiet (s : face_state_t) :
  no_channel_idle (current_emotion s) = true ->
  channels (idle_motion fp s) = channels s.
Proof.
  intros H. autounfold with blocks.
  destruct (current_emotion s); try discriminate H; peel.
Qed.

Lemma idle_motion_eyes_quiet (s : face_state_t) :
  no_eye_idle (current_emotion s) = true ->
  left_eye_openness (idle_motion fp s) = left_eye_openness s /\
  right_eye_openness (idle_motion fp s) = right_eye_openness s.
Proof.
  intros H. autounfold with blocks.
  destruct (current_emotion s); try discriminate H; split; peel.
Qed.

End MotionFrames.

(** ** The motion steps as a whole *)

Lemma control_fields (a b : face_state_t) :
  control a = control b ->
  initialized a = initialized b /\ config a = config b /\
  last_blink_time a = last_blink_time b /\ is_blinking a = is_blinking b /\
  blink_phase a = blink_phase b /\ current_emotion a = current_emotion b /\
  target_emotion a = target_emotion b /\ transition_progress a = transition_progress b.
Proof. unfold control. intros H. injection H as -> -> -> -> -> -> -> ->. repeat split. Qed.

Lemma channels_fields (a b : face_state_t) :
  channels a = channels b ->
  left_eye_openness a = left_eye_openness b /\
  right_eye_openness a = right_eye_openness b /\
  mouth_curve a = mouth_curve b.
Proof. unfold channels. intros H. injection H as -> -> -> _ _ _. repeat split. Qed.

Lemma store_channels_frame (p : emotion_params) (s : face_state_t) :
  channels (store_channels p s) = p /\ control (store_channels p s) = control s.
Proof. destruct p. split; reflexivity. Qed.

Lemma update_emotion_parameters_frame (e : face_emotion_t) (s : face_state_t) :
  control (snd (update_emotion_parameters e s)) = control s /\
  channels (snd (update_emotion_parameters e s)) = channels s.
Proof. destruct e; split; reflexivity. Qed.

Section Motion.

Variable fp : float_site -> Z -> Z.

Lemma motion_step_split (s : face_state_t) :
  motion_step fp s = heart_decay (sparkle_decay (idle_motion fp (pre_idle fp s))).
Proof. unfold motion_step, pre_idle. reflexivity. Qed.

Lemma pre_idle_frame (s : face_state_t) :
  control (pre_idle fp s) = control s /\
  channels (pre_idle fp s) = channels s /\
  heartbeat (pre_idle fp s) = heartbeat s.
Proof.
  unfold pre_idle.
  destruct (diamond_step_frame (sweat_step (tear_step (pupil_motion fp (count_step s)))))
    as (-> & -> & ->).
  destruct (sweat_step_frame (tear_step (pupil_motion fp (count_step s)))) as (-> & -> & ->).
  destruct (tear_step_frame (pupil_motion fp (count_step s))) as (-> & -> & ->).
  destruct (pupil_motion_frame fp (count_step s)) as (-> & -> & ->).
  apply count_step_frame.
Qed.

Lemma motion_step_control (s : face_state_t) :
  control (motion_step fp s) = control s.
Proof.
  rewrite motion_step_split.
  destruct (heart_decay_frame (sparkle_decay (idle_motion fp (pre_idle fp s)))) as (-> & _).
  destruct (sparkle_decay_frame (idle_motion fp (pre_idle fp s))) as (-> & _).
  rewrite idle_motion_control. apply pre_idle_frame.
Qed.

Lemma motion_step_channels_idle (s : face_state_t) :
  channels (motion_step fp s) = channels (idle_motion fp (pre_idle fp s)).
Proof.
  rewrite motion_step_split.
  destruct (heart_decay_frame (sparkle_decay (idle_motion fp (pre_idle fp s)))) as (_ & ->).
  apply sparkle_decay_frame.
Qed.

Lemma motion_step_channels_in_transition (s : face_state_t) :
  (transition_progress s =? 100) = false ->
  channels (motion_step fp s) = channels s.
Proof.
  intros H. rewrite motion_step_channels_idle.
  destruct (pre_idle_frame s) as (Hc & Hch & _).
  apply control_fields in Hc. destruct Hc as (_ & _ & _ & _ & _ & _ & _ & Hp).
  rewrite idle_motion_channels_in_transition by (rewrite Hp; exact H).
  exact Hch.
Qed.

Lemma motion_step_channels_quiet (s : face_state_t) :
  no_channel_idle (current_emotion s) = true ->
  channels (motion_step fp s) = channels s.
Proof.
  intros H. rewrite motion_step_channels_idle.
  destruct (pre_idle_frame s) as (Hc & Hch & _).
  apply control_fields in Hc. destruct Hc as (_ & _ & _ & _ & _ & He & _ & _).
  rewrite idle_motion_channels_quiet by (rewrite He; exact H).
  exact Hch.
Qed.

Lemma motion_step_eyes (s : face_state_t) :
  is_blinking s = true \/ no_eye_idle (current_emotion s) = true \/
  (transition_progress s =? 100) = false ->
  left_eye_openness (motion_step fp s) = left_eye_openness s /\
  right_eye_openness (motion_step fp s) = right_eye_openness s.
Proof.
  intros H.
  destruct (pre_idle_frame s) as (Hc & Hch & _).
  apply control_fields in Hc. destruct Hc as (_ & _ & _ & Hb & _ & He & _ & _).
  apply channels_fields in Hch. destruct Hch as (Hl & Hr & _).
  destruct H as [H | [H | H]].
  - destruct (channels_fields _ _ (motion_step_channels_idle s)) as (-> & -> & _).
    rewrite <- Hl, <- Hr. apply idle_motion_eyes_in_blink. rewrite Hb. exact H.
  - destruct (channels_fields _ _ (motion_step_channels_idle s)) as (-> & -> & _).
    rewrite <- Hl, <- Hr. apply idle_motion_eyes_quiet. rewrite He. exact H.
  - apply motion_step_channels_in_transition, channels_fields in H.
    destruct H as (H1 & H2 & _). split; assumption.
Qed.

End Motion.

(** ** The blink cycle *)

Lemma blink_step_advance (now : Z) (s : face_state_t) :
  0 <= blink_phase s -> blink_phase s + 20 < 100 ->
  control (blink_step now s)
    = (initialized s, config s, last_blink_time s, is_blinking s, blink_phase s + 20,
       current_emotion s, target_emotion s, transition_progress s) /\
  left_eye_openness (blink_step now s) = blink_curve (blink_phase s + 20) /\
  right_eye_openness (blink_step now s) = blink_curve (blink_phase s + 20).
Proof.
  intros H0 H1.
  assert (Hq : to_uint8 (blink_phase s + 20) = blink_phase s + 20)
    by (apply to_uint8_small; lia).
  assert (Hc : (100 <=? blink_phase s + 20) = false) by (apply Z.leb_gt; lia).
  assert (Hv : to_uint8 (blink_curve (blink_phase s + 20)) = blink_curve (blink_phase s + 20)).
  { apply to_uint8_small. unfold blink_curve.
    destruct (blink_phase s + 20 <? 50) eqn:E;
      [apply Z.ltb_lt in E | apply Z.ltb_ge in E]; lia. }
  unfold blink_step, control. fold (blink_curve (blink_phase s + 20)) in Hv.
  norm_state. rewrite Hq. norm_state. rewrite Hc. norm_state.
  fold (blink_curve (blink_phase s + 20)). rewrite Hv.
  repeat split; reflexivity.
Qed.


Lemma control_eq (a : face_state_t) i c l b p e t r :
  control a = (i, c, l, b, p, e, t, r) ->
  initialized a = i /\ config a = c /\ last_blink_time a = l /\ is_blinking a = b /\
  blink_phase a = p /\ current_emotion a = e /\ target_emotion a = t /\
  transition_progress a = r.
Proof.
  unfold control. intros H.
  inversion H. repeat split; reflexivity.
Qed.

Lemma blink_step_finish (now : Z) (s : face_state_t) :
  80 <= blink_phase s <= 235 ->
  control (blink_step now s)
    = (initialized s, config s, now, false, 0,
       current_emotion s, target_emotion s, transition_progress s) /\
  left_eye_openness (blink_step now s) = 100 /\
  right_eye_openness (blink_step now s) = 100.
Proof.
  intros H.
  assert (Hq : to_uint8 (blink_phase s + 20) = blink_phase s + 20)
    by (apply to_uint8_small; lia).
  assert (Hc : (100 <=? blink_phase s + 20) = true) by (apply Z.leb_le; lia).
  unfold blink_step, control.
  norm_state. rewrite Hq. norm_state. rewrite Hc. norm_state.
  repeat split; reflexivity.
Qed.

Section BlinkTicks.

Variable fp : float_site -> Z -> Z.

Lemma tick_blinking (now : Z) (s : face_state_t) :
  initialized s = true -> is_blinking s = true ->
  animation_timer_cb fp now s = motion_step fp (blink_step now s).
Proof.
  intros Hi Hb. unfold animation_timer_cb, scheduler_step. rewrite Hi, Hb. reflexivity.
Qed.

(** One tick of a blink that does not end it. *)
Lemma tick_blink_advance (now : Z) (s : face_state_t) :
  initialized s = true -> is_blinking s = true ->
  0 <= blink_phase s -> blink_phase s + 20 < 100 ->
  control (animation_timer_cb fp now s)
    = (initialized s, config s, last_blink_time s, is_blinking s, blink_phase s + 20,
       current_emotion s, target_emotion s, transition_progress s) /\
  left_eye_openness (animation_timer_cb fp now s) = blink_curve (blink_phase s + 20) /\
  right_eye_openness (animation_timer_cb fp now s) = blink_curve (blink_phase s + 20).
Proof.
  intros Hi Hb H0 H1. rewrite tick_blinking by assumption.
  destruct (blink_step_advance now s H0 H1) as (Hc & Hl & Hr).
  rewrite motion_step_control, Hc.
  split; [reflexivity |].
  destruct (motion_step_eyes fp (blink_step now s)) as (El & Er).
  { left. apply control_eq in Hc. destruct Hc as (_ & _ & _ & Hb' & _). congruence. }
  rewrite El, Er. split; assumption.
Qed.

(** The tick that ends a blink. *)
Lemma tick_blink_finish (now : Z) (s : face_state_t) :
  initialized s = true -> is_blinking s = true ->
  80 <= blink_phase s <= 235 ->
  control (animation_timer_cb fp now s)
    = (initialized s, config s, now, false, 0,
       current_emotion s, target_emotion s, transition_progress s) /\
  left_eye_openness (scheduler_step now s) = 100 /\
  right_eye_openness (scheduler_step now s) = 100 /\
  (no_eye_idle (current_emotion s) = true \/ (transition_progress s =? 100) = false ->
   left_eye_openness (animation_timer_cb fp now s) = 100 /\
   right_eye_openness (animation_timer_cb fp now s) = 100).
Proof.
  intros Hi Hb H. rewrite tick_blinking by assumption.
  destruct (blink_step_finish now s H) as (Hc & Hl & Hr).
  rewrite motion_step_control, Hc.
  unfold scheduler_step. rewrite Hb.
  split; [reflexivity |]. split; [exact Hl |]. split; [exact Hr |].
  intros Hq.
  destruct (motion_step_eyes fp (blink_step now s)) as (El & Er).
  { right. apply control_eq in Hc. destruct Hc as (_ & _ & _ & _ & _ & Hcur & _ & Hprog).
    rewrite Hcur, Hprog. exact Hq. }
  rewrite El, Er. split; assumption.
Qed.

Lemma trigger_blink_starts (s : face_state_t) :
  initialized s = true -> is_blinking s = false ->
  control (face_trigger_blink s)
    = (true, config s, last_blink_time s, true, 0,
       current_emotion s, target_emotion s, transition_progress s) /\
  channels (face_trigger_blink s) = channels s.
Proof.
  intros Hi Hb. unfold face_trigger_blink. rewrite Hi, Hb. cbn [negb orb].
  unfold control. norm_state. rewrite Hi. split; reflexivity.
Qed.

Lemma trigger_blink_while_blinking (s : face_state_t) :
  is_blinking s = true -> face_trigger_blink s = s.
Proof.
  intros Hb. unfold face_trigger_blink. rewrite Hb, orb_true_r. reflexivity.
Qed.

End BlinkTicks.


(** ** The transition blender *)

Lemma update_emotion_parameters_control (e : face_emotion_t) (s : face_state_t) :
  control (snd (update_emotion_parameters e s)) = control s.
Proof. apply update_emotion_parameters_frame. Qed.

Lemma transition_step_advance (s : face_state_t) :
  0 <= transition_progress s -> transition_progress s + 10 < 100 ->
  control (transition_step s)
    = (initialized s, config s, last_blink_time s, is_blinking s, blink_phase s,
       current_emotion s, target_emotion s, transition_progress s + 10) /\
  channels (transition_step s)
    = blend_params (profileOf (current_emotion s)) (profileOf (target_emotion s))
        (transition_progress s + 10).
Proof.
  intros H0 H1.
  assert (Hq : to_uint8 (transition_progress s + 10) = transition_progress s + 10)
    by (apply to_uint8_small; lia).
  assert (Hc : (100 <=? transition_progress s + 10) = false) by (apply Z.leb_gt; lia).
  unfold transition_step. cbv zeta.
  set (s1 := set_transition_progress (to_uint8 (transition_progress s + 10)) s).
  assert (C1 : control s1
               = (initialized s, config s, last_blink_time s, is_blinking s, blink_phase s,
                  current_emotion s, target_emotion s, transition_progress s + 10)).
  { subst s1. unfold control. norm_state. rewrite Hq. reflexivity. }
  pose proof (control_eq _ _ _ _ _ _ _ _ _ C1) as (_ & _ & _ & _ & _ & E1 & T1 & P1).
  rewrite P1, Hc.
  set (st := snd (update_emotion_parameters (target_emotion s1) s1)).
  assert (Ct : control st = control s1) by apply update_emotion_parameters_control.
  pose proof (control_fields _ _ Ct) as (_ & _ & _ & _ & _ & Et & _ & _).
  set (sc := snd (update_emotion_parameters (current_emotion st) st)).
  assert (Cc : control sc = control st) by apply update_emotion_parameters_control.
  pose proof (control_fields _ _ Cc) as (_ & _ & _ & _ & _ & _ & _ & Pc).
  rewrite !update_emotion_parameters_fst.
  destruct (store_channels_frame
              (blend_params (profileOf (current_emotion st)) (profileOf (target_emotion s1))
                 (transition_progress sc)) sc) as (-> & ->).
  rewrite Cc, Ct, C1. split; [reflexivity |].
  rewrite Pc. pose proof (control_fields _ _ Ct) as (_ & _ & _ & _ & _ & _ & _ & Pt).
  rewrite Pt, P1, Et, E1, T1. reflexivity.
Qed.

Lemma blend_params_arrived (e : face_emotion_t) :
  blend_params (profileOf e) (profileOf e) 100 = profileOf e.
Proof. destruct e; reflexivity. Qed.

Lemma transition_step_finish (s : face_state_t) :
  90 <= transition_progress s <= 245 ->
  control (transition_step s)
    = (initialized s, config s, last_blink_time s, is_blinking s, blink_phase s,
       target_emotion s, target_emotion s, 100) /\
  channels (transition_step s) = profileOf (target_emotion s).
Proof.
  intros H.
  assert (Hq : to_uint8 (transition_progress s + 10) = transition_progress s + 10)
    by (apply to_uint8_small; lia).
  assert (Hc : (100 <=? transition_progress s + 10) = true) by (apply Z.leb_le; lia).
  unfold transition_step. cbv zeta.
  set (s0 := set_transition_progress (to_uint8 (transition_progress s + 10)) s).
  assert (P0 : transition_progress s0 = transition_progress s + 10)
    by (subst s0; norm_state; exact Hq).
  rewrite P0, Hc.
  set (s1 := set_current_emotion (target_emotion s0) (set_transition_progress 100 s0)).
  assert (C1 : control s1
               = (initialized s, config s, last_blink_time s, is_blinking s, blink_phase s,
                  target_emotion s, target_emotion s, 100)).
  { subst s1 s0. unfold control. norm_state. reflexivity. }
  pose proof (control_eq _ _ _ _ _ _ _ _ _ C1) as (_ & _ & _ & _ & _ & E1 & T1 & P1).
  set (st := snd (update_emotion_parameters (target_emotion s1) s1)).
  assert (Ct : control st = control s1) by apply update_emotion_parameters_control.
  pose proof (control_fields _ _ Ct) as (_ & _ & _ & _ & _ & Et & _ & Pt).
  set (sc := snd (update_emotion_parameters (current_emotion st) st)).
  assert (Cc : control sc = control st) by apply update_emotion_parameters_control.
  pose proof (control_fields _ _ Cc) as (_ & _ & _ & _ & _ & _ & _ & Pc).
  rewrite !update_emotion_parameters_fst.
  destruct (store_channels_frame
              (blend_params (profileOf (current_emotion st)) (profileOf (target_emotion s1))
                 (transition_progress sc)) sc) as (-> & ->).
  rewrite Cc, Ct, C1. split; [reflexivity |].
  rewrite Pc, Pt, P1, Et, E1, T1. apply blend_params_arrived.
Qed.

Section TransitionTicks.

Variable fp : float_site -> Z -> Z.

Lemma tick_in_transition (now : Z) (s : face_state_t) :
  initialized s = true -> is_blinking s = false -> blink_due now s = false ->
  transition_pending s = true ->
  animation_timer_cb fp now s = motion_step fp (transition_step s).
Proof.
  intros Hi Hb Hd Hp. unfold animation_timer_cb, scheduler_step.
  rewrite Hi, Hb, Hd, Hp. reflexivity.
Qed.

(** A tick of a transition that does not complete it: the channels are
    the blend of the two table profiles at the new progress. *)
Lemma tick_transition_advance (now : Z) (s : face_state_t) :
  initialized s = true -> is_blinking s = false -> blink_due now s = false ->
  emotion_eqb (current_emotion s) (target_emotion s) = false ->
  0 <= transition_progress s -> transition_progress s + 10 < 100 ->
  control (animation_timer_cb fp now s)
    = (initialized s, config s, last_blink_time s, is_blinking s, blink_phase s,
       current_emotion s, target_emotion s, transition_progress s + 10) /\
  channels (animation_timer_cb fp now s)
    = blend_params (profileOf (current_emotion s)) (profileOf (target_emotion s))
        (transition_progress s + 10).
Proof.
  intros Hi Hb Hd He H0 H1.
  rewrite tick_in_transition; try assumption.
  2: { unfold transition_pending. rewrite He. cbn [negb andb]. apply Z.ltb_lt. lia. }
  destruct (transition_step_advance s H0 H1) as (Hc & Hch).
  rewrite motion_step_control. split; [exact Hc |].
  rewrite motion_step_channels_in_transition; [exact Hch |].
  apply control_eq in Hc. destruct Hc as (_ & _ & _ & _ & _ & _ & _ & ->).
  apply Z.eqb_neq. lia.
Qed.

(** The tick that completes a transition: the scheduler resolves the
    channels to the target profile and makes the target current; the idle
    motion of the new emotion then runs in the same tick. *)
Lemma tick_transition_finish (now : Z) (s : face_state_t) :
  initialized s = true -> is_blinking s = false -> blink_due now s = false ->
  emotion_eqb (current_emotion s) (target_emotion s) = false ->
  90 <= transition_progress s < 100 ->
  control (animation_timer_cb fp now s)
    = (initialized s, config s, last_blink_time s, is_blinking s, blink_phase s,
       target_emotion s, target_emotion s, 100) /\
  channels (scheduler_step now s) = profileOf (target_emotion s) /\
  (no_channel_idle (target_emotion s) = true ->
   channels (animation_timer_cb fp now s) = profileOf (target_emotion s)).
Proof.
  intros Hi Hb Hd He H.
  assert (Hp : transition_pending s = true).
  { unfold transition_pending. rewrite He. cbn [negb andb]. apply Z.ltb_lt. lia. }
  rewrite tick_in_transition by assumption.
  destruct (transition_step_finish s) as (Hc & Hch); [lia |].
  rewrite motion_step_control. split; [exact Hc |].
  split; [unfold scheduler_step; rewrite Hb, Hd, Hp; exact Hch |].
  intros Hq. rewrite motion_step_channels_quiet; [exact Hch |].
  apply control_eq in Hc. destruct Hc as (_ & _ & _ & _ & _ & -> & _ & _). exact Hq.
Qed.

End TransitionTicks.

Lemma blink_due_control (now : Z) (a b : face_state_t) :
  control a = control b -> blink_due now a = blink_due now b.
Proof.
  intros H. apply control_fields in H. destruct H as (_ & Hc & Hl & _).
  unfold blink_due. rewrite Hc, Hl. reflexivity.
Qed.

Section TransitionRuns.

Variable fp : float_site -> Z -> Z.

Lemma run_ticks_app (a b : list Z) (s : face_state_t) :
  run_ticks fp (a ++ b) s = run_ticks fp b (run_ticks fp a s).
Proof. revert s. induction a as [| t a IH]; intros s; cbn; [reflexivity | apply IH]. Qed.

Lemma no_blink_due_control (times : list Z) (a b : face_state_t) :
  control a = control b -> no_blink_due times a -> no_blink_due times b.
Proof.
  intros H. unfold no_blink_due. apply Forall_impl.
  intros t Ht. rewrite <- (blink_due_control t a b H). exact Ht.
Qed.

(** A run of ticks that stays inside a transition. *)
Lemma run_in_transition (times : list Z) (s : face_state_t) :
  initialized s = true -> is_blinking s = false -> no_blink_due times s ->
  emotion_eqb (current_emotion s) (target_emotion s) = false ->
  0 <= transition_progress s ->
  transition_progress s + 10 * Z.of_nat (length times) < 100 ->
  control (run_ticks fp times s)
    = (initialized s, config s, last_blink_time s, is_blinking s, blink_phase s,
       current_emotion s, target_emotion s,
       transition_progress s + 10 * Z.of_nat (length times)) /\
  (times <> [] ->
   channels (run_ticks fp times s)
     = blend_params (profileOf (current_emotion s)) (profileOf (target_emotion s))
         (transition_progress s + 10 * Z.of_nat (length times))).
Proof.
  revert s. induction times as [| t times IH]; intros s Hi Hb Hd He H0 H1.
  - cbn [run_ticks length Z.of_nat]. rewrite Z.mul_0_r, Z.add_0_r.
    split; [reflexivity | congruence].
  - cbn [length] in H1 |- *. rewrite Nat2Z.inj_succ in H1 |- *.
    cbn [run_ticks].
    inversion Hd as [| ? ? Hdt Hdr]; subst.
    destruct (tick_transition_advance fp t s Hi Hb Hdt He H0) as (Hc & Hch); [lia |].
    pose proof (control_eq _ _ _ _ _ _ _ _ _ Hc) as (I1 & C1 & L1 & B1 & _ & E1 & T1 & P1).
    assert (Hd' : no_blink_due times (animation_timer_cb fp t s)).
    { unfold no_blink_due. revert Hdr. apply Forall_impl. intros u Hu.
      unfold blink_due in *. rewrite C1, L1. exact Hu. }
    pose proof (control_eq _ _ _ _ _ _ _ _ _ Hc) as (_ & _ & _ & _ & Q1 & _).
    destruct (IH (animation_timer_cb fp t s)) as (Hc' & Hch').
    { congruence. }
    { congruence. }
    { exact Hd'. }
    { rewrite E1, T1. exact He. }
    { lia. }
    { lia. }
    rewrite Hc', I1, C1, L1, B1, E1, T1, P1, Q1.
    replace (transition_progress s + 10 + 10 * Z.of_nat (length times))
      with (transition_progress s + 10 * Z.succ (Z.of_nat (length times))) by lia.
    split; [reflexivity |].
    intros _. destruct times as [| u times].
    + cbn [run_ticks length Z.of_nat]. rewrite Hch. f_equal; lia.
    + rewrite Hch' by congruence. rewrite E1, T1, P1. f_equal; lia.
Qed.

End TransitionRuns.

(** ** The blend stays between its end points *)

Lemma blend_between (c t p : Z) :
  0 <= p <= 100 -> Z.min c t <= blend c t p <= Z.max c t.
Proof.
  intros Hp. unfold blend.
  destruct (Z_le_gt_dec c t) as [Hle | Hgt].
  - assert (H0 : 0 <= (t - c) * p) by (apply Z.mul_nonneg_nonneg; lia).
    assert (H1 : (t - c) * p <= (t - c) * 100) by (apply Z.mul_le_mono_nonneg_l; lia).
    rewrite Z.quot_div_nonneg by lia.
    assert (0 <= (t - c) * p / 100) by (apply Z.div_pos; lia).
    assert ((t - c) * p / 100 <= t - c) by (apply Z.div_le_upper_bound; lia).
    lia.
  - assert (H0 : 0 <= (c - t) * p) by (apply Z.mul_nonneg_nonneg; lia).
    assert (H1 : (c - t) * p <= (c - t) * 100) by (apply Z.mul_le_mono_nonneg_l; lia).
    replace ((t - c) * p) with (- ((c - t) * p)) by ring.
    rewrite Z.quot_opp_l by lia. rewrite Z.quot_div_nonneg by lia.
    assert (0 <= (c - t) * p / 100) by (apply Z.div_pos; lia).
    assert ((c - t) * p / 100 <= c - t) by (apply Z.div_le_upper_bound; lia).
    lia.
Qed.

Lemma profile_range (e : face_emotion_t) :
  15 <= p_left_eye (profileOf e) <= 100 /\
  15 <= p_right_eye (profileOf e) <= 100 /\
  -75 <= p_mouth (profileOf e) <= 110 /\
  -18 <= p_left_brow (profileOf e) <= 25 /\
  -25 <= p_right_brow (profileOf e) <= 18 /\
  -10 <= p_brow_height (profileOf e) <= 8.
Proof. destruct e; cbn; lia. Qed.

Lemma blend_params_exact (a b : face_emotion_t) (p : Z) :
  0 <= p <= 100 ->
  blend_params (profileOf a) (profileOf b) p = blend_exact (profileOf a) (profileOf b) p.
Proof.
  intros Hp.
  destruct (profile_range a) as (A1 & A2 & A3 & A4 & A5 & A6).
  destruct (profile_range b) as (B1 & B2 & B3 & B4 & B5 & B6).
  pose proof (blend_between (p_left_eye (profileOf a)) (p_left_eye (profileOf b)) p Hp).
  pose proof (blend_between (p_right_eye (profileOf a)) (p_right_eye (profileOf b)) p Hp).
  pose proof (blend_between (p_mouth (profileOf a)) (p_mouth (profileOf b)) p Hp).
  pose proof (blend_between (p_left_brow (profileOf a)) (p_left_brow (profileOf b)) p Hp).
  pose proof (blend_between (p_right_brow (profileOf a)) (p_right_brow (profileOf b)) p Hp).
  pose proof (blend_between (p_brow_height (profileOf a)) (p_brow_height (profileOf b)) p Hp).
  unfold blend_params, blend_exact.
  rewrite !to_uint8_small, !to_int8_small by lia. reflexivity.
Qed.

(** ** [face_set_emotion] on an initialised face *)

Lemma set_emotion_smooth (e : face_emotion_t) (s : face_state_t) :
  initialized s = true -> accepted e = true ->
  control (face_set_emotion e true s)
    = (initialized s, config s, last_blink_time s, is_blinking s, blink_phase s,
       current_emotion s, e, 0) /\
  channels (face_set_emotion e true s) = channels s.
Proof.
  intros Hi He. unfold face_set_emotion, accepted in *.
  apply Z.ltb_lt in He. rewrite Hi.
  replace (emotion_code FACE_EMOTION_COUNT <=? emotion_code e) with false
    by (symmetry; apply Z.leb_gt; exact He).
  cbn [negb orb]. unfold control. norm_state. rewrite Hi. split; reflexivity.
Qed.

Lemma set_emotion_immediate (e : face_emotion_t) (s : face_state_t) :
  initialized s = true -> accepted e = true ->
  control (face_set_emotion e false s)
    = (initialized s, config s, last_blink_time s, is_blinking s, blink_phase s, e, e, 100) /\
  channels (face_set_emotion e false s) = profileOf e.
Proof.
  intros Hi He. unfold face_set_emotion, accepted in *.
  apply Z.ltb_lt in He. rewrite Hi.
  replace (emotion_code FACE_EMOTION_COUNT <=? emotion_code e) with false
    by (symmetry; apply Z.leb_gt; exact He).
  cbn [negb orb].
  set (s1 := set_transition_progress 100 (set_current_emotion e (set_target_emotion e s))).
  destruct (update_emotion_parameters e s1) as [p s2] eqn:Eu.
  assert (Hp : p = profileOf e).
  { rewrite <- (update_emotion_parameters_fst e s1), Eu. reflexivity. }
  assert (Hc : control s2 = control s1).
  { rewrite <- (update_emotion_parameters_control e s1), Eu. reflexivity. }
  destruct (store_channels_frame p s2) as (-> & ->).
  rewrite Hc. split; [| exact Hp].
  subst s1. unfold control. norm_state. rewrite Hi. reflexivity.
Qed.

Section Retarget.

Variable fp : float_site -> Z -> Z.

(** C1, amended: [face_set_emotion e true] on an initialised, non-blinking
    face whose current emotion is not [e] resets the progress to 0, makes
    [e] the target and leaves the channels as they are.  Over the next one
    to nine ticks, with no blink starting, the current emotion stays the
    old one, the progress is 10 per tick, and every channel equals
    [profile(current) + (profile(e) - profile(current)) * progress / 100]:
    the source of the interpolation is the table profile of the current
    emotion, not the vector resolved at the moment of re-targeting. *)
Theorem retarget_blends_from_table (s : face_state_t) (e : face_emotion_t) (times : list Z) :
  initialized s = true -> is_blinking s = false -> accepted e = true ->
  emotion_eqb (current_emotion s) e = false ->
  no_blink_due times s ->
  (1 <= length times <= 9)%nat ->
  let r := face_set_emotion e true s in
  let progress := 10 * Z.of_nat (length times) in
  transition_progress r = 0 /\ target_emotion r = e /\ channels r = channels s /\
  transition_progress (run_ticks fp times r) = progress /\
  current_emotion (run_ticks fp times r) = current_emotion s /\
  channels (run_ticks fp times r)
    = blend_exact (profileOf (current_emotion s)) (profileOf e) progress.
Proof.
  intros Hi Hb Ha He Hd Hl r progress.
  destruct (set_emotion_smooth e s Hi Ha) as (Cr & Chr). fold r in Cr, Chr.
  pose proof (control_eq _ _ _ _ _ _ _ _ _ Cr) as (I & C & L & B & _ & E & T & P).
  assert (Hd' : no_blink_due times r).
  { unfold no_blink_due. revert Hd. apply Forall_impl. intros u Hu.
    unfold blink_due in *. rewrite C, L. exact Hu. }
  destruct (run_in_transition fp times r) as (Hc & Hch).
  { congruence. }
  { congruence. }
  { exact Hd'. }
  { rewrite E, T. exact He. }
  { lia. }
  { lia. }
  pose proof (control_eq _ _ _ _ _ _ _ _ _ Hc) as (_ & _ & _ & _ & _ & E' & _ & P').
  split; [exact P |]. split; [exact T |]. split; [exact Chr |].
  split; [rewrite P', P; reflexivity |].
  split; [rewrite E', E; reflexivity |].
  rewrite Hch by (destruct times; [cbn in Hl; lia | congruence]).
  rewrite E, T, P. cbn [Z.add]. apply blend_params_exact. subst progress. lia.
Qed.

End Retarget.

Lemma retarget_blends_from_table_witness :
  let s := face_set_emotion FACE_HAPPY false (example_state true) in
  initialized s = true /\ is_blinking s = false /\
  no_blink_due [30; 60; 90] s /\
  mouth_curve s = 90 /\
  channels (run_ticks still_libm [30; 60; 90] (face_set_emotion FACE_SAD true s))
    = mk_params 86 86 41 (-7) 1 (-3).
Proof.
  cbv zeta.
  assert (Hd : no_blink_due [30; 60; 90]
                 (face_set_emotion FACE_HAPPY false (example_state true))).
  { repeat constructor. }
  split; [reflexivity |]. split; [reflexivity |]. split; [exact Hd |].
  split; [reflexivity |].
  pose proof (retarget_blends_from_table still_libm
                (face_set_emotion FACE_HAPPY false (example_state true)) FACE_SAD
                [30; 60; 90] eq_refl eq_refl eq_refl eq_refl Hd) as H.
  cbv zeta in H.
  destruct H as (_ & _ & _ & _ & _ & H); [cbn; lia |].
  rewrite H. reflexivity.
Defined.

(** C1, the claim as stated fails: five ticks into Neutral -> Sad the
    mouth is at -37; re-targeted to Happy, the next tick puts it at 9, the
    blend from Neutral's 0, and not at -25, the blend from -37. *)
Lemma retarget_ignores_resolved_vector :
  let s := run_ticks still_libm [30; 60; 90; 120; 150]
             (face_set_emotion FACE_SAD true (example_state false)) in
  let r := run_ticks still_libm [180] (face_set_emotion FACE_HAPPY true s) in
  current_emotion s = FACE_NEUTRAL /\ transition_progress s = 50 /\
  mouth_curve s = -37 /\
  mouth_curve r = 9 /\
  blend (mouth_curve s) (p_mouth (profileOf FACE_HAPPY)) 10 = -25 /\
  blend (p_mouth (profileOf FACE_NEUTRAL)) (p_mouth (profileOf FACE_HAPPY)) 10 = 9.
Proof. cbv zeta. repeat split; vm_compute; reflexivity. Qed.

Section Convergence.

Variable fp : float_site -> Z -> Z.

(** C3, amended: after [face_set_emotion e1 false] and
    [face_set_emotion e2 true] with [e1] and [e2] distinct accepted
    emotions, on an initialised, non-blinking face and with no blink
    starting during the ten ticks: the progress is 10 per tick over the
    first nine ticks and 100 after the tenth, the current emotion is then
    [e2], and the scheduler of the tenth tick resolves the channels to
    [profileOf e2].  That is also the vector after the tenth tick when the
    idle motion of [e2] writes no channel (Sad, Wink, Silly, Working-Hard);
    for the other emotions the idle motion runs in the same tick. *)
Theorem transition_converges (s : face_state_t) (e1 e2 : face_emotion_t)
  (times : list Z) (t : Z) :
  initialized s = true -> is_blinking s = false ->
  accepted e1 = true -> accepted e2 = true -> emotion_eqb e1 e2 = false ->
  no_blink_due (times ++ [t]) s -> length times = 9%nat ->
  let r := face_set_emotion e2 true (face_set_emotion e1 false s) in
  let final := run_ticks fp (times ++ [t]) r in
  (forall pre post, times = pre ++ post ->
     transition_progress (run_ticks fp pre r) = 10 * Z.of_nat (length pre)) /\
  transition_progress final = 100 /\
  current_emotion final = e2 /\
  channels (scheduler_step t (run_ticks fp times r)) = profileOf e2 /\
  (no_channel_idle e2 = true -> channels final = profileOf e2).
Proof.
  intros Hi Hb A1 A2 He Hd Hl r final.
  destruct (set_emotion_immediate e1 s Hi A1) as (C0 & _).
  pose proof (control_eq _ _ _ _ _ _ _ _ _ C0) as (I0 & Cf0 & L0 & B0 & _ & E0 & _ & _).
  destruct (set_emotion_smooth e2 (face_set_emotion e1 false s)) as (Cr & _);
    [congruence | exact A2 |].
  fold r in Cr.
  pose proof (control_eq _ _ _ _ _ _ _ _ _ Cr) as (I & C & L & B & _ & E & T & P).
  assert (Hd' : no_blink_due (times ++ [t]) r).
  { unfold no_blink_due. revert Hd. apply Forall_impl. intros u Hu.
    unfold blink_due in *. rewrite C, L, Cf0, L0. exact Hu. }
  apply Forall_app in Hd'. destruct Hd' as (Hdt & Hdl).
  pose proof (Forall_inv Hdl) as Hdu. cbv beta in Hdu.
  assert (Ir : initialized r = true) by congruence.
  assert (Br : is_blinking r = false) by congruence.
  assert (Er : emotion_eqb (current_emotion r) (target_emotion r) = false)
    by (rewrite E, T, E0; exact He).
  assert (Hprefix : forall pre post, times = pre ++ post ->
            control (run_ticks fp pre r)
              = (initialized r, config r, last_blink_time r, is_blinking r, blink_phase r,
                 current_emotion r, target_emotion r,
                 transition_progress r + 10 * Z.of_nat (length pre))).
  { intros pre post Hpp.
    assert (Hlp : (length pre <= 9)%nat).
    { rewrite <- Hl, Hpp, length_app. lia. }
    apply (run_in_transition fp pre r); try assumption; try lia.
    rewrite Hpp in Hdt. apply Forall_app in Hdt. apply Hdt. }
  split.
  { intros pre post Hpp. specialize (Hprefix pre post Hpp).
    apply control_eq in Hprefix. destruct Hprefix as (_ & _ & _ & _ & _ & _ & _ & ->).
    rewrite P. reflexivity. }
  specialize (Hprefix times [] (eq_sym (app_nil_r times))).
  pose proof (control_eq _ _ _ _ _ _ _ _ _ Hprefix) as (I9 & C9 & L9 & B9 & _ & E9 & T9 & P9).
  rewrite Hl, P in P9. cbn in P9.
  destruct (tick_transition_finish fp t (run_ticks fp times r)) as (Cf & Hs & Hq).
  { congruence. }
  { congruence. }
  { unfold blink_due in *. rewrite C9, L9. exact Hdu. }
  { rewrite E9, T9. exact Er. }
  { lia. }
  subst final. rewrite run_ticks_app. cbn [run_ticks].
  apply control_eq in Cf. destruct Cf as (_ & _ & _ & _ & _ & Ef & _ & Pf).
  rewrite T9, T in Hs, Hq, Ef.
  split; [exact Pf |]. split; [exact Ef |]. split; [exact Hs | exact Hq].
Qed.

End Convergence.

(** C3, the claim as stated fails.  Ten ticks after Neutral -> Cry the
    face is crying with the transition complete, and the idle squeeze of
    the tenth tick has the eyes at 65 or below (for every oracle within
    its bounds, [tick_into_cry]), not at the profile's 70.  And when the
    auto-blink comes due at the first tick, that tick starts the blink,
    the next five run it, and after ten ticks the transition Neutral ->
    Sad is at 40 with Neutral still current. *)
Lemma transition_does_not_settle_in_ten_ticks :
  let cry := face_set_emotion FACE_CRY true (face_set_emotion FACE_NEUTRAL false
               (example_state false)) in
  let cried := run_ticks still_libm [30; 60; 90; 120; 150; 180; 210; 240; 270; 300] cry in
  let sad := face_set_emotion FACE_SAD true (face_set_emotion FACE_NEUTRAL false
               (example_state true)) in
  let saddened :=
    run_ticks still_libm [3010; 3040; 3070; 3100; 3130; 3160; 3190; 3220; 3250; 3280] sad in
  current_emotion cried = FACE_CRY /\ transition_progress cried = 100 /\
  p_left_eye (profileOf FACE_CRY) = 70 /\
  (left_eye_openness cried <=? 65) = true /\
  blink_due 3010 sad = true /\
  current_emotion saddened = FACE_NEUTRAL /\ transition_progress saddened = 40.
Proof. cbv zeta. repeat split; vm_compute; reflexivity. Qed.

Lemma transition_converges_witness :
  let s := example_state true in
  let times := [30; 60; 90; 120; 150; 180; 210; 240; 270] in
  let r := face_set_emotion FACE_WINK true (face_set_emotion FACE_SAD false s) in
  initialized s = true /\ is_blinking s = false /\ no_blink_due (times ++ [300]) s /\
  current_emotion (run_ticks still_libm (times ++ [300]) r) = FACE_WINK /\
  channels (run_ticks still_libm (times ++ [300]) r) = mk_params 85 15 70 8 (-8) (-2).
Proof.
  cbv zeta.
  assert (Hd : no_blink_due ([30; 60; 90; 120; 150; 180; 210; 240; 270] ++ [300])
                 (example_state true)).
  { repeat constructor. }
  split; [reflexivity |]. split; [reflexivity |]. split; [exact Hd |].
  pose proof (transition_converges still_libm (example_state true) FACE_SAD FACE_WINK
                [30; 60; 90; 120; 150; 180; 210; 240; 270] 300
                eq_refl eq_refl eq_refl eq_refl eq_refl Hd eq_refl) as H.
  cbv zeta in H. destruct H as (_ & _ & Hc & _ & Hq).
  split; [exact Hc | exact (Hq eq_refl)].
Defined.


(** ** The heartbeat phase *)

Lemma heart_decay_down (s : face_state_t) :
  emotion_eqb (current_emotion s) FACE_LOVE = false ->
  heart_direction s = -1 -> 5 <= heart_beat_phase s <= 100 ->
  heartbeat (heart_decay s)
    = (heart_beat_phase s - 5, if heart_beat_phase s =? 5 then 1 else -1).
Proof.
  intros He Hd Hr.
  assert (Hq : to_uint8 (heart_beat_phase s + -1 * 5) = heart_beat_phase s - 5)
    by (rewrite to_uint8_small; lia).
  unfold heart_decay, heartbeat. rewrite He, Hd.
  replace (0 <? heart_beat_phase s) with true by (symmetry; apply Z.ltb_lt; lia).
  cbv zeta. norm_state. rewrite Hq.
  destruct (heart_beat_phase s =? 5) eqn:E5;
    [apply Z.eqb_eq in E5 | apply Z.eqb_neq in E5].
  - replace (heart_beat_phase s - 5 <=? 0) with true by (symmetry; apply Z.leb_le; lia).
    norm_state. f_equal; lia.
  - replace (heart_beat_phase s - 5 <=? 0) with false by (symmetry; apply Z.leb_gt; lia).
    replace (100 <=? heart_beat_phase s - 5) with false by (symmetry; apply Z.leb_gt; lia).
    norm_state. rewrite ?Hq, ?Hd. reflexivity.
Qed.

Lemma heart_decay_up (s : face_state_t) :
  emotion_eqb (current_emotion s) FACE_LOVE = false ->
  heart_direction s = 1 -> 1 <= heart_beat_phase s <= 100 ->
  heartbeat (heart_decay s)
    = (Z.min (heart_beat_phase s + 5) 100, if 95 <=? heart_beat_phase s then -1 else 1).
Proof.
  intros He Hd Hr.
  assert (Hq : to_uint8 (heart_beat_phase s + 1 * 5) = heart_beat_phase s + 5)
    by (rewrite to_uint8_small; lia).
  unfold heart_decay, heartbeat. rewrite He, Hd.
  replace (0 <? heart_beat_phase s) with true by (symmetry; apply Z.ltb_lt; lia).
  cbv zeta. norm_state. rewrite Hq.
  replace (heart_beat_phase s + 5 <=? 0) with false by (symmetry; apply Z.leb_gt; lia).
  destruct (95 <=? heart_beat_phase s) eqn:E5;
    [apply Z.leb_le in E5 | apply Z.leb_gt in E5].
  - replace (100 <=? heart_beat_phase s + 5) with true by (symmetry; apply Z.leb_le; lia).
    norm_state. f_equal; lia.
  - replace (100 <=? heart_beat_phase s + 5) with false by (symmetry; apply Z.leb_gt; lia).
    norm_state. rewrite ?Hq, ?Hd. f_equal; lia.
Qed.

(** Below 5 the downward step wraps in [uint8_t] and is clamped to 100. *)
Lemma heart_decay_wraps_below_five (s : face_state_t) :
  emotion_eqb (current_emotion s) FACE_LOVE = false ->
  heart_direction s = -1 -> 1 <= heart_beat_phase s <= 4 ->
  heartbeat (heart_decay s) = (100, -1).
Proof.
  intros He Hd Hr.
  assert (Hq : to_uint8 (heart_beat_phase s + -1 * 5) = heart_beat_phase s + 251).
  { unfold to_uint8.
    replace (heart_beat_phase s + -1 * 5) with (heart_beat_phase s + 251 + -1 * 256) by lia.
    rewrite Z.mod_add by lia. apply Z.mod_small. lia. }
  unfold heart_decay, heartbeat. rewrite He, Hd.
  replace (0 <? heart_beat_phase s) with true by (symmetry; apply Z.ltb_lt; lia).
  cbv zeta. norm_state. rewrite Hq.
  replace (heart_beat_phase s + 251 <=? 0) with false by (symmetry; apply Z.leb_gt; lia).
  replace (100 <=? heart_beat_phase s + 251) with true by (symmetry; apply Z.leb_le; lia).
  norm_state. reflexivity.
Qed.

Lemma heart_decay_rest (s : face_state_t) :
  heart_beat_phase s = 0 -> heartbeat (heart_decay s) = heartbeat s.
Proof.
  intros H0. unfold heart_decay. rewrite H0. cbn [Z.ltb Z.compare].
  destruct (emotion_eqb (current_emotion s) FACE_LOVE); reflexivity.
Qed.

Lemma blink_step_heartbeat (now : Z) (s : face_state_t) :
  heartbeat (blink_step now s) = heartbeat s /\
  current_emotion (blink_step now s) = current_emotion s.
Proof. unfold blink_step. split; peel. Qed.

Lemma trigger_blink_heartbeat (s : face_state_t) :
  heartbeat (face_trigger_blink s) = heartbeat s /\
  current_emotion (face_trigger_blink s) = current_emotion s.
Proof. unfold face_trigger_blink. split; peel. Qed.

Lemma scheduler_step_heartbeat (now : Z) (s : face_state_t) :
  is_blinking s = true \/ blink_due now s = true \/ transition_pending s = false ->
  heartbeat (scheduler_step now s) = heartbeat s /\
  current_emotion (scheduler_step now s) = current_emotion s.
Proof.
  intros H. unfold scheduler_step.
  destruct (is_blinking s); [apply blink_step_heartbeat |].
  destruct (blink_due now s); [apply trigger_blink_heartbeat |].
  destruct H as [H | [H | H]]; try discriminate H.
  rewrite H. split; reflexivity.
Qed.

Section HeartbeatTicks.

Variable fp : float_site -> Z -> Z.

(** Up to its last step a tick leaves the heartbeat alone when Love is
    not the current emotion and no transition step runs. *)
Lemma tick_heart_decay (now : Z) (s : face_state_t) :
  initialized s = true ->
  is_blinking s = true \/ blink_due now s = true \/ transition_pending s = false ->
  emotion_eqb (current_emotion s) FACE_LOVE = false ->
  exists s', animation_timer_cb fp now s = heart_decay s' /\
             heartbeat s' = heartbeat s /\ current_emotion s' = current_emotion s.
Proof.
  intros Hi Hp He.
  unfold animation_timer_cb. rewrite Hi. cbn [negb]. rewrite motion_step_split.
  destruct (scheduler_step_heartbeat now s Hp) as (H1 & E1).
  set (s1 := scheduler_step now s) in *.
  destruct (pre_idle_frame fp s1) as (C2 & _ & H2).
  apply control_fields in C2. destruct C2 as (_ & _ & _ & _ & _ & E2 & _ & _).
  exists (sparkle_decay (idle_motion fp (pre_idle fp s1))).
  split; [reflexivity |].
  destruct (sparkle_decay_frame (idle_motion fp (pre_idle fp s1))) as (C3 & _ & H3).
  apply control_fields in C3. destruct C3 as (_ & _ & _ & _ & _ & E3 & _ & _).
  pose proof (control_fields _ _ (idle_motion_control fp (pre_idle fp s1)))
    as (_ & _ & _ & _ & _ & E4 & _ & _).
  rewrite H3, E3, E4, E2, E1.
  split; [| reflexivity].
  rewrite idle_motion_heartbeat by (rewrite E2, E1; exact He).
  rewrite H2. exact H1.
Qed.

(** C8, amended: in a tick on an initialised face whose current emotion
    is not Love and in which no transition step runs (the face is
    blinking, or a blink is due, or no transition is pending), the
    heartbeat phase moves by 5 in the stored direction.  With the
    direction downward (its
    initial value) and the phase in [[5, 100]] it decreases by exactly 5,
    and the direction turns upward when the phase reaches 0.  With the
    direction upward (as an earlier decay to 0 leaves it) and the phase in
    [[1, 100]] it increases by 5, capped at 100, where the direction turns
    downward again.  A phase of 0 stays 0. *)
Theorem heartbeat_moves_by_five (now : Z) (s : face_state_t) :
  initialized s = true ->
  is_blinking s = true \/ blink_due now s = true \/ transition_pending s = false ->
  emotion_eqb (current_emotion s) FACE_LOVE = false ->
  let s' := animation_timer_cb fp now s in
  (heart_direction s = -1 -> 5 <= heart_beat_phase s <= 100 ->
   heart_beat_phase s' = heart_beat_phase s - 5 /\
   heart_direction s' = if heart_beat_phase s =? 5 then 1 else -1) /\
  (heart_direction s = 1 -> 1 <= heart_beat_phase s <= 100 ->
   heart_beat_phase s' = Z.min (heart_beat_phase s + 5) 100 /\
   heart_direction s' = if 95 <=? heart_beat_phase s then -1 else 1) /\
  (heart_beat_phase s = 0 ->
   heart_beat_phase s' = 0 /\ heart_direction s' = heart_direction s).
Proof.
  intros Hi Hp He s'.
  destruct (tick_heart_decay now s Hi Hp He) as (m & Hm & Hh & Hc).
  fold s' in Hm. unfold heartbeat in Hh. injection Hh as Hph Hdir.
  assert (Hs : forall a b, heartbeat s' = (a, b) ->
                           heart_beat_phase s' = a /\ heart_direction s' = b).
  { unfold heartbeat. intros a b H. injection H as -> ->. split; reflexivity. }
  split; [| split].
  - intros Hd Hr. apply Hs. rewrite Hm, <- Hph.
    apply heart_decay_down; rewrite ?Hc, ?Hdir, ?Hph; assumption.
  - intros Hd Hr. apply Hs. rewrite Hm, <- Hph.
    apply heart_decay_up; rewrite ?Hc, ?Hdir, ?Hph; assumption.
  - intros H0.
    destruct (Hs (heart_beat_phase m) (heart_direction m)) as (-> & ->).
    { rewrite Hm. apply heart_decay_rest. congruence. }
    split; congruence.
Qed.

End HeartbeatTicks.

(** C8, the claim as stated fails: a first decay from Happy's 40 to 0
    leaves the direction upward; the next time the phase is 40 on a
    settled Neutral face, a tick raises it to 45. *)
Lemma heartbeat_climbs_after_a_decay :
  let happy_then_neutral s :=
    face_set_emotion FACE_NEUTRAL false (face_set_emotion FACE_HAPPY false s) in
  let a := happy_then_neutral (example_state false) in
  let b := happy_then_neutral
             (run_ticks still_libm [30; 60; 90; 120; 150; 180; 210; 240] a) in
  heartbeat a = (40, -1) /\
  current_emotion b = FACE_NEUTRAL /\ target_emotion b = FACE_NEUTRAL /\
  heartbeat b = (40, 1) /\
  heart_beat_phase (animation_timer_cb still_libm 270 b) = 45.
Proof. cbv zeta. repeat split; vm_compute; reflexivity. Qed.

Lemma heartbeat_moves_by_five_witness :
  let s := face_trigger_blink
             (face_set_emotion FACE_SAD true
                (face_set_emotion FACE_HAPPY false (example_state true))) in
  initialized s = true /\ is_blinking s = true /\ transition_pending s = true /\
  emotion_eqb (current_emotion s) FACE_LOVE = false /\
  heartbeat s = (40, -1) /\
  heart_beat_phase (animation_timer_cb still_libm 30 s) = 35 /\
  transition_progress (animation_timer_cb still_libm 30 s) = 0.
Proof.
  cbv zeta.
  pose proof (heartbeat_moves_by_five still_libm 30
                (face_trigger_blink
                   (face_set_emotion FACE_SAD true
                      (face_set_emotion FACE_HAPPY false (example_state true))))
                eq_refl (or_introl eq_refl) eq_refl) as H.
  cbv zeta in H. destruct H as (H & _).
  destruct (H eq_refl) as (Hp & _); [vm_compute; split; discriminate |].
  split; [reflexivity |]. split; [reflexivity |]. split; [reflexivity |].
  split; [reflexivity |]. split; [reflexivity |].
  split; [rewrite Hp; reflexivity | reflexivity].
Defined.


(** ** The documented ranges *)

Lemma bound_of_if {A : Type} (Q : A -> Prop) (c : bool) (a b : A) :
  (c = true -> Q a) -> (c = false -> Q b) -> Q (if c then a else b).
Proof. destruct c; auto. Qed.

(** A bound on one field of the state a block returns: the block is
    peeled from the outside; a setter of another field is skipped, and at
    a setter of the field the bound is checked on the value written. *)
Ltac clear_casts :=
  repeat first
    [ rewrite to_int16_small by lia
    | rewrite to_uint8_small by lia
    | rewrite to_int8_small by lia ].

Ltac check_write :=
  norm_state; clear_casts;
  repeat match goal with
         | |- context [if ?c then _ else _] => destruct c eqn:?; clear_casts
         end;
  lia.

Ltac peel_bound :=
  repeat lazymatch goal with
         | |- ?lo <= ?V (let y := ?e in @?b y) /\ _ <= ?hi =>
             let t := eval cbv beta in (b e) in
             change (lo <= V t <= hi)
         | |- ?lo <= ?V (if ?c then ?u else ?w) <= ?hi =>
             apply (bound_of_if (fun st => lo <= V st <= hi) c u w); intros ?
         | |- ?lo <= ?V (match ?e with FACE_NEUTRAL => _ | _ => _ end) <= ?hi =>
             destruct e; cbv beta iota
         | |- ?lo <= ?V (?f ?v ?inner) <= ?hi =>
             first [ change (lo <= V inner <= hi)
                   | change (lo <= v <= hi) ]
         end.

Section IdleBounds.

Variable fp : float_site -> Z -> Z.
Hypothesis fp_ok : fp_bounded fp.

Lemma idle_motion_inv (s : face_state_t) :
  channel_inv s -> channel_inv (idle_motion fp s).
Proof.
  intros (Hl & Hr & Hm).
  pose proof (fp_ok happy_eye (bounce_counter s) 0 13 eq_refl eq_refl).
  pose proof (fp_ok happy_mouth (bounce_counter s) 0 8 eq_refl eq_refl).
  pose proof (fp_ok worried_mouth (bounce_counter s) 0 12 eq_refl eq_refl).
  pose proof (fp_ok love_eye (bounce_counter s) 88 100 eq_refl eq_refl).
  pose proof (fp_ok angry_mouth (bounce_counter s) (-8) 8 eq_refl eq_refl).
  pose proof (fp_ok sleepy_droop (bounce_counter s) 0 20 eq_refl eq_refl).
  pose proof (fp_ok surprised_eye (bounce_counter s) 0 7 eq_refl eq_refl).
  pose proof (fp_ok cry_squeeze (bounce_counter s) 0 20 eq_refl eq_refl).
  pose proof (fp_ok playful_mouth (bounce_counter s) (-10) 10 eq_refl eq_refl).
  pose proof (fp_ok excited_eye (bounce_counter s) 0 10 eq_refl eq_refl).
  pose proof (fp_ok cool_squint (bounce_counter s) 0 8 eq_refl eq_refl).
  unfold channel_inv. autounfold with blocks.
  destruct (current_emotion s); cbv beta iota.
  all: split; [| split].
  all: peel_bound.
  all: try assumption.
  all: try check_write.
  match goal with
  | Hc : ((300 <=? ?sp) && (?sp <? 360)) = true |- _ =>
      pose proof (fp_ok neutral_mouth sp 0 14 eq_refl Hc)
  end.
  clear_casts. lia.
Qed.

End IdleBounds.

Lemma channel_inv_channels (a b : face_state_t) :
  channels a = channels b -> channel_inv b -> channel_inv a.
Proof.
  intros H. apply channels_fields in H. destruct H as (Hl & Hr & Hm).
  unfold channel_inv. rewrite Hl, Hr, Hm. auto.
Qed.

Lemma channel_inv_params (p : emotion_params) (s : face_state_t) :
  channels s = p ->
  0 <= p_left_eye p <= 100 -> 0 <= p_right_eye p <= 100 -> -100 <= p_mouth p <= 115 ->
  channel_inv s.
Proof.
  intros H Hl Hr Hm. subst p. cbn in Hl, Hr, Hm. unfold channel_inv. auto.
Qed.

Lemma blend_params_inv (a b : face_emotion_t) (p : Z) (s : face_state_t) :
  0 <= p <= 100 ->
  channels s = blend_params (profileOf a) (profileOf b) p -> channel_inv s.
Proof.
  intros Hp H. rewrite blend_params_exact in H by exact Hp.
  destruct (profile_range a) as (A1 & A2 & A3 & _).
  destruct (profile_range b) as (B1 & B2 & B3 & _).
  pose proof (blend_between (p_left_eye (profileOf a)) (p_left_eye (profileOf b)) p Hp).
  pose proof (blend_between (p_right_eye (profileOf a)) (p_right_eye (profileOf b)) p Hp).
  pose proof (blend_between (p_mouth (profileOf a)) (p_mouth (profileOf b)) p Hp).
  apply (channel_inv_params _ _ H); cbn; lia.
Qed.

Lemma transition_step_inv (s : face_state_t) : channel_inv (transition_step s).
Proof.
  unfold transition_step. cbv zeta.
  set (s0 := set_transition_progress (to_uint8 (transition_progress s + 10)) s).
  set (s1 := if 100 <=? transition_progress s0
             then set_current_emotion (target_emotion s0) (set_transition_progress 100 s0)
             else s0).
  assert (P1 : 0 <= transition_progress s1 <= 100).
  { subst s1. destruct (100 <=? transition_progress s0) eqn:E.
    - norm_state. lia.
    - apply Z.leb_gt in E. subst s0. revert E. norm_state.
      pose proof (to_uint8_range (transition_progress s + 10)). lia. }
  set (st := snd (update_emotion_parameters (target_emotion s1) s1)).
  assert (Ct : control st = control s1) by apply update_emotion_parameters_control.
  pose proof (control_fields _ _ Ct) as (_ & _ & _ & _ & _ & _ & _ & Pt).
  set (sc := snd (update_emotion_parameters (current_emotion st) st)).
  assert (Cc : control sc = control st) by apply update_emotion_parameters_control.
  pose proof (control_fields _ _ Cc) as (_ & _ & _ & _ & _ & _ & _ & Pc).
  rewrite !update_emotion_parameters_fst.
  apply (blend_params_inv (current_emotion st) (target_emotion s1) (transition_progress sc)).
  - rewrite Pc, Pt. exact P1.
  - apply store_channels_frame.
Qed.

Lemma blink_step_inv (now : Z) (s : face_state_t) :
  channel_inv s -> channel_inv (blink_step now s).
Proof.
  intros (Hl & Hr & Hm). unfold blink_step. cbv zeta.
  set (s0 := set_blink_phase (to_uint8 (blink_phase s + 20)) s).
  set (s1 := if 100 <=? blink_phase s0
             then set_last_blink_time now (set_is_blinking false (set_blink_phase 0 s0))
             else s0).
  assert (P1 : 0 <= blink_phase s1 < 100).
  { subst s1. destruct (100 <=? blink_phase s0) eqn:E.
    - norm_state. lia.
    - apply Z.leb_gt in E. subst s0. revert E. norm_state.
      pose proof (to_uint8_range (blink_phase s + 20)). lia. }
  assert (M1 : mouth_curve s1 = mouth_curve s).
  { subst s1 s0. peel. }
  unfold channel_inv. norm_state. rewrite M1.
  assert (0 <= (if blink_phase s1 <? 50 then 100 - blink_phase s1 * 2
                else (blink_phase s1 - 50) * 2) <= 100).
  { destruct (blink_phase s1 <? 50) eqn:E;
      [apply Z.ltb_lt in E | apply Z.ltb_ge in E]; lia. }
  rewrite to_uint8_small by lia. auto.
Qed.

Lemma trigger_blink_channels (s : face_state_t) :
  channels (face_trigger_blink s) = channels s.
Proof. unfold face_trigger_blink. peel. Qed.

Lemma scheduler_step_inv (now : Z) (s : face_state_t) :
  channel_inv s -> channel_inv (scheduler_step now s).
Proof.
  intros H. unfold scheduler_step.
  destruct (is_blinking s); [apply blink_step_inv; exact H |].
  destruct (blink_due now s);
    [apply (channel_inv_channels _ s (trigger_blink_channels s) H) |].
  destruct (transition_pending s); [apply transition_step_inv | exact H].
Qed.

(** ** Every observation point *)

Section Operations.

Variable fp : float_site -> Z -> Z.

Hypothesis fp_ok : fp_bounded fp.

Lemma init_inv (cfg : option face_config_t) (env : init_env) (s : face_state_t) :
  channel_inv s -> channel_inv (snd (face_animation_init fp cfg env s)).
Proof.
  intros H. unfold face_animation_init.
  destruct (initialized s); [exact H |]. cbv zeta.
  match goal with |- context [if ?c then _ else _] => destruct c end; cbn [snd].
  - apply (channel_inv_channels _ s); [reflexivity | exact H].
  - apply (channel_inv_params (mk_params 100 100 0 0 0 0)); [reflexivity | cbn; lia ..].
Qed.

Lemma deinit_inv (s : face_state_t) :
  channel_inv s -> channel_inv (face_animation_deinit s).
Proof.
  intros H. unfold face_animation_deinit.
  destruct (initialized s); cbn [negb]; [| exact H].
  unfold channel_inv. cbn. lia.
Qed.

Lemma set_emotion_inv (e : face_emotion_t) (smooth : bool) (s : face_state_t) :
  channel_inv s -> channel_inv (face_set_emotion e smooth s).
Proof.
  intros H. unfold face_set_emotion.
  destruct (negb (initialized s) || (emotion_code FACE_EMOTION_COUNT <=? emotion_code e));
    [exact H |].
  destruct smooth; cbn [negb].
  - apply (channel_inv_channels _ s); [reflexivity | exact H].
  - cbv zeta.
    set (s1 := set_transition_progress 100 (set_current_emotion e (set_target_emotion e s))).
    destruct (update_emotion_parameters e s1) as [p s2] eqn:Eu.
    assert (Hp : p = profileOf e).
    { rewrite <- (update_emotion_parameters_fst e s1), Eu. reflexivity. }
    destruct (profile_range e) as (A1 & A2 & A3 & _).
    apply (channel_inv_params p); [apply store_channels_frame | subst p; lia ..].
Qed.

Lemma set_eye_openness_inv (l r : Z) (s : face_state_t) :
  channel_inv s -> channel_inv (face_set_eye_openness l r s).
Proof.
  intros (Hl & Hr & Hm). unfold face_set_eye_openness. cbv zeta.
  destruct (initialized s); cbn [negb]; [| unfold channel_inv; auto].
  pose proof (to_uint8_range l). pose proof (to_uint8_range r).
  unfold channel_inv. norm_state.
  destruct (100 <? to_uint8 l) eqn:El; [| apply Z.ltb_ge in El];
    (destruct (100 <? to_uint8 r) eqn:Er; [| apply Z.ltb_ge in Er]); lia.
Qed.

Lemma set_mouth_shape_inv (v : Z) (s : face_state_t) :
  channel_inv s -> channel_inv (face_set_mouth_shape v s).
Proof.
  intros (Hl & Hr & Hm). unfold face_set_mouth_shape. cbv zeta.
  destruct (initialized s); cbn [negb]; [| unfold channel_inv; auto].
  unfold channel_inv. norm_state.
  destruct (100 <? to_int8 v) eqn:E1; [| apply Z.ltb_ge in E1].
  - cbn. lia.
  - destruct (to_int8 v <? -100) eqn:E2; [| apply Z.ltb_ge in E2]; lia.
Qed.

Lemma timer_inv (now : Z) (s : face_state_t) :
  channel_inv s -> channel_inv (animation_timer_cb fp now s).
Proof.
  intros H. unfold animation_timer_cb.
  destruct (initialized s); cbn [negb]; [| exact H].
  apply (channel_inv_channels _ _ (motion_step_channels_idle fp _)).
  apply (idle_motion_inv fp fp_ok).
  apply (channel_inv_channels _ (scheduler_step now s)); [apply pre_idle_frame |].
  apply scheduler_step_inv. exact H.
Qed.

Lemma apply_operation_inv (op : operation) (s : face_state_t) :
  channel_inv s -> channel_inv (apply_operation fp op s).
Proof.
  intros H. destruct op; cbn [apply_operation].
  - apply init_inv; exact H.
  - apply deinit_inv; exact H.
  - apply set_emotion_inv; exact H.
  - apply set_eye_openness_inv; exact H.
  - apply set_mouth_shape_inv; exact H.
  - exact H.
  - apply (channel_inv_channels _ s (trigger_blink_channels s) H).
  - unfold face_set_position.
    destruct (negb (initialized s)); [exact H |].
    destruct (face_container s); exact H.
  - apply timer_inv; exact H.
  - unfold face_animation_update. destruct (anim_timer s); [apply timer_inv |]; exact H.
Qed.

(** C6, amended: at every observation point (the zero state, and the
    state after any sequence of initialisations, teardowns, public setters
    and timer ticks) both eye opennesses are within [[0, 100]] and the
    mouth curve is within [[-100, 115]]: the profile of Playful puts the
    mouth at 110 and its idle motion moves it between 95 and 115. *)
Theorem channels_stay_in_range (ops : list operation) :
  let s := run_operations fp ops face_state_zero in
  0 <= left_eye_openness s <= 100 /\
  0 <= right_eye_openness s <= 100 /\
  -100 <= mouth_curve s <= 115.
Proof.
  cbv zeta. change (channel_inv (run_operations fp ops face_state_zero)).
  assert (H0 : channel_inv face_state_zero) by (unfold channel_inv; cbn; lia).
  revert H0. generalize face_state_zero.
  induction ops as [| op ops IH]; intros s H; cbn [run_operations].
  - exact H.
  - apply IH, apply_operation_inv, H.
Qed.

End Operations.

(** C6, the claim as stated fails: an immediate switch to Playful stores
    a mouth curve of 110, and the next tick keeps it above 100. *)
Lemma playful_mouth_exceeds_100 :
  let s := run_operations still_libm
             [op_init None example_env; op_set_emotion FACE_PLAYFUL false] face_state_zero in
  mouth_curve s = 110 /\
  (100 <? mouth_curve s) = true /\
  (95 <=? mouth_curve (run_operations still_libm [op_timer 30] s)) = true.
Proof. cbv zeta. repeat split; vm_compute; reflexivity. Qed.

Lemma channels_stay_in_range_witness :
  fp_bounded still_libm /\
  let s := run_operations still_libm
             [op_init None example_env; op_set_emotion FACE_PLAYFUL false;
              op_set_eye_openness 150 246; op_timer 30; op_timer 60] face_state_zero in
  0 <= left_eye_openness s <= 100 /\
  0 <= right_eye_openness s <= 100 /\
  -100 <= mouth_curve s <= 115.
Proof.
  split; [exact still_libm_bounded |].
  exact (channels_stay_in_range still_libm still_libm_bounded
           [op_init None example_env; op_set_emotion FACE_PLAYFUL false;
            op_set_eye_openness 150 246; op_timer 30; op_timer 60]).
Defined.

(** ** Crying eyes

    Whatever the oracle, within its bounds, the tick that completes a
    transition into Cry leaves the eyes at 65 or below, under the
    profile's 70. *)

Section CryingEyes.

Variable fp : float_site -> Z -> Z.
Hypothesis fp_ok : fp_bounded fp.

Lemma cry_idle_eyes (s : face_state_t) :
  current_emotion s = FACE_CRY -> eyes_free s = true ->
  45 <= left_eye_openness (idle_motion fp s) <= 65.
Proof.
  intros He Hf.
  pose proof (fp_ok cry_squeeze (bounce_counter s) 0 20 eq_refl eq_refl).
  unfold idle_motion. rewrite He. cbv beta iota zeta.
  replace (eyes_free (set_bounce_offset (to_int8 (fp cry_bounce (bounce_counter s))) s))
    with true by (symmetry; exact Hf).
  unfold set_eyes. cbv zeta. norm_state. rewrite to_int16_small by lia.
  replace (65 - fp cry_squeeze (bounce_counter s) <? 30) with false
    by (symmetry; apply Z.ltb_ge; lia).
  rewrite to_uint8_small by lia. lia.
Qed.

Lemma tick_into_cry (now : Z) (s : face_state_t) :
  initialized s = true -> is_blinking s = false -> blink_due now s = false ->
  emotion_eqb (current_emotion s) (target_emotion s) = false ->
  target_emotion s = FACE_CRY -> 90 <= transition_progress s < 100 ->
  current_emotion (animation_timer_cb fp now s) = FACE_CRY /\
  45 <= left_eye_openness (animation_timer_cb fp now s) <= 65.
Proof.
  intros Hi Hb Hd He Ht Hp.
  destruct (tick_transition_finish fp now s Hi Hb Hd He Hp) as (Hc & _).
  pose proof (control_eq _ _ _ _ _ _ _ _ _ Hc) as (_ & _ & _ & _ & _ & E & _ & _).
  split; [congruence |].
  assert (Hs : control (scheduler_step now s)
               = (initialized s, config s, last_blink_time s, is_blinking s, blink_phase s,
                  target_emotion s, target_emotion s, 100)).
  { assert (Hq : scheduler_step now s = transition_step s).
    { unfold scheduler_step. rewrite Hb, Hd.
      replace (transition_pending s) with true; [reflexivity |].
      symmetry. unfold transition_pending. rewrite He. apply Z.ltb_lt. lia. }
    rewrite Hq. apply transition_step_finish. lia. }
  unfold animation_timer_cb. rewrite Hi. cbn [negb].
  destruct (channels_fields _ _ (motion_step_channels_idle fp (scheduler_step now s)))
    as (-> & _).
  destruct (pre_idle_frame fp (scheduler_step now s)) as (Cp & _).
  rewrite Hs in Cp. apply control_eq in Cp.
  destruct Cp as (_ & _ & _ & Bp & _ & Ep & _ & Pp).
  apply cry_idle_eyes; [congruence |].
  unfold eyes_free. rewrite Pp, Bp, Hb. reflexivity.
Qed.

End CryingEyes.

(** * Further properties *)

(** ** Immediate emotion changes *)

(** X1: [face_set_emotion e false] on an initialised face, for an accepted
    identifier, resolves the face at once: the six channels are the
    profile of [e], [e] is current and target, the progress is 100, and
    blush, sparkle and heartbeat are what the lookup of [e] writes
    (sparkle and heartbeat are kept for Neutral).  Blink state and
    configuration are not touched. *)
Theorem immediate_set_resolves_profile (e : face_emotion_t) (s : face_state_t) :
  initialized s = true -> accepted e = true ->
  let r := face_set_emotion e false s in
  channels r = profileOf e /\
  emotion_view r = (e, e, 100) /\
  face_get_emotion r = e /\
  effects r = effects (snd (update_emotion_parameters e s)) /\
  (is_blinking r, blink_phase r, last_blink_time r, config r)
    = (is_blinking s, blink_phase s, last_blink_time s, config s).
Proof.
  intros Hi Ha r.
  destruct (set_emotion_immediate e s Hi Ha) as (Hc & Hch). fold r in Hc, Hch.
  apply control_eq in Hc. destruct Hc as (_ & C & L & B & P & E & T & R).
  split; [exact Hch |].
  split; [unfold emotion_view; rewrite E, T, R; reflexivity |].
  split; [exact E |].
  split; [| rewrite B, P, L, C; reflexivity].
  subst r. unfold face_set_emotion, accepted in *. rewrite Hi.
  apply Z.ltb_lt in Ha.
  replace (emotion_code FACE_EMOTION_COUNT <=? emotion_code e) with false
    by (symmetry; apply Z.leb_gt; exact Ha).
  destruct e; reflexivity.
Qed.

Lemma immediate_set_resolves_profile_witness :
  let r := face_set_emotion FACE_LOVE false (example_state true) in
  initialized (example_state true) = true /\ accepted FACE_LOVE = true /\
  channels r = mk_params 95 95 80 3 3 (-3) /\ effects r = (90, 100, 100).
Proof.
  cbv zeta.
  pose proof (immediate_set_resolves_profile FACE_LOVE (example_state true) eq_refl eq_refl)
    as H.
  cbv zeta in H. destruct H as (Hc & _ & _ & He & _).
  split; [reflexivity |]. split; [reflexivity |].
  split; [rewrite Hc; reflexivity | rewrite He; reflexivity].
Defined.

(** ** Initialisation and teardown *)

Lemma init_allocation_test (fp : float_site -> Z -> Z) (cfg : option face_config_t)
  (env : init_env) (s : face_state_t) :
  initialized s = false ->
  face_animation_init fp cfg env s
    = if all_allocated env
      then (ESP_OK, snd (face_animation_init fp cfg env s))
      else (ESP_ERR_NO_MEM, snd (face_animation_init fp cfg env s)).
Proof.
  intros Hi. unfold face_animation_init, all_allocated. rewrite Hi. cbv zeta. norm_state.
  destruct (left_eye_alloc env), (right_eye_alloc env), (mouth_alloc env); reflexivity.
Qed.

Lemma init_success_initialized (fp : float_site -> Z -> Z) (cfg : option face_config_t)
  (env : init_env) (s : face_state_t) :
  initialized s = false -> all_allocated env = true ->
  initialized (snd (face_animation_init fp cfg env s)) = true.
Proof.
  intros Hi Ha.
  unfold face_animation_init, all_allocated in *. rewrite Hi. cbv zeta. norm_state.
  apply andb_true_iff in Ha. destruct Ha as (Ha & A3).
  apply andb_true_iff in Ha. destruct Ha as (A1 & A2).
  rewrite A1, A2, A3. reflexivity.
Qed.

(** X2: a first [face_animation_init] whose three buffers are allocated
    returns [ESP_OK] and leaves an initialised face with all its
    resources, the configuration given (or the defaults: 30 ms, 3000 ms,
    auto-blink on), the face size the smaller side of the parent, Neutral
    as current and target emotion with the Neutral profile resolved at
    progress 100, no secondary effect, and the blink clock at the time of
    the call. *)
Theorem init_creates_neutral_face (fp : float_site -> Z -> Z) (cfg : option face_config_t)
  (env : init_env) (s : face_state_t) :
  initialized s = false -> all_allocated env = true ->
  let r := snd (face_animation_init fp cfg env s) in
  fst (face_animation_init fp cfg env s) = ESP_OK /\
  initialized r = true /\
  resources r = (true, true, true, true, true, true, true, true) /\
  config r = stored_config cfg /\
  face_sz r = to_uint16 (Z.min (parent_w env) (parent_h env)) /\
  emotion_view r = (FACE_NEUTRAL, FACE_NEUTRAL, 100) /\
  channels r = profileOf FACE_NEUTRAL /\
  effects r = (0, 0, 0) /\ bounce_offset r = 0 /\
  last_blink_time r = init_tick env /\
  face_get_container r = Some (0, 0) /\
  (is_blinking r, blink_phase r, statics r) = (is_blinking s, blink_phase s, statics s).
Proof.
  intros Hi Ha r.
  rewrite init_allocation_test by exact Hi. rewrite Ha.
  split; [reflexivity |].
  subst r. unfold face_animation_init, all_allocated in *. rewrite Hi. cbv zeta. norm_state.
  apply andb_true_iff in Ha. destruct Ha as (Ha & A3).
  apply andb_true_iff in Ha. destruct Ha as (A1 & A2).
  rewrite A1, A2, A3. cbn [negb orb snd].
  assert (Hm : (if parent_w env <? parent_h env then parent_w env else parent_h env)
               = Z.min (parent_w env) (parent_h env)).
  { destruct (parent_w env <? parent_h env) eqn:E;
      [apply Z.ltb_lt in E | apply Z.ltb_ge in E]; lia. }
  rewrite Hm. unfold face_get_container, resources, stored_config.
  repeat split; reflexivity.
Qed.

Lemma init_creates_neutral_face_witness :
  initialized face_state_zero = false /\ all_allocated example_env = true /\
  channels (snd (face_animation_init still_libm None example_env face_state_zero))
    = mk_params 100 100 0 0 0 0 /\
  auto_blink (config (snd (face_animation_init still_libm None example_env face_state_zero)))
    = true.
Proof.
  pose proof (init_creates_neutral_face still_libm None example_env face_state_zero
                eq_refl eq_refl) as H.
  cbv zeta in H. destruct H as (_ & _ & _ & Hc & _ & _ & Hch & _).
  split; [reflexivity |]. split; [reflexivity |].
  split; [rewrite Hch; reflexivity | rewrite Hc; reflexivity].
Defined.

(** X3: initialising an initialised face is a no-op and not a reset:
    whatever configuration and environment the second call is given, it
    returns [ESP_OK] and the state is the one before the call. *)
Theorem init_twice_is_init_once (fp : float_site -> Z -> Z) (cfg cfg' : option face_config_t)
  (env env' : init_env) (s : face_state_t) :
  initialized s = false -> all_allocated env = true ->
  let r := snd (face_animation_init fp cfg env s) in
  face_animation_init fp cfg' env' r = (ESP_OK, r) /\
  (forall e smooth, face_animation_init fp cfg' env' (face_set_emotion e smooth r)
                    = (ESP_OK, face_set_emotion e smooth r)).
Proof.
  intros Hi Ha r.
  pose proof (init_success_initialized fp cfg env s Hi Ha) as Hr. fold r in Hr.
  split.
  - unfold face_animation_init at 1. rewrite Hr. reflexivity.
  - intros e smooth.
    assert (H : initialized (face_set_emotion e smooth r) = true).
    { unfold face_set_emotion. rewrite Hr. cbn [negb orb].
      destruct (emotion_code FACE_EMOTION_COUNT <=? emotion_code e); [exact Hr |].
      destruct smooth; cbn [negb]; [exact Hr |].
      destruct e; exact Hr. }
    unfold face_animation_init at 1. rewrite H. reflexivity.
Qed.

Lemma init_twice_is_init_once_witness :
  initialized face_state_zero = false /\ all_allocated example_env = true /\
  face_animation_init still_libm None (mk_init_env 320 240 true true true 5000)
    (example_state false) = (ESP_OK, example_state false).
Proof.
  split; [reflexivity |]. split; [reflexivity |].
  apply (init_twice_is_init_once still_libm (Some (mk_face_config true 30 3000 false)) None
           example_env (mk_init_env 320 240 true true true 5000) face_state_zero
           eq_refl eq_refl).
Defined.

(** X4: when one of the three buffers cannot be allocated, a first
    [face_animation_init] returns [ESP_ERR_NO_MEM] and the face stays
    uninitialised, but the call is not undone: the new configuration and
    geometry are stored, the container exists, and the buffers that were
    allocated stay in [face_state].  [face_animation_deinit] then does
    nothing, so they are never released. *)
Theorem init_failure_keeps_allocations (fp : float_site -> Z -> Z)
  (cfg : option face_config_t) (env : init_env) (s : face_state_t) :
  initialized s = false -> all_allocated env = false ->
  let r := snd (face_animation_init fp cfg env s) in
  fst (face_animation_init fp cfg env s) = ESP_ERR_NO_MEM /\
  initialized r = false /\
  config r = stored_config cfg /\
  face_container r = Some (0, 0) /\
  (left_eye_buf r, right_eye_buf r, mouth_buf r)
    = (left_eye_alloc env, right_eye_alloc env, mouth_alloc env) /\
  (left_eye_canvas r, right_eye_canvas r, mouth_canvas r, anim_timer r)
    = (left_eye_canvas s, right_eye_canvas s, mouth_canvas s, anim_timer s) /\
  emotion_view r = emotion_view s /\ channels r = channels s /\
  face_animation_deinit r = r.
Proof.
  intros Hi Ha r.
  rewrite init_allocation_test by exact Hi. rewrite Ha.
  split; [reflexivity |].
  assert (Hr : r = set_mouth_buf (mouth_alloc env)
                 (set_right_eye_buf (right_eye_alloc env)
                   (set_left_eye_buf (left_eye_alloc env)
                     (set_face_container (Some (0, 0))
                       (set_mouth_ch
                          (to_uint16 (fp init_mouth_ch
                             (to_uint16 (if parent_w env <? parent_h env
                                         then parent_w env else parent_h env))))
                         (set_mouth_cw
                            (to_uint16 (fp init_mouth_cw
                               (to_uint16 (if parent_w env <? parent_h env
                                           then parent_w env else parent_h env))))
                           (set_eye_cw
                              (to_uint16 (fp init_eye_cw
                                 (to_uint16 (if parent_w env <? parent_h env
                                             then parent_w env else parent_h env))))
                             (set_face_sz
                                (to_uint16 (if parent_w env <? parent_h env
                                            then parent_w env else parent_h env))
                                (set_config (stored_config cfg) s))))))))).
  { subst r. unfold face_animation_init, all_allocated in *. rewrite Hi. cbv zeta. norm_state.
    destruct (left_eye_alloc env), (right_eye_alloc env), (mouth_alloc env);
      try discriminate Ha; reflexivity. }
  assert (Hn : initialized r = false) by (rewrite Hr; norm_state; exact Hi).
  split; [exact Hn |].
  split; [rewrite Hr; reflexivity |].
  split; [rewrite Hr; reflexivity |].
  split; [rewrite Hr; reflexivity |].
  split; [rewrite Hr; reflexivity |].
  split; [rewrite Hr; reflexivity |].
  split; [rewrite Hr; reflexivity |].
  unfold face_animation_deinit. rewrite Hn. reflexivity.
Qed.

Lemma init_failure_keeps_allocations_witness :
  let env := mk_init_env 135 135 true false true 0 in
  let r := snd (face_animation_init still_libm None env face_state_zero) in
  initialized face_state_zero = false /\ all_allocated env = false /\
  fst (face_animation_init still_libm None env face_state_zero) = ESP_ERR_NO_MEM /\
  left_eye_buf r = true /\ face_animation_deinit r = r.
Proof.
  cbv zeta.
  pose proof (init_failure_keeps_allocations still_libm None
                (mk_init_env 135 135 true false true 0) face_state_zero eq_refl eq_refl) as H.
  cbv zeta in H. destruct H as (He & _ & _ & _ & Hb & _ & _ & _ & Hd).
  split; [reflexivity |]. split; [reflexivity |]. split; [exact He |].
  split; [| exact Hd].
  exact (f_equal (fun t => fst (fst t)) Hb).
Defined.

(** X5: [face_animation_deinit] on an initialised face clears every field
    of [face_state_t] (what is left is the zero state with the statics of
    the timer callback unchanged), and teardown is idempotent: a second
    [face_animation_deinit], the timer callback, [face_animation_update]
    and the guarded setters all leave the torn-down state as it is, and
    [face_get_container] returns NULL. *)
Theorem deinit_clears_and_is_idempotent (fp : float_site -> Z -> Z) (s : face_state_t) :
  initialized s = true ->
  let d := face_animation_deinit s in
  d = with_statics_of s face_state_zero /\
  initialized d = false /\
  resources d = (false, false, false, false, false, false, false, false) /\
  face_get_container d = None /\
  face_animation_deinit d = d /\
  (forall now, animation_timer_cb fp now d = d /\ face_animation_update fp now d = d) /\
  (forall e smooth l r v x y,
     face_set_emotion e smooth d = d /\ face_set_eye_openness l r d = d /\
     face_set_mouth_shape v d = d /\ face_trigger_blink d = d /\
     face_set_position x y d = d).
Proof.
  intros Hi d.
  assert (Hd : d = with_statics_of s face_state_zero).
  { subst d. unfold face_animation_deinit. rewrite Hi. reflexivity. }
  assert (Hn : initialized d = false) by (rewrite Hd; reflexivity).
  assert (Ht : anim_timer d = false) by (rewrite Hd; reflexivity).
  split; [exact Hd |]. split; [exact Hn |].
  split; [rewrite Hd; reflexivity |].
  split; [unfold face_get_container; rewrite Hn; reflexivity |].
  split; [unfold face_animation_deinit; rewrite Hn; reflexivity |].
  split.
  - intros now. unfold face_animation_update, animation_timer_cb. rewrite Hn, Ht.
    split; reflexivity.
  - intros e smooth l r v x y.
    destruct (guarded_operations_before_init fp d e smooth l r v x y 0 Hn)
      as (H1 & H2 & H3 & H4 & H5 & _).
    repeat split; assumption.
Qed.

Lemma deinit_clears_and_is_idempotent_witness :
  let d := face_animation_deinit (face_set_emotion FACE_LOVE false (example_state true)) in
  initialized (face_set_emotion FACE_LOVE false (example_state true)) = true /\
  d = face_state_zero /\ face_animation_deinit d = d.
Proof.
  cbv zeta.
  pose proof (deinit_clears_and_is_idempotent still_libm
                (face_set_emotion FACE_LOVE false (example_state true)) eq_refl) as H.
  cbv zeta in H. destruct H as (Hd & _ & _ & _ & Hi & _).
  split; [reflexivity |]. split; [rewrite Hd; reflexivity | exact Hi].
Defined.

(** X6: teardown followed by initialisation gives exactly the face a
    first initialisation gives from the zero state, except for the five
    statics of the timer callback (bounce, pupil and idle counters, the
    diamond and heartbeat directions), which keep the values they had:
    the idle motion resumes where it was and is not restarted. *)
Theorem restart_keeps_only_statics (fp : float_site -> Z -> Z) (cfg : option face_config_t)
  (env : init_env) (s : face_state_t) :
  initialized s = true ->
  face_animation_init fp cfg env (face_animation_deinit s)
    = (fst (face_animation_init fp cfg env face_state_zero),
       with_statics_of s (snd (face_animation_init fp cfg env face_state_zero))).
Proof.
  intros Hi. unfold face_animation_deinit. rewrite Hi. cbn [negb].
  unfold face_animation_init. cbv zeta. norm_state.
  destruct (left_eye_alloc env), (right_eye_alloc env), (mouth_alloc env); reflexivity.
Qed.

Lemma restart_keeps_only_statics_witness :
  let s := run_ticks still_libm [30; 60; 90] (example_state false) in
  initialized s = true /\
  bounce_counter s = 3 /\
  bounce_counter
    (snd (face_animation_init still_libm None example_env (face_animation_deinit s))) = 3.
Proof.
  cbv zeta.
  pose proof (restart_keeps_only_statics still_libm None example_env
                (run_ticks still_libm [30; 60; 90] (example_state false)) eq_refl) as H.
  split; [reflexivity |]. split; [reflexivity |].
  rewrite H. reflexivity.
Defined.

(** ** Ticks that do not advance a transition *)

Lemma control_views (a b : face_state_t) :
  control a = control b -> emotion_view a = emotion_view b /\ blink_view a = blink_view b.
Proof.
  intros H. apply control_fields in H.
  destruct H as (H1 & H2 & H3 & H4 & H5 & H6 & H7 & H8).
  unfold emotion_view, blink_view. rewrite H1, H2, H3, H4, H5, H6, H7, H8. split; reflexivity.
Qed.

Lemma channels_below_eyes (a b : face_state_t) :
  channels a = channels b -> below_eyes a = below_eyes b.
Proof.
  unfold channels, below_eyes. intros H. injection H as _ _ -> -> -> ->. reflexivity.
Qed.

Lemma blink_step_keeps (now : Z) (s : face_state_t) :
  emotion_view (blink_step now s) = emotion_view s /\
  below_eyes (blink_step now s) = below_eyes s.
Proof. unfold blink_step. split; peel. Qed.

Lemma trigger_blink_keeps (s : face_state_t) :
  emotion_view (face_trigger_blink s) = emotion_view s /\
  channels (face_trigger_blink s) = channels s.
Proof. unfold face_trigger_blink. split; peel. Qed.

Lemma scheduler_step_without_transition (now : Z) (s : face_state_t) :
  is_blinking s = true \/ blink_due now s = true \/ transition_pending s = false ->
  emotion_view (scheduler_step now s) = emotion_view s /\
  below_eyes (scheduler_step now s) = below_eyes s.
Proof.
  intros H. unfold scheduler_step.
  destruct (is_blinking s) eqn:Eb; [apply blink_step_keeps |].
  destruct (blink_due now s) eqn:Ed.
  { destruct (trigger_blink_keeps s) as (H1 & H2).
    split; [exact H1 | apply channels_below_eyes; exact H2]. }
  destruct H as [H | [H | H]]; try discriminate H.
  rewrite H. split; reflexivity.
Qed.

Lemma tick_without_transition (fp : float_site -> Z -> Z) (now : Z) (s : face_state_t) :
  is_blinking s = true \/ blink_due now s = true \/ transition_pending s = false ->
  emotion_view (animation_timer_cb fp now s) = emotion_view s /\
  ((transition_progress s =? 100) = false ->
   below_eyes (animation_timer_cb fp now s) = below_eyes s).
Proof.
  intros H. unfold animation_timer_cb.
  destruct (initialized s); cbn [negb]; [| split; reflexivity].
  destruct (scheduler_step_without_transition now s H) as (He & Hb).
  destruct (control_views _ _ (motion_step_control fp (scheduler_step now s))) as (Hv & _).
  split; [rewrite Hv; exact He |].
  intros Hp. rewrite <- Hb. apply channels_below_eyes.
  apply motion_step_channels_in_transition.
  unfold emotion_view in He. injection He as _ _ ->. exact Hp.
Qed.

Lemma settled_not_pending (s : face_state_t) :
  emotion_eqb (current_emotion s) (target_emotion s) = true -> transition_pending s = false.
Proof. intros H. unfold transition_pending. rewrite H. reflexivity. Qed.

(** X7: a face whose current emotion is its target stays as it is under
    the timer: whatever the tick times, whether it blinks or not, the
    current emotion, the target and the progress do not change.  Only
    [face_set_emotion] moves a settled face. *)
Theorem settled_face_stays_settled (fp : float_site -> Z -> Z) (times : list Z)
  (s : face_state_t) :
  emotion_eqb (current_emotion s) (target_emotion s) = true ->
  emotion_view (run_ticks fp times s) = emotion_view s.
Proof.
  revert s. induction times as [| t times IH]; intros s H; cbn [run_ticks]; [reflexivity |].
  destruct (tick_without_transition fp t s) as (Hv & _).
  { right. right. apply settled_not_pending. exact H. }
  rewrite IH, Hv; [reflexivity |].
  unfold emotion_view in Hv. injection Hv as -> -> _. exact H.
Qed.

Lemma settled_face_stays_settled_witness :
  let s := face_set_emotion FACE_HAPPY false (example_state true) in
  let times := [1000; 2000; 3000; 3030; 3060; 3090; 3120; 3150; 3180] in
  emotion_eqb (current_emotion s) (target_emotion s) = true /\
  emotion_view (run_ticks still_libm times s) = (FACE_HAPPY, FACE_HAPPY, 100).
Proof.
  cbv zeta. split; [reflexivity |].
  rewrite (settled_face_stays_settled still_libm
             [1000; 2000; 3000; 3030; 3060; 3090; 3120; 3150; 3180]
             (face_set_emotion FACE_HAPPY false (example_state true)) eq_refl).
  reflexivity.
Defined.

(** X8: selecting the current emotion again with [smooth = true] freezes
    the face.  The progress is reset to 0 and, the current emotion being
    the target already, no tick ever advances it: it stays 0 for every run
    of ticks, and with it the mouth curve, both brow angles and the brow
    height stay what they were at the call, since the idle motion writes
    them only at progress 100. *)
Theorem smooth_reselection_freezes (fp : float_site -> Z -> Z) (times : list Z)
  (s : face_state_t) :
  initialized s = true -> accepted (current_emotion s) = true ->
  let r := run_ticks fp times (face_set_emotion (current_emotion s) true s) in
  emotion_view r = (current_emotion s, current_emotion s, 0) /\
  below_eyes r = below_eyes s.
Proof.
  intros Hi Ha r.
  destruct (set_emotion_smooth (current_emotion s) s Hi Ha) as (Hc & Hch).
  set (s0 := face_set_emotion (current_emotion s) true s) in *.
  apply control_eq in Hc. destruct Hc as (_ & _ & _ & _ & _ & E & T & P).
  assert (H0 : emotion_view s0 = (current_emotion s, current_emotion s, 0))
    by (unfold emotion_view; rewrite E, T, P; reflexivity).
  apply channels_below_eyes in Hch. rewrite <- Hch, <- H0. subst r.
  clear E T P Hch. revert H0. generalize s0. clear s0.
  induction times as [| t times IH]; intros s0 H0; cbn [run_ticks]; [split; reflexivity |].
  pose proof H0 as H0'. unfold emotion_view in H0'. injection H0' as E T P.
  destruct (tick_without_transition fp t s0) as (Hv & Hb).
  { right. right. apply settled_not_pending. rewrite E, T. apply emotion_eqb_refl. }
  destruct (IH (animation_timer_cb fp t s0)) as (IH1 & IH2); [rewrite Hv; exact H0 |].
  rewrite IH1, IH2, Hv, Hb; [split; reflexivity |].
  rewrite P. reflexivity.
Qed.

Lemma smooth_reselection_freezes_witness :
  let s := face_set_emotion FACE_HAPPY false (example_state false) in
  let r := run_ticks still_libm [30; 60; 90; 120] (face_set_emotion FACE_HAPPY true s) in
  initialized s = true /\ accepted (current_emotion s) = true /\
  transition_progress r = 0 /\ mouth_curve r = 90.
Proof.
  cbv zeta.
  pose proof (smooth_reselection_freezes still_libm [30; 60; 90; 120]
                (face_set_emotion FACE_HAPPY false (example_state false)) eq_refl eq_refl)
    as H.
  cbv zeta in H. destruct H as (Hv & Hb).
  split; [reflexivity |]. split; [reflexivity |].
  split.
  - exact (f_equal snd Hv).
  - exact (f_equal (fun t => fst (fst (fst t))) Hb).
Defined.

(** ** The blink scheduler *)

Lemma transition_step_blink_view (s : face_state_t) :
  blink_view (transition_step s) = blink_view s.
Proof.
  unfold transition_step. cbv zeta.
  set (s0 := set_transition_progress (to_uint8 (transition_progress s + 10)) s).
  set (s1 := if 100 <=? transition_progress s0
             then set_current_emotion (target_emotion s0) (set_transition_progress 100 s0)
             else s0).
  set (st := snd (update_emotion_parameters (target_emotion s1) s1)).
  set (sc := snd (update_emotion_parameters (current_emotion st) st)).
  assert (Ct : control st = control s1) by apply update_emotion_parameters_control.
  assert (Cc : control sc = control st) by apply update_emotion_parameters_control.
  match goal with
  | |- blink_view (store_channels ?p sc) = _ =>
      destruct (store_channels_frame p sc) as (_ & Cs)
  end.
  apply control_views in Cs. destruct Cs as (_ & ->).
  apply control_views in Cc. destruct Cc as (_ & ->).
  apply control_views in Ct. destruct Ct as (_ & ->).
  subst s1 s0. peel.
Qed.

Lemma tick_blink_view (fp : float_site -> Z -> Z) (now : Z) (s : face_state_t) :
  is_blinking s = false -> blink_due now s = false ->
  blink_view (animation_timer_cb fp now s) = blink_view s.
Proof.
  intros Hb Hd. unfold animation_timer_cb.
  destruct (initialized s); cbn [negb]; [| reflexivity].
  destruct (control_views _ _ (motion_step_control fp (scheduler_step now s))) as (_ & ->).
  unfold scheduler_step. rewrite Hb, Hd.
  destruct (transition_pending s); [apply transition_step_blink_view | reflexivity].
Qed.

(** X9: with automatic blinking switched off, the timer alone never
    blinks.  From a face that is not blinking, any run of ticks leaves
    [is_blinking] false and the blink phase, the blink clock and the
    configuration untouched; a blink then only starts with
    [face_trigger_blink]. *)
Theorem no_blink_without_auto_blink (fp : float_site -> Z -> Z) (times : list Z)
  (s : face_state_t) :
  auto_blink (config s) = false -> is_blinking s = false ->
  is_blinking (run_ticks fp times s) = false /\
  blink_view (run_ticks fp times s) = blink_view s.
Proof.
  intros Ha Hb.
  assert (H : blink_view (run_ticks fp times s) = blink_view s).
  { revert s Ha Hb. induction times as [| t times IH]; intros s Ha Hb; cbn [run_ticks];
      [reflexivity |].
    assert (Hv : blink_view (animation_timer_cb fp t s) = blink_view s).
    { apply tick_blink_view; [exact Hb |]. unfold blink_due. rewrite Ha. reflexivity. }
    rewrite IH, Hv; [reflexivity | |].
    - unfold blink_view in Hv. injection Hv as _ -> _ _ _. exact Ha.
    - unfold blink_view in Hv. injection Hv as _ _ _ -> _. exact Hb. }
  split; [| exact H].
  unfold blink_view in H. injection H as _ _ _ -> _. exact Hb.
Qed.

Lemma no_blink_without_auto_blink_witness :
  let s := face_set_auto_blink false (example_state true) in
  let times := [1000; 5000; 9000; 13000; 4294967295; 0; 17] in
  auto_blink (config s) = false /\ is_blinking s = false /\
  is_blinking (run_ticks still_libm times s) = false.
Proof.
  cbv zeta. split; [reflexivity |]. split; [reflexivity |].
  exact (proj1 (no_blink_without_auto_blink still_libm
                  [1000; 5000; 9000; 13000; 4294967295; 0; 17]
                  (face_set_auto_blink false (example_state true)) eq_refl eq_refl)).
Defined.

(** X10: the tick that starts an automatic blink does nothing else.  When
    the face is initialised, not blinking, and more than [blink_interval]
    milliseconds (in [uint32_t] arithmetic) have passed since the last
    blink ended, the tick sets [is_blinking] with phase 0, keeps the blink
    clock, advances no transition even if one is pending, and leaves both
    eyes as they were: the eyes start to close on the next tick. *)
Theorem auto_blink_starts_a_blink (fp : float_site -> Z -> Z) (now : Z) (s : face_state_t) :
  initialized s = true -> is_blinking s = false ->
  auto_blink (config s) = true ->
  blink_interval (config s) < to_uint32 (now - last_blink_time s) ->
  let r := animation_timer_cb fp now s in
  is_blinking r = true /\ blink_phase r = 0 /\
  last_blink_time r = last_blink_time s /\
  emotion_view r = emotion_view s /\
  left_eye_openness r = left_eye_openness s /\
  right_eye_openness r = right_eye_openness s.
Proof.
  intros Hi Hb Ha Hd r.
  assert (Hdue : blink_due now s = true).
  { unfold blink_due. rewrite Ha. cbn [andb]. apply Z.ltb_lt. exact Hd. }
  assert (Hs : scheduler_step now s = face_trigger_blink s).
  { unfold scheduler_step. rewrite Hb, Hdue. reflexivity. }
  destruct (trigger_blink_starts s Hi Hb) as (Hc & Hch).
  assert (Hr : r = motion_step fp (face_trigger_blink s)).
  { subst r. unfold animation_timer_cb. rewrite Hi, Hs. reflexivity. }
  pose proof (motion_step_control fp (face_trigger_blink s)) as Hm.
  rewrite Hc, <- Hr in Hm.
  apply control_eq in Hm. destruct Hm as (_ & _ & L & B & P & E & T & Q).
  split; [exact B |]. split; [exact P |]. split; [exact L |].
  split; [unfold emotion_view; rewrite E, T, Q; reflexivity |].
  destruct (motion_step_eyes fp (face_trigger_blink s)) as (El & Er).
  { left. apply control_eq in Hc. destruct Hc as (_ & _ & _ & Hb' & _). exact Hb'. }
  rewrite <- Hr in El, Er. rewrite El, Er.
  apply channels_fields in Hch. destruct Hch as (Hl & Hrr & _).
  split; assumption.
Qed.

Lemma auto_blink_starts_a_blink_witness :
  let s := face_set_emotion FACE_SAD true (example_state true) in
  let r := animation_timer_cb still_libm 3001 s in
  initialized s = true /\ is_blinking s = false /\ auto_blink (config s) = true /\
  blink_interval (config s) < to_uint32 (3001 - last_blink_time s) /\
  transition_pending s = true /\
  is_blinking r = true /\ transition_progress r = 0.
Proof.
  cbv zeta.
  pose proof (auto_blink_starts_a_blink still_libm 3001
                (face_set_emotion FACE_SAD true (example_state true))
                eq_refl eq_refl eq_refl eq_refl) as H.
  cbv zeta in H. destruct H as (Hb & _ & _ & Hv & _).
  split; [reflexivity |]. split; [reflexivity |]. split; [reflexivity |].
  split; [reflexivity |]. split; [reflexivity |].
  split; [exact Hb | exact (f_equal snd Hv)].
Defined.

(** The five ticks of a blink, on the scheduler's fields. *)
Lemma five_blink_ticks (fp : float_site -> Z -> Z) (b : face_state_t) (t1 t2 t3 t4 t5 : Z) :
  initialized b = true -> is_blinking b = true -> blink_phase b = 0 ->
  control (run_ticks fp [t1; t2; t3; t4; t5] b)
    = (true, config b, t5, false, 0, current_emotion b, target_emotion b,
       transition_progress b) /\
  ((transition_progress b =? 100) = false ->
   below_eyes (run_ticks fp [t1; t2; t3; t4; t5] b) = below_eyes b).
Proof.
  intros Ib Bb Pb. cbn [run_ticks].
  set (s1 := animation_timer_cb fp t1 b).
  destruct (tick_blink_advance fp t1 b Ib Bb) as (C1 & _); [lia | lia |].
  destruct (tick_without_transition fp t1 b (or_introl Bb)) as (_ & V1).
  fold s1 in C1, V1. rewrite Pb in C1.
  apply control_eq in C1. destruct C1 as (I1 & K1 & _ & B1 & P1 & E1 & T1 & R1).
  set (s2 := animation_timer_cb fp t2 s1).
  destruct (tick_blink_advance fp t2 s1) as (C2 & _); [congruence | congruence | lia | lia |].
  destruct (tick_without_transition fp t2 s1) as (_ & V2); [left; congruence |].
  fold s2 in C2, V2. rewrite P1 in C2.
  apply control_eq in C2. destruct C2 as (I2 & K2 & _ & B2 & P2 & E2 & T2 & R2).
  set (s3 := animation_timer_cb fp t3 s2).
  destruct (tick_blink_advance fp t3 s2) as (C3 & _); [congruence | congruence | lia | lia |].
  destruct (tick_without_transition fp t3 s2) as (_ & V3); [left; congruence |].
  fold s3 in C3, V3. rewrite P2 in C3.
  apply control_eq in C3. destruct C3 as (I3 & K3 & _ & B3 & P3 & E3 & T3 & R3).
  set (s4 := animation_timer_cb fp t4 s3).
  destruct (tick_blink_advance fp t4 s3) as (C4 & _); [congruence | congruence | lia | lia |].
  destruct (tick_without_transition fp t4 s3) as (_ & V4); [left; congruence |].
  fold s4 in C4, V4. rewrite P3 in C4.
  apply control_eq in C4. destruct C4 as (I4 & K4 & _ & B4 & P4 & E4 & T4 & R4).
  set (s5 := animation_timer_cb fp t5 s4).
  destruct (tick_blink_finish fp t5 s4) as (C5 & _); [congruence | congruence | lia |].
  destruct (tick_without_transition fp t5 s4) as (_ & V5); [left; congruence |].
  fold s5 in C5, V5.
  split.
  - rewrite C5. f_equal; congruence.
  - intros Hp. rewrite V5, V4, V3, V2, V1; congruence.
Qed.

(** X11: an automatic blink takes six ticks and the interval to the next
    one is counted from its last tick.  When a blink is due at [t0], the
    tick at [t0] starts it and the ticks at [t1] .. [t5] run it; after them
    the face is not blinking, the blink clock reads [t5], the emotion, its
    target and the progress of a pending transition are what they were
    before [t0], and a further tick at any time [t] with
    [(uint32_t)(t - t5) <= blink_interval] does not start a blink. *)
Theorem auto_blink_period (fp : float_site -> Z -> Z) (s : face_state_t)
  (t0 t1 t2 t3 t4 t5 t : Z) :
  initialized s = true -> is_blinking s = false ->
  auto_blink (config s) = true ->
  blink_interval (config s) < to_uint32 (t0 - last_blink_time s) ->
  to_uint32 (t - t5) <= blink_interval (config s) ->
  let r := run_ticks fp [t0; t1; t2; t3; t4; t5] s in
  is_blinking r = false /\ last_blink_time r = t5 /\
  emotion_view r = emotion_view s /\
  is_blinking (animation_timer_cb fp t r) = false /\
  last_blink_time (animation_timer_cb fp t r) = t5.
Proof.
  intros Hi Hb Ha Hd Ht r.
  assert (Hdue : blink_due t0 s = true).
  { unfold blink_due. rewrite Ha. cbn [andb]. apply Z.ltb_lt. exact Hd. }
  assert (H0 : animation_timer_cb fp t0 s = motion_step fp (face_trigger_blink s)).
  { unfold animation_timer_cb, scheduler_step. rewrite Hi, Hb, Hdue. reflexivity. }
  destruct (trigger_blink_starts s Hi Hb) as (Hc & _).
  pose proof (motion_step_control fp (face_trigger_blink s)) as Hm.
  rewrite Hc, <- H0 in Hm.
  apply control_eq in Hm. destruct Hm as (I0 & K0 & L0 & B0 & P0 & E0 & T0 & Q0).
  subst r. change (run_ticks fp [t0; t1; t2; t3; t4; t5] s)
    with (run_ticks fp [t1; t2; t3; t4; t5] (animation_timer_cb fp t0 s)).
  destruct (five_blink_ticks fp (animation_timer_cb fp t0 s) t1 t2 t3 t4 t5 I0 B0 P0)
    as (C & _).
  set (r := run_ticks fp [t1; t2; t3; t4; t5] (animation_timer_cb fp t0 s)) in *.
  apply control_eq in C. destruct C as (Ir & Kr & Lr & Br & Pr & Er & Tr & Qr).
  split; [exact Br |]. split; [exact Lr |].
  split; [unfold emotion_view; congruence |].
  assert (Hn : blink_due t r = false).
  { unfold blink_due. rewrite Kr, K0, Lr, Ha. cbn [andb]. apply Z.ltb_ge. exact Ht. }
  pose proof (tick_blink_view fp t r Br Hn) as Hv.
  unfold blink_view in Hv. injection Hv as _ _ -> -> _. split; assumption.
Qed.

Lemma auto_blink_period_witness :
  let s := example_state true in
  let r := run_ticks still_libm [3001; 3031; 3061; 3091; 3121; 3151] s in
  initialized s = true /\ is_blinking s = false /\ auto_blink (config s) = true /\
  blink_interval (config s) < to_uint32 (3001 - last_blink_time s) /\
  to_uint32 (6151 - 3151) <= blink_interval (config s) /\
  last_blink_time r = 3151 /\
  is_blinking (animation_timer_cb still_libm 6151 r) = false.
Proof.
  cbv zeta.
  pose proof (auto_blink_period still_libm (example_state true)
                3001 3031 3061 3091 3121 3151 6151 eq_refl eq_refl eq_refl eq_refl) as H.
  cbv zeta in H.
  assert (Ht : to_uint32 (6151 - 3151) <= blink_interval (config (example_state true)))
    by (vm_compute; discriminate).
  destruct (H Ht) as (_ & Hl & _ & Hn & _).
  split; [reflexivity |]. split; [reflexivity |]. split; [reflexivity |].
  split; [reflexivity |]. split; [exact Ht |].
  split; [exact Hl | exact Hn].
Defined.

(** X12: a blink postpones a transition by its own length.  A blink
    triggered while a transition is in flight runs for five ticks during
    which the progress does not move and the mouth curve, the brow angles
    and the brow height keep their blended values; the transition resumes
    with the tick after the blink, from the progress it had reached: below
    90 that tick advances the progress by 10 and leaves the six channels
    at the blend for the new progress; from 90 on it completes the
    transition, the scheduler resolving the channels to the profile of the
    target, which the idle motion of the target may move in the same
    tick. *)
Theorem blink_postpones_transition (fp : float_site -> Z -> Z) (s : face_state_t)
  (t1 t2 t3 t4 t5 t6 : Z) :
  initialized s = true -> is_blinking s = false ->
  emotion_eqb (current_emotion s) (target_emotion s) = false ->
  0 <= transition_progress s < 100 ->
  to_uint32 (t6 - t5) <= blink_interval (config s) ->
  let e := run_ticks fp [t1; t2; t3; t4; t5] (face_trigger_blink s) in
  let r := animation_timer_cb fp t6 e in
  emotion_view e = emotion_view s /\
  below_eyes e = below_eyes s /\
  (transition_progress s + 10 < 100 ->
   emotion_view r = (current_emotion s, target_emotion s, transition_progress s + 10) /\
   channels r
     = blend_params (profileOf (current_emotion s)) (profileOf (target_emotion s))
         (transition_progress s + 10)) /\
  (90 <= transition_progress s ->
   emotion_view r = (target_emotion s, target_emotion s, 100) /\
   channels (scheduler_step t6 e) = profileOf (target_emotion s) /\
   (no_channel_idle (target_emotion s) = true ->
    channels r = profileOf (target_emotion s))).
Proof.
  intros Hi Hb He Hp Ht e r.
  destruct (trigger_blink_starts s Hi Hb) as (Hc & Hch).
  apply control_eq in Hc. destruct Hc as (Ib & Kb & Lb & Bb & Pb & Eb & Tb & Qb).
  destruct (five_blink_ticks fp (face_trigger_blink s) t1 t2 t3 t4 t5 Ib Bb Pb) as (C & V).
  fold e in C, V.
  apply control_eq in C. destruct C as (Ie & Ke & Le & Be & Pe & Ee & Te & Qe).
  split; [unfold emotion_view; congruence |].
  split.
  { rewrite V; [apply channels_below_eyes; exact Hch |].
    rewrite Qb. apply Z.eqb_neq. lia. }
  assert (Hn : blink_due t6 e = false).
  { unfold blink_due. rewrite Ke, Kb, Le. apply andb_false_intro2. apply Z.ltb_ge. exact Ht. }
  assert (Hee : emotion_eqb (current_emotion e) (target_emotion e) = false) by congruence.
  split.
  - intros Hlt.
    destruct (tick_transition_advance fp t6 e Ie Be Hn Hee) as (C6 & Ch6); [lia | lia |].
    fold r in C6, Ch6.
    apply control_eq in C6. destruct C6 as (_ & _ & _ & _ & _ & E6 & T6 & Q6).
    split; [unfold emotion_view; congruence |].
    rewrite Ch6. congruence.
  - intros Hge.
    destruct (tick_transition_finish fp t6 e Ie Be Hn Hee) as (C6 & Cs6 & Ch6); [lia |].
    fold r in C6, Ch6.
    apply control_eq in C6. destruct C6 as (_ & _ & _ & _ & _ & E6 & T6 & Q6).
    split; [unfold emotion_view; congruence |].
    split; [rewrite Cs6; congruence |].
    intros Hq. rewrite Ch6; congruence.
Qed.

Lemma blink_postpones_transition_witness :
  let s := run_ticks still_libm [30; 60; 90]
             (face_set_emotion FACE_SAD true (example_state false)) in
  let e := run_ticks still_libm [120; 150; 180; 210; 240] (face_trigger_blink s) in
  initialized s = true /\ is_blinking s = false /\
  emotion_eqb (current_emotion s) (target_emotion s) = false /\
  transition_progress s = 30 /\
  transition_progress e = 30 /\
  transition_progress (animation_timer_cb still_libm 270 e) = 40.
Proof.
  cbv zeta.
  pose proof (blink_postpones_transition still_libm
                (run_ticks still_libm [30; 60; 90]
                   (face_set_emotion FACE_SAD true (example_state false)))
                120 150 180 210 240 270 eq_refl eq_refl eq_refl) as H.
  cbv zeta in H.
  destruct H as (Hv & _ & Hq & _); [vm_compute; split; [discriminate | reflexivity]
                                   | vm_compute; discriminate |].
  destruct Hq as (Hq & _); [vm_compute; reflexivity |].
  split; [reflexivity |]. split; [reflexivity |]. split; [reflexivity |].
  split; [reflexivity |].
  split; [exact (f_equal snd Hv) | exact (f_equal snd Hq)].
Defined.

(** ** The counters at every observation point *)

Lemma sched_inv_control (a b : face_state_t) :
  control a = control b -> sched_inv b -> sched_inv a.
Proof.
  intros H. apply control_fields in H.
  destruct H as (_ & _ & _ & Hb & Hp & _ & _ & Hq).
  unfold sched_inv. rewrite Hb, Hp, Hq. auto.
Qed.

Lemma sched_inv_tuple (a : face_state_t) (i : bool) (c : face_config_t) (l : Z) (b : bool)
  (p : Z) (e t : face_emotion_t) (q : Z) :
  control a = (i, c, l, b, p, e, t, q) ->
  (0 <= q <= 100 /\ q mod 10 = 0) /\ (0 <= p <= 80 /\ p mod 20 = 0) /\ (b = false -> p = 0) ->
  sched_inv a.
Proof.
  intros H. apply control_eq in H.
  destruct H as (_ & _ & _ & Hb & Hp & _ & _ & Hq).
  unfold sched_inv. rewrite Hb, Hp, Hq. auto.
Qed.

Lemma step_mod (x k : Z) : 0 < k -> x mod k = 0 -> (x + k) mod k = 0.
Proof.
  intros Hk H. rewrite <- (Z.mul_1_l k) at 1.
  rewrite Z.mod_add by lia. exact H.
Qed.

Lemma blink_step_sched (now : Z) (s : face_state_t) :
  is_blinking s = true -> sched_inv s -> sched_inv (blink_step now s).
Proof.
  intros Hb (Hq & (Hp & Hm) & _).
  assert (Hd : blink_phase s = 20 * (blink_phase s / 20))
    by (apply Z.div_exact; [lia | exact Hm]).
  destruct (Z_lt_le_dec (blink_phase s + 20) 100) as [Hlt | Hge].
  - destruct (blink_step_advance now s) as (Hc & _); [lia | lia |].
    apply (sched_inv_tuple _ _ _ _ _ _ _ _ _ Hc).
    split; [exact Hq |]. split.
    + split; [lia | apply step_mod; [lia | exact Hm]].
    + rewrite Hb. discriminate.
  - destruct (blink_step_finish now s) as (Hc & _); [lia |].
    apply (sched_inv_tuple _ _ _ _ _ _ _ _ _ Hc).
    split; [exact Hq |]. split; [split; [lia | reflexivity] | reflexivity].
Qed.

Lemma transition_step_sched (s : face_state_t) :
  sched_inv s -> sched_inv (transition_step s).
Proof.
  intros ((Hq & Hm) & Hp & Hb).
  assert (Hd : transition_progress s = 10 * (transition_progress s / 10))
    by (apply Z.div_exact; [lia | exact Hm]).
  destruct (Z_lt_le_dec (transition_progress s + 10) 100) as [Hlt | Hge].
  - destruct (transition_step_advance s) as (Hc & _); [lia | lia |].
    apply (sched_inv_tuple _ _ _ _ _ _ _ _ _ Hc).
    split; [| split; [exact Hp | exact Hb]].
    split; [lia | apply step_mod; [lia | exact Hm]].
  - destruct (transition_step_finish s) as (Hc & _); [lia |].
    apply (sched_inv_tuple _ _ _ _ _ _ _ _ _ Hc).
    split; [| split; [exact Hp | exact Hb]].
    split; [lia | reflexivity].
Qed.

Lemma scheduler_step_sched (now : Z) (s : face_state_t) :
  initialized s = true -> sched_inv s -> sched_inv (scheduler_step now s).
Proof.
  intros Hi H. unfold scheduler_step.
  destruct (is_blinking s) eqn:Hb; [apply blink_step_sched; assumption |].
  destruct (blink_due now s).
  { destruct (trigger_blink_starts s Hi Hb) as (Hc & _).
    apply (sched_inv_tuple _ _ _ _ _ _ _ _ _ Hc).
    destruct H as (Hq & _).
    split; [exact Hq |]. split; [split; [lia | reflexivity] | reflexivity]. }
  destruct (transition_pending s); [apply transition_step_sched |]; exact H.
Qed.

Lemma timer_sched (fp : float_site -> Z -> Z) (now : Z) (s : face_state_t) :
  sched_inv s -> sched_inv (animation_timer_cb fp now s).
Proof.
  intros H. unfold animation_timer_cb.
  destruct (initialized s) eqn:Hi; cbn [negb]; [| exact H].
  apply (sched_inv_control _ _ (motion_step_control fp (scheduler_step now s))).
  apply scheduler_step_sched; assumption.
Qed.

Lemma set_emotion_sched (e : face_emotion_t) (smooth : bool) (s : face_state_t) :
  sched_inv s -> sched_inv (face_set_emotion e smooth s).
Proof.
  intros H. pose proof H as (Hq & Hp & Hb). unfold face_set_emotion.
  destruct (negb (initialized s) || (emotion_code FACE_EMOTION_COUNT <=? emotion_code e));
    [exact H |].
  destruct smooth; cbn [negb].
  - unfold sched_inv. norm_state.
    split; [split; [lia | reflexivity] | split; assumption].
  - cbv zeta.
    set (s1 := set_transition_progress 100 (set_current_emotion e (set_target_emotion e s))).
    destruct (update_emotion_parameters e s1) as [p s2] eqn:Eu.
    assert (C2 : control s2 = control s1).
    { rewrite <- (update_emotion_parameters_control e s1), Eu. reflexivity. }
    destruct (store_channels_frame p s2) as (_ & Cs).
    apply (sched_inv_control _ _ Cs). apply (sched_inv_control _ _ C2).
    subst s1. unfold sched_inv. norm_state.
    split; [split; [lia | reflexivity] | split; assumption].
Qed.

Lemma init_sched (fp : float_site -> Z -> Z) (cfg : option face_config_t) (env : init_env)
  (s : face_state_t) :
  sched_inv s -> sched_inv (snd (face_animation_init fp cfg env s)).
Proof.
  intros H. pose proof H as (Hq & Hp & Hb). unfold face_animation_init.
  destruct (initialized s); [exact H |]. cbv zeta.
  match goal with |- context [if ?c then _ else _] => destruct c end; cbn [snd].
  - exact H.
  - unfold sched_inv. norm_state.
    split; [split; [lia | reflexivity] | split; assumption].
Qed.

Lemma deinit_sched (s : face_state_t) :
  sched_inv s -> sched_inv (face_animation_deinit s).
Proof.
  intros H. unfold face_animation_deinit.
  destruct (initialized s); cbn [negb]; [| exact H].
  unfold sched_inv. norm_state. cbn.
  split; [split; [lia | reflexivity] |]. split; [split; [lia | reflexivity] | reflexivity].
Qed.

Lemma apply_operation_sched (fp : float_site -> Z -> Z) (op : operation) (s : face_state_t) :
  sched_inv s -> sched_inv (apply_operation fp op s).
Proof.
  intros H. destruct op; cbn [apply_operation].
  - apply init_sched; exact H.
  - apply deinit_sched; exact H.
  - apply set_emotion_sched; exact H.
  - unfold face_set_eye_openness. cbv zeta. destruct (negb (initialized s)); exact H.
  - unfold face_set_mouth_shape. cbv zeta. destruct (negb (initialized s)); exact H.
  - exact H.
  - unfold face_trigger_blink.
    destruct (initialized s) eqn:Hi; cbn [negb orb]; [| exact H].
    destruct (is_blinking s) eqn:Hb; [exact H |].
    destruct H as (Hq & _). unfold sched_inv. norm_state.
    split; [exact Hq |]. split; [split; [lia | reflexivity] | reflexivity].
  - unfold face_set_position.
    destruct (negb (initialized s)); [exact H |].
    destruct (face_container s); exact H.
  - apply timer_sched; exact H.
  - unfold face_animation_update. destruct (anim_timer s); [apply timer_sched |]; exact H.
Qed.

Lemma overlay_params (e : face_emotion_t) (s : face_state_t) :
  overlay (snd (update_emotion_parameters e s)) = overlay s.
Proof. destruct e; reflexivity. Qed.

Lemma overlay_store (p : emotion_params) (s : face_state_t) :
  overlay (store_channels p s) = overlay s.
Proof. destruct p; reflexivity. Qed.

Lemma transition_step_overlay (s : face_state_t) :
  overlay (transition_step s) = overlay s.
Proof.
  unfold transition_step. cbv zeta.
  rewrite overlay_store, !overlay_params. peel.
Qed.

Lemma scheduler_step_overlay (now : Z) (s : face_state_t) :
  overlay (scheduler_step now s) = overlay s.
Proof.
  unfold scheduler_step.
  destruct (is_blinking s); [unfold blink_step; peel |].
  destruct (blink_due now s); [unfold face_trigger_blink; peel |].
  destruct (transition_pending s); [apply transition_step_overlay | reflexivity].
Qed.

Lemma quiet_blocks_overlay (fp : float_site -> Z -> Z) (s : face_state_t) :
  overlay (count_step s) = overlay s /\
  overlay (pupil_motion fp s) = overlay s /\
  overlay (idle_motion fp s) = overlay s /\
  overlay (sparkle_decay s) = overlay s.
Proof. frame. Qed.

Lemma tear_step_overlay (s : face_state_t) :
  overlay_ok (overlay s) -> overlay_ok (overlay (tear_step s)).
Proof.
  unfold overlay, overlay_ok, tear_step. intros ((Ht & Hm) & Hrest).
  destruct (current_emotion s); cbv zeta; norm_state;
    try (split; [split; [lia | reflexivity] | exact Hrest]).
  all: rewrite (to_uint8_small (tear_fall_offset s + 2)) by lia.
  all: destruct (80 <? tear_fall_offset s + 2) eqn:E;
    [apply Z.ltb_lt in E | apply Z.ltb_ge in E]; norm_state.
  all: split; [| exact Hrest].
  all: split; [lia | first [reflexivity | apply step_mod; [lia | exact Hm]]].
Qed.

Lemma sweat_step_overlay (s : face_state_t) :
  overlay_ok (overlay s) -> overlay_ok (overlay (sweat_step s)).
Proof.
  unfold overlay, overlay_ok, sweat_step. intros (Ht & Hs & Hrest).
  destruct (current_emotion s); cbv zeta; norm_state;
    try (split; [exact Ht | split; [lia | exact Hrest]]).
  - rewrite (to_uint8_small (sweat_drop_offset s + 1)) by lia.
    destruct (100 <? sweat_drop_offset s + 1) eqn:E;
      [apply Z.ltb_lt in E | apply Z.ltb_ge in E]; norm_state;
      (split; [exact Ht | split; [lia | exact Hrest]]).
  - rewrite (to_uint8_small (sweat_drop_offset s + 3)) by lia.
    destruct (100 <? sweat_drop_offset s + 3) eqn:E;
      [apply Z.ltb_lt in E | apply Z.ltb_ge in E]; norm_state;
      (split; [exact Ht | split; [lia | exact Hrest]]).
Qed.

Lemma diamond_step_overlay (s : face_state_t) :
  overlay_ok (overlay s) -> overlay_ok (overlay (diamond_step s)).
Proof.
  unfold overlay, overlay_ok, diamond_step. intros (Ht & Hs & Hd & Hdd & Hh).
  destruct (current_emotion s); cbv zeta; norm_state;
    try (split; [exact Ht | split; [exact Hs | split; [left; reflexivity | split; assumption]]]).
  destruct (100 <=? to_uint8 (diamond_mouth_phase s + diamond_direction s * 8)) eqn:E1;
    [| apply Z.leb_gt in E1]; norm_state.
  { split; [exact Ht |]. split; [exact Hs |]. split; [right; lia |].
    split; [right; reflexivity | exact Hh]. }
  destruct (to_uint8 (diamond_mouth_phase s + diamond_direction s * 8) <=? 50) eqn:E2;
    [| apply Z.leb_gt in E2]; norm_state.
  { split; [exact Ht |]. split; [exact Hs |]. split; [right; lia |].
    split; [left; reflexivity | exact Hh]. }
  split; [exact Ht |]. split; [exact Hs |]. split; [right; lia |]. split; assumption.
Qed.

Lemma heart_decay_overlay (s : face_state_t) :
  overlay_ok (overlay s) -> overlay_ok (overlay (heart_decay s)).
Proof.
  unfold overlay, overlay_ok, heart_decay. intros (Ht & Hs & Hd & Hdd & Hh).
  destruct (emotion_eqb (current_emotion s) FACE_LOVE); [auto |].
  destruct (0 <? heart_beat_phase s); [| auto].
  cbv zeta. norm_state.
  destruct (to_uint8 (heart_beat_phase s + heart_direction s * 5) <=? 0); norm_state;
    [auto 6 |].
  destruct (100 <=? to_uint8 (heart_beat_phase s + heart_direction s * 5)); norm_state;
    auto 6.
Qed.

Lemma timer_overlay (fp : float_site -> Z -> Z) (now : Z) (s : face_state_t) :
  overlay_ok (overlay s) -> overlay_ok (overlay (animation_timer_cb fp now s)).
Proof.
  intros H. unfold animation_timer_cb.
  destruct (initialized s); cbn [negb]; [| exact H].
  unfold motion_step.
  apply heart_decay_overlay.
  destruct (quiet_blocks_overlay fp
              (idle_motion fp (diamond_step (sweat_step (tear_step
                 (pupil_motion fp (count_step (scheduler_step now s))))))))
    as (_ & _ & _ & ->).
  destruct (quiet_blocks_overlay fp
              (diamond_step (sweat_step (tear_step
                 (pupil_motion fp (count_step (scheduler_step now s)))))))
    as (_ & _ & -> & _).
  apply diamond_step_overlay, sweat_step_overlay, tear_step_overlay.
  destruct (quiet_blocks_overlay fp (count_step (scheduler_step now s))) as (_ & -> & _).
  destruct (quiet_blocks_overlay fp (scheduler_step now s)) as (-> & _).
  rewrite scheduler_step_overlay. exact H.
Qed.

Lemma apply_operation_overlay (fp : float_site -> Z -> Z) (op : operation)
  (s : face_state_t) :
  overlay_ok (overlay s) -> overlay_ok (overlay (apply_operation fp op s)).
Proof.
  intros H. destruct op; cbn [apply_operation].
  - replace (overlay (snd (face_animation_init fp cfg env s))) with (overlay s); [exact H |].
    symmetry. unfold face_animation_init.
    destruct (initialized s); [reflexivity |]. cbv zeta.
    match goal with |- context [if ?c then _ else _] => destruct c end; reflexivity.
  - unfold face_animation_deinit.
    destruct (initialized s); cbn [negb]; [| exact H].
    destruct H as (_ & _ & _ & Hdd & Hh). unfold overlay, overlay_ok. norm_state. cbn.
    split; [split; [lia | reflexivity] |]. split; [lia |].
    split; [left; reflexivity | split; assumption].
  - replace (overlay (face_set_emotion emotion smooth s)) with (overlay s); [exact H |].
    symmetry. unfold face_set_emotion.
    destruct (negb (initialized s) || _); [reflexivity |].
    destruct smooth; cbn [negb]; [reflexivity |]. cbv zeta.
    match goal with
    | |- context [update_emotion_parameters ?e ?s1] =>
        pose proof (overlay_params e s1) as Ho;
        destruct (update_emotion_parameters e s1) as [p0 s2]
    end.
    cbn [snd] in Ho. rewrite overlay_store, Ho. reflexivity.
  - unfold face_set_eye_openness. cbv zeta. destruct (negb (initialized s)); exact H.
  - unfold face_set_mouth_shape. cbv zeta. destruct (negb (initialized s)); exact H.
  - exact H.
  - unfold face_trigger_blink. destruct (negb (initialized s) || is_blinking s); exact H.
  - unfold face_set_position.
    destruct (negb (initialized s)); [exact H |].
    destruct (face_container s); exact H.
  - apply timer_overlay; exact H.
  - unfold face_animation_update. destruct (anim_timer s); [apply timer_overlay |]; exact H.
Qed.

(** X13: the counters at every observation point.  In the zero state and
    after any sequence of public operations and timer ticks, with any
    tick times and any floating-point results: the transition progress is
    a multiple of 10 in [[0, 100]]; the blink phase is a multiple of 20
    in [[0, 80]] and is 0 whenever the face is not blinking; the tear
    offset is even and at most 80, the sweat offset at most 100; the
    diamond-mouth phase is 0 or in [[50, 100]]; the two direction statics
    are 1 or -1. *)
Theorem counters_stay_in_range (fp : float_site -> Z -> Z) (ops : list operation) :
  let s := run_operations fp ops face_state_zero in
  (0 <= transition_progress s <= 100 /\ transition_progress s mod 10 = 0) /\
  (0 <= blink_phase s <= 80 /\ blink_phase s mod 20 = 0) /\
  (is_blinking s = false -> blink_phase s = 0) /\
  (0 <= tear_fall_offset s <= 80 /\ tear_fall_offset s mod 2 = 0) /\
  0 <= sweat_drop_offset s <= 100 /\
  (diamond_mouth_phase s = 0 \/ 50 <= diamond_mouth_phase s <= 100) /\
  (diamond_direction s = 1 \/ diamond_direction s = -1) /\
  (heart_direction s = 1 \/ heart_direction s = -1).
Proof.
  cbv zeta.
  assert (H : counters_inv (run_operations fp ops face_state_zero)).
  { assert (H0 : counters_inv face_state_zero).
    { split; [| cbn; intuition lia].
      unfold sched_inv. cbn. intuition lia. }
    revert H0. generalize face_state_zero.
    induction ops as [| op ops IH]; intros st H; cbn [run_operations]; [exact H |].
    apply IH. destruct H as (Hs & Ho).
    split; [apply apply_operation_sched | apply apply_operation_overlay]; assumption. }
  destruct H as ((Hq & Hp & Hb) & Ho). unfold overlay, overlay_ok in Ho.
  destruct Ho as (Ht & Hs & Hd & Hdd & Hh).
  repeat (split; [assumption |]). assumption.
Qed.

(** ** Sparkles and blush of a settled face *)

Lemma blink_view_fields (a b : face_state_t) :
  blink_view a = blink_view b ->
  initialized a = initialized b /\ config a = config b /\
  last_blink_time a = last_blink_time b /\ is_blinking a = is_blinking b /\
  blink_phase a = blink_phase b.
Proof.
  intros H.
  pose proof (f_equal (fun t => fst (fst (fst (fst t)))) H) as H1.
  pose proof (f_equal (fun t => snd (fst (fst (fst t)))) H) as H2.
  pose proof (f_equal (fun t => snd (fst (fst t))) H) as H3.
  pose proof (f_equal (fun t => snd (fst t)) H) as H4.
  pose proof (f_equal snd H) as H5.
  auto.
Qed.

Lemma scheduler_step_initialized (now : Z) (s : face_state_t) :
  initialized (scheduler_step now s) = initialized s.
Proof.
  unfold scheduler_step.
  destruct (is_blinking s); [unfold blink_step; peel |].
  destruct (blink_due now s); [unfold face_trigger_blink; peel |].
  destruct (transition_pending s); [| reflexivity].
  apply blink_view_fields, transition_step_blink_view.
Qed.

Lemma tick_initialized (fp : float_site -> Z -> Z) (now : Z) (s : face_state_t) :
  initialized (animation_timer_cb fp now s) = initialized s.
Proof.
  unfold animation_timer_cb.
  destruct (initialized s) eqn:Hi; cbn [negb]; [| exact Hi].
  destruct (control_views _ _ (motion_step_control fp (scheduler_step now s))) as (_ & Hv).
  apply blink_view_fields in Hv. destruct Hv as (-> & _).
  rewrite scheduler_step_initialized. exact Hi.
Qed.

Lemma get_emotion_inj (a b : face_state_t) :
  face_get_emotion a = face_get_emotion b -> current_emotion a = current_emotion b.
Proof. intros H. exact H. Qed.

Lemma scheduler_step_effects (now : Z) (s : face_state_t) :
  is_blinking s = true \/ blink_due now s = true \/ transition_pending s = false ->
  effects (scheduler_step now s) = effects s /\
  face_get_emotion (scheduler_step now s) = face_get_emotion s.
Proof.
  intros H. unfold scheduler_step.
  destruct (is_blinking s); [unfold blink_step; split; peel |].
  destruct (blink_due now s); [unfold face_trigger_blink; split; peel |].
  destruct H as [H | [H | H]]; try discriminate H.
  rewrite H. split; reflexivity.
Qed.

Lemma pre_blocks_effects (fp : float_site -> Z -> Z) (s : face_state_t) :
  (effects (count_step s) = effects s /\
   face_get_emotion (count_step s) = face_get_emotion s) /\
  (effects (pupil_motion fp s) = effects s /\
   face_get_emotion (pupil_motion fp s) = face_get_emotion s) /\
  (effects (tear_step s) = effects s /\
   face_get_emotion (tear_step s) = face_get_emotion s) /\
  (effects (sweat_step s) = effects s /\
   face_get_emotion (sweat_step s) = face_get_emotion s) /\
  (effects (diamond_step s) = effects s /\
   face_get_emotion (diamond_step s) = face_get_emotion s).
Proof. frame. Qed.

Lemma pre_idle_effects (fp : float_site -> Z -> Z) (s : face_state_t) :
  effects (pre_idle fp s) = effects s /\
  face_get_emotion (pre_idle fp s) = face_get_emotion s.
Proof.
  unfold pre_idle.
  destruct (pre_blocks_effects fp (sweat_step (tear_step (pupil_motion fp (count_step s)))))
    as (_ & _ & _ & _ & -> & ->).
  destruct (pre_blocks_effects fp (tear_step (pupil_motion fp (count_step s))))
    as (_ & _ & _ & (-> & ->) & _).
  destruct (pre_blocks_effects fp (pupil_motion fp (count_step s)))
    as (_ & _ & (-> & ->) & _).
  destruct (pre_blocks_effects fp (count_step s)) as (_ & (-> & ->) & _).
  destruct (pre_blocks_effects fp s) as ((-> & ->) & _).
  split; reflexivity.
Qed.

Lemma idle_motion_sparkle (fp : float_site -> Z -> Z) (s : face_state_t) :
  sparkle_fades (current_emotion s) = true ->
  sparkle_phase (idle_motion fp s) = sparkle_phase s.
Proof.
  intros H. autounfold with blocks.
  destruct (current_emotion s); try discriminate H; cbv beta iota; peel.
Qed.

Lemma idle_motion_blush (fp : float_site -> Z -> Z) (s : face_state_t) :
  blush_idle (current_emotion s) = false ->
  blush_intensity (idle_motion fp s) = blush_intensity s.
Proof.
  intros H. autounfold with blocks.
  destruct (current_emotion s); try discriminate H; cbv beta iota; peel.
Qed.

Lemma decay_blocks_emotion (fp : float_site -> Z -> Z) (s : face_state_t) :
  face_get_emotion (idle_motion fp s) = face_get_emotion s /\
  face_get_emotion (sparkle_decay s) = face_get_emotion s /\
  blush_intensity (sparkle_decay s) = blush_intensity s /\
  blush_intensity (heart_decay s) = blush_intensity s /\
  sparkle_phase (heart_decay s) = sparkle_phase s.
Proof. frame. Qed.

Lemma sparkle_decay_value (s : face_state_t) :
  sparkle_fades (current_emotion s) = true ->
  0 <= sparkle_phase s <= 255 ->
  sparkle_phase (sparkle_decay s) = Z.max 0 (sparkle_phase s - 2).
Proof.
  intros H Hr. unfold sparkle_decay.
  destruct (current_emotion s); try discriminate H.
  all: destruct (0 <? sparkle_phase s) eqn:E0;
    [apply Z.ltb_lt in E0 | apply Z.ltb_ge in E0; lia].
  all: norm_state.
  all: destruct (2 <=? sparkle_phase s) eqn:E2;
    [apply Z.leb_le in E2; rewrite to_uint8_small by lia | apply Z.leb_gt in E2]; lia.
Qed.

Lemma motion_step_effects (fp : float_site -> Z -> Z) (x : face_state_t) :
  (sparkle_fades (current_emotion x) = true -> 0 <= sparkle_phase x <= 255 ->
   sparkle_phase (motion_step fp x) = Z.max 0 (sparkle_phase x - 2)) /\
  (blush_idle (current_emotion x) = false ->
   blush_intensity (motion_step fp x) = blush_intensity x).
Proof.
  rewrite motion_step_split.
  destruct (pre_idle_effects fp x) as (Hpe & Hpc). apply get_emotion_inj in Hpc.
  revert Hpe Hpc. generalize (pre_idle fp x). intros p Hpe Hpc.
  destruct (decay_blocks_emotion fp p) as (Ci & _). apply get_emotion_inj in Ci.
  destruct (decay_blocks_emotion fp (idle_motion fp p)) as (_ & _ & Bs & _).
  destruct (decay_blocks_emotion fp (sparkle_decay (idle_motion fp p)))
    as (_ & _ & _ & Bh & Sh).
  pose proof (f_equal (fun t => fst (fst t)) Hpe) as Eb.
  pose proof (f_equal (fun t => snd (fst t)) Hpe) as Es.
  cbn beta iota delta [effects fst snd] in Eb, Es.
  split.
  - intros Hf Hr. rewrite Sh, sparkle_decay_value.
    + rewrite idle_motion_sparkle; [congruence | rewrite Hpc; exact Hf].
    + rewrite Ci, Hpc. exact Hf.
    + rewrite idle_motion_sparkle; [congruence | rewrite Hpc; exact Hf].
  - intros Hf. rewrite Bh, Bs, idle_motion_blush; [congruence | rewrite Hpc; exact Hf].
Qed.

Lemma tick_effects_settled (fp : float_site -> Z -> Z) (now : Z) (s : face_state_t) :
  initialized s = true ->
  is_blinking s = true \/ blink_due now s = true \/ transition_pending s = false ->
  (sparkle_fades (current_emotion s) = true -> 0 <= sparkle_phase s <= 255 ->
   sparkle_phase (animation_timer_cb fp now s) = Z.max 0 (sparkle_phase s - 2)) /\
  (blush_idle (current_emotion s) = false ->
   blush_intensity (animation_timer_cb fp now s) = blush_intensity s).
Proof.
  intros Hi H. unfold animation_timer_cb. rewrite Hi. cbn [negb].
  destruct (scheduler_step_effects now s H) as (He & Hc). apply get_emotion_inj in Hc.
  pose proof (f_equal (fun t => fst (fst t)) He) as Eb.
  pose proof (f_equal (fun t => snd (fst t)) He) as Es.
  cbn beta iota delta [effects fst snd] in Eb, Es.
  destruct (motion_step_effects fp (scheduler_step now s)) as (Ms & Mb).
  rewrite Hc, Es in Ms. rewrite Hc, Eb in Mb.
  split; assumption.
Qed.

Lemma emotion_view_fields (a b : face_state_t) :
  emotion_view a = emotion_view b ->
  current_emotion a = current_emotion b /\ target_emotion a = target_emotion b /\
  transition_progress a = transition_progress b.
Proof.
  intros H.
  pose proof (f_equal (fun t => fst (fst t)) H) as H1.
  pose proof (f_equal (fun t => snd (fst t)) H) as H2.
  pose proof (f_equal snd H) as H3.
  auto.
Qed.

(** X14: sparkles fade by 2 per tick.  On an initialised face settled in
    one of the nine emotions of the decay test (Neutral, Angry, Sad, Cry,
    Sleepy, Surprised, Working-Hard, Confused, Worried), every tick,
    blinking or not, lowers [sparkle_phase] by 2 and stops at 0: after [n]
    ticks it is [max 0 (sparkle_phase - 2 n)].  The 60 a Surprised face
    starts with is gone after 30 ticks, and so is what an earlier emotion
    left behind on a Neutral face, whose profile does not reset it. *)
Theorem sparkles_fade_out (fp : float_site -> Z -> Z) (times : list Z) (s : face_state_t) :
  initialized s = true ->
  emotion_eqb (current_emotion s) (target_emotion s) = true ->
  sparkle_fades (current_emotion s) = true ->
  0 <= sparkle_phase s <= 255 ->
  sparkle_phase (run_ticks fp times s)
    = Z.max 0 (sparkle_phase s - 2 * Z.of_nat (length times)).
Proof.
  revert s. induction times as [| t times IH]; intros s Hi He Hf Hr.
  - cbn [run_ticks length Z.of_nat]. lia.
  - cbn [run_ticks length]. rewrite Nat2Z.inj_succ.
    assert (Hq : is_blinking s = true \/ blink_due t s = true \/ transition_pending s = false)
      by (right; right; apply settled_not_pending; exact He).
    destruct (tick_effects_settled fp t s Hi Hq) as (Hs & _).
    specialize (Hs Hf Hr).
    destruct (tick_without_transition fp t s Hq) as (Hv & _).
    apply emotion_view_fields in Hv. destruct Hv as (Ec & Et & _).
    rewrite IH.
    + rewrite Hs. lia.
    + rewrite tick_initialized. exact Hi.
    + rewrite Ec, Et. exact He.
    + rewrite Ec. exact Hf.
    + rewrite Hs. lia.
Qed.

Lemma sparkles_fade_out_witness :
  let s := face_set_emotion FACE_SURPRISED false (example_state true) in
  initialized s = true /\
  emotion_eqb (current_emotion s) (target_emotion s) = true /\
  sparkle_fades (current_emotion s) = true /\
  sparkle_phase s = 60 /\
  sparkle_phase (run_ticks still_libm [30; 60; 90] s) = 54.
Proof.
  cbv zeta.
  pose proof (sparkles_fade_out still_libm [30; 60; 90]
                (face_set_emotion FACE_SURPRISED false (example_state true))
                eq_refl eq_refl eq_refl) as H.
  split; [reflexivity |]. split; [reflexivity |]. split; [reflexivity |].
  split; [reflexivity |].
  rewrite H; [reflexivity | vm_compute; split; discriminate].
Defined.

(** X15: the timer never fades the blush.  On a face settled in an
    emotion whose idle motion does not animate the blush (every emotion
    but Happy, Love, Angry, Cry and Excited), [blush_intensity] is the same
    after any run of ticks: unlike the sparkles and the heartbeat it has no
    decay, and only [face_set_emotion] or a transition step rewrites it. *)
Theorem blush_never_fades (fp : float_site -> Z -> Z) (times : list Z) (s : face_state_t) :
  emotion_eqb (current_emotion s) (target_emotion s) = true ->
  blush_idle (current_emotion s) = false ->
  blush_intensity (run_ticks fp times s) = blush_intensity s.
Proof.
  revert s. induction times as [| t times IH]; intros s He Hf; cbn [run_ticks];
    [reflexivity |].
  assert (Hq : is_blinking s = true \/ blink_due t s = true \/ transition_pending s = false)
    by (right; right; apply settled_not_pending; exact He).
  destruct (tick_without_transition fp t s Hq) as (Hv & _).
  apply emotion_view_fields in Hv. destruct Hv as (Ec & Et & _).
  rewrite IH; [| rewrite Ec, Et; exact He | rewrite Ec; exact Hf].
  destruct (initialized s) eqn:Hi.
  - destruct (tick_effects_settled fp t s Hi Hq) as (_ & Hb). exact (Hb Hf).
  - unfold animation_timer_cb. rewrite Hi. reflexivity.
Qed.

Lemma blush_never_fades_witness :
  let s := face_set_emotion FACE_WINK false (example_state true) in
  emotion_eqb (current_emotion s) (target_emotion s) = true /\
  blush_idle (current_emotion s) = false /\
  blush_intensity (run_ticks still_libm [30; 60; 3100; 3130; 3160] s) = 60.
Proof.
  cbv zeta. split; [reflexivity |]. split; [reflexivity |].
  rewrite (blush_never_fades still_libm [30; 60; 3100; 3130; 3160]
             (face_set_emotion FACE_WINK false (example_state true)) eq_refl eq_refl).
  reflexivity.
Defined.

(** ** Custom eye openness and mouth shape under the timer *)

Lemma idle_motion_overrides (fp : float_site -> Z -> Z) (y y' : face_state_t) :
  current_emotion y' = current_emotion y ->
  bounce_counter y' = bounce_counter y -> idle y' = idle y ->
  is_blinking y = false -> is_blinking y' = false ->
  transition_progress y = 100 -> transition_progress y' = 100 ->
  (no_eye_idle (current_emotion y) = false ->
   left_eye_openness (idle_motion fp y') = left_eye_openness (idle_motion fp y) /\
   right_eye_openness (idle_motion fp y') = right_eye_openness (idle_motion fp y)) /\
  (mouth_idle (current_emotion y) = true ->
   mouth_curve (idle_motion fp y') = mouth_curve (idle_motion fp y)).
Proof.
  intros Ec Eb Ei Hb Hb' Hp Hp'.
  autounfold with blocks. rewrite Ec.
  destruct (current_emotion y); cbv beta iota zeta.
  all: split; [intros H; try discriminate H; split | intros H; try discriminate H].
  all: repeat progress
         (norm_state; rewrite ?Hp, ?Hp', ?Hb, ?Hb', ?Eb, ?Ei; cbn [Z.eqb Pos.eqb]).
  all: try reflexivity.
  all: repeat (match goal with
               | |- context [if ?c then _ else _] =>
                   lazymatch c with
                   | context [if _ then _ else _] => fail
                   | _ => destruct c
                   end
               end;
               repeat progress
                 (norm_state; rewrite ?Hp, ?Hp', ?Hb, ?Hb', ?Eb, ?Ei; cbn [Z.eqb Pos.eqb]));
    reflexivity.
Qed.

Lemma pre_blocks_counters (fp : float_site -> Z -> Z) (s : face_state_t) :
  (bounce_counter (count_step s) = to_uint32 (bounce_counter s + 1) /\
   idle (count_step s) = idle s) /\
  (bounce_counter (pupil_motion fp s) = bounce_counter s /\
   idle (pupil_motion fp s) = idle s) /\
  (bounce_counter (tear_step s) = bounce_counter s /\ idle (tear_step s) = idle s) /\
  (bounce_counter (sweat_step s) = bounce_counter s /\ idle (sweat_step s) = idle s) /\
  (bounce_counter (diamond_step s) = bounce_counter s /\ idle (diamond_step s) = idle s).
Proof.
  split; [split; [reflexivity | frame] |]. frame.
Qed.

Lemma pre_idle_counters (fp : float_site -> Z -> Z) (s : face_state_t) :
  bounce_counter (pre_idle fp s) = to_uint32 (bounce_counter s + 1) /\
  idle (pre_idle fp s) = idle s.
Proof.
  unfold pre_idle.
  destruct (pre_blocks_counters fp (sweat_step (tear_step (pupil_motion fp (count_step s)))))
    as (_ & _ & _ & _ & -> & ->).
  destruct (pre_blocks_counters fp (tear_step (pupil_motion fp (count_step s))))
    as (_ & _ & _ & (-> & ->) & _).
  destruct (pre_blocks_counters fp (pupil_motion fp (count_step s)))
    as (_ & _ & (-> & ->) & _).
  destruct (pre_blocks_counters fp (count_step s)) as (_ & (-> & ->) & _).
  destruct (pre_blocks_counters fp s) as ((-> & ->) & _).
  split; reflexivity.
Qed.

Lemma motion_step_overrides (fp : float_site -> Z -> Z) (x x' : face_state_t) :
  control x' = control x ->
  bounce_counter x' = bounce_counter x -> idle x' = idle x ->
  is_blinking x = false -> transition_progress x = 100 ->
  (no_eye_idle (current_emotion x) = false ->
   left_eye_openness (motion_step fp x') = left_eye_openness (motion_step fp x) /\
   right_eye_openness (motion_step fp x') = right_eye_openness (motion_step fp x)) /\
  (mouth_idle (current_emotion x) = true ->
   mouth_curve (motion_step fp x') = mouth_curve (motion_step fp x)).
Proof.
  intros Hc Eb Ei Hb Hp.
  destruct (channels_fields _ _ (motion_step_channels_idle fp x)) as (-> & -> & ->).
  destruct (channels_fields _ _ (motion_step_channels_idle fp x')) as (-> & -> & ->).
  destruct (pre_idle_frame fp x) as (Cx & _).
  destruct (pre_idle_frame fp x') as (Cx' & _).
  destruct (pre_idle_counters fp x) as (Bx & Ix).
  destruct (pre_idle_counters fp x') as (Bx' & Ix').
  assert (Cxx : control (pre_idle fp x') = control (pre_idle fp x)) by congruence.
  apply control_fields in Cxx.
  destruct Cxx as (_ & _ & _ & Hk & _ & He & _ & Hq).
  apply control_fields in Cx.
  destruct Cx as (_ & _ & _ & Hk0 & _ & He0 & _ & Hq0).
  rewrite <- He0.
  apply idle_motion_overrides; congruence.
Qed.

(** X16: custom eye openness and mouth shape last as long as nothing
    rewrites them.  On an initialised face settled in an emotion whose idle
    motion writes none of the channels (Sad, Wink, Silly, Working-Hard, Blink),
    not blinking and with automatic blinking off, the values stored by
    [face_set_eye_openness] and [face_set_mouth_shape] are still there
    after any run of ticks. *)
Theorem custom_shape_persists (fp : float_site -> Z -> Z) (times : list Z)
  (l r v : Z) (s : face_state_t) :
  initialized s = true ->
  emotion_eqb (current_emotion s) (target_emotion s) = true ->
  no_channel_idle (current_emotion s) = true ->
  is_blinking s = false -> auto_blink (config s) = false ->
  0 <= l <= 100 -> 0 <= r <= 100 -> -100 <= v <= 100 ->
  let e := run_ticks fp times (face_set_mouth_shape v (face_set_eye_openness l r s)) in
  left_eye_openness e = l /\ right_eye_openness e = r /\ mouth_curve e = v.
Proof.
  intros Hi He Hq Hb Ha Hl Hr Hv e.
  set (c := face_set_mouth_shape v (face_set_eye_openness l r s)) in *.
  assert (Hc : control c = control s /\
               (left_eye_openness c = l /\ right_eye_openness c = r /\ mouth_curve c = v)).
  { subst c. unfold face_set_mouth_shape, face_set_eye_openness. cbv zeta.
    rewrite Hi. cbn [negb]. norm_state. rewrite Hi. cbn [negb].
    rewrite (to_uint8_small l), (to_uint8_small r), (to_int8_small v) by lia.
    replace (100 <? l) with false by (symmetry; apply Z.ltb_ge; lia).
    replace (100 <? r) with false by (symmetry; apply Z.ltb_ge; lia).
    replace (100 <? v) with false by (symmetry; apply Z.ltb_ge; lia).
    replace (v <? -100) with false by (symmetry; apply Z.ltb_ge; lia).
    split; [reflexivity |]. split; [reflexivity |]. split; reflexivity. }
  destruct Hc as (Hc & Hcl & Hcr & Hcm).
  assert (H : channels e = channels c).
  { subst e. clear Hcl Hcr Hcm.
    apply control_fields in Hc.
    destruct Hc as (Ii & Ic & _ & Ib & _ & Ie & It & _).
    rewrite <- Ii in Hi. rewrite <- Ic in Ha. rewrite <- Ib in Hb.
    rewrite <- Ie in Hq. rewrite <- Ie, <- It in He.
    clear Ii Ic Ib Ie It. revert Hi He Hq Hb Ha. generalize c. clear.
    induction times as [| t times IH]; intros c Hi He Hq Hb Ha; cbn [run_ticks];
      [reflexivity |].
    assert (Hd : blink_due t c = false) by (unfold blink_due; rewrite Ha; reflexivity).
    assert (Hs : scheduler_step t c = c).
    { unfold scheduler_step. rewrite Hb, Hd, (settled_not_pending c He). reflexivity. }
    assert (Ht : animation_timer_cb fp t c = motion_step fp c).
    { unfold animation_timer_cb. rewrite Hi, Hs. reflexivity. }
    pose proof (motion_step_control fp c) as Cm. rewrite <- Ht in Cm.
    apply control_fields in Cm.
    destruct Cm as (Ii & Ic & _ & Ib & _ & Ie & It & _).
    rewrite IH; [| congruence ..].
    rewrite Ht. apply motion_step_channels_quiet. exact Hq. }
  apply channels_fields in H. destruct H as (H1 & H2 & H3).
  rewrite H1, H2, H3. auto.
Qed.

Lemma custom_shape_persists_witness :
  let s := face_set_emotion FACE_SILLY false (example_state false) in
  let e := run_ticks still_libm [30; 60; 90; 4000; 8000]
             (face_set_mouth_shape (-20) (face_set_eye_openness 40 70 s)) in
  initialized s = true /\
  emotion_eqb (current_emotion s) (target_emotion s) = true /\
  no_channel_idle (current_emotion s) = true /\
  is_blinking s = false /\ auto_blink (config s) = false /\
  left_eye_openness e = 40 /\ right_eye_openness e = 70 /\ mouth_curve e = -20.
Proof.
  cbv zeta.
  split; [reflexivity |]. split; [reflexivity |]. split; [reflexivity |].
  split; [reflexivity |]. split; [reflexivity |].
  apply (custom_shape_persists still_libm [30; 60; 90; 4000; 8000] 40 70 (-20)
           (face_set_emotion FACE_SILLY false (example_state false)));
    first [reflexivity | lia].
Defined.

(** X17: where the idle motion animates a channel, a custom value does not
    survive one tick.  On an initialised, settled face that is not blinking
    and has no blink due, the tick after [face_set_eye_openness] and
    [face_set_mouth_shape] leaves both eyes exactly where the tick would
    have put them without the two calls when the emotion animates the eyes
    (Happy, Love, Sleepy, Surprised, Cry, Excited, Cool), and likewise the
    mouth when the emotion animates the mouth (Neutral, Happy, Worried,
    Angry, Playful): the arguments of the setters have no effect. *)
Theorem custom_shape_is_overridden (fp : float_site -> Z -> Z) (now l r v : Z)
  (s : face_state_t) :
  initialized s = true -> is_blinking s = false -> blink_due now s = false ->
  transition_progress s = 100 ->
  let c := face_set_mouth_shape v (face_set_eye_openness l r s) in
  (no_eye_idle (current_emotion s) = false ->
   left_eye_openness (animation_timer_cb fp now c)
     = left_eye_openness (animation_timer_cb fp now s) /\
   right_eye_openness (animation_timer_cb fp now c)
     = right_eye_openness (animation_timer_cb fp now s)) /\
  (mouth_idle (current_emotion s) = true ->
   mouth_curve (animation_timer_cb fp now c) = mouth_curve (animation_timer_cb fp now s)).
Proof.
  intros Hi Hb Hd Hp c.
  assert (Hc : control c = control s /\ bounce_counter c = bounce_counter s /\
               idle c = idle s).
  { subst c. unfold face_set_mouth_shape, face_set_eye_openness. cbv zeta.
    rewrite Hi. cbn [negb]. norm_state. rewrite Hi. cbn [negb].
    split; [reflexivity |]. split; reflexivity. }
  destruct Hc as (Hc & Ebc & Eid).
  pose proof (control_fields _ _ Hc) as (Ii & _ & _ & Ib & _ & Ie & It & Iq).
  assert (Hpend : forall x, transition_progress x = 100 -> transition_pending x = false).
  { intros x Hx. unfold transition_pending. rewrite Hx. apply andb_false_r. }
  assert (Ts : animation_timer_cb fp now s = motion_step fp s).
  { unfold animation_timer_cb, scheduler_step. rewrite Hi, Hb, Hd, (Hpend s Hp). reflexivity. }
  assert (Tc : animation_timer_cb fp now c = motion_step fp c).
  { unfold animation_timer_cb, scheduler_step.
    rewrite (blink_due_control now c s Hc), Ii, Hi, Ib, Hb, Hd, (Hpend c); [reflexivity |].
    congruence. }
  rewrite Ts, Tc.
  apply motion_step_overrides; assumption.
Qed.

Lemma custom_shape_is_overridden_witness :
  let s := face_set_emotion FACE_HAPPY false (example_state false) in
  let c := face_set_mouth_shape (-100) (face_set_eye_openness 0 0 s) in
  initialized s = true /\ is_blinking s = false /\ blink_due 30 s = false /\
  transition_progress s = 100 /\
  left_eye_openness c = 0 /\ mouth_curve c = -100 /\
  left_eye_openness (animation_timer_cb still_libm 30 c)
    = left_eye_openness (animation_timer_cb still_libm 30 s) /\
  mouth_curve (animation_timer_cb still_libm 30 c)
    = mouth_curve (animation_timer_cb still_libm 30 s).
Proof.
  cbv zeta.
  pose proof (custom_shape_is_overridden still_libm 30 0 0 (-100)
                (face_set_emotion FACE_HAPPY false (example_state false))
                eq_refl eq_refl eq_refl eq_refl) as H.
  cbv zeta in H. destruct H as (He & Hm).
  split; [reflexivity |]. split; [reflexivity |]. split; [reflexivity |].
  split; [reflexivity |]. split; [reflexivity |]. split; [reflexivity |].
  split; [exact (proj1 (He eq_refl)) | exact (Hm eq_refl)].
Defined.

(** ** Resources of an initialised face *)

Lemma resources_params (e : face_emotion_t) (s : face_state_t) :
  resources (snd (update_emotion_parameters e s)) = resources s.
Proof. destruct e; reflexivity. Qed.

Lemma resources_store (p : emotion_params) (s : face_state_t) :
  resources (store_channels p s) = resources s.
Proof. destruct p; reflexivity. Qed.

Lemma scheduler_step_resources (now : Z) (s : face_state_t) :
  resources (scheduler_step now s) = resources s.
Proof.
  unfold scheduler_step.
  destruct (is_blinking s); [unfold blink_step; peel |].
  destruct (blink_due now s); [unfold face_trigger_blink; peel |].
  destruct (transition_pending s); [| reflexivity].
  unfold transition_step. cbv zeta.
  rewrite resources_store, !resources_params. peel.
Qed.

Lemma blocks_resources (fp : float_site -> Z -> Z) (s : face_state_t) :
  resources (count_step s) = resources s /\
  resources (pupil_motion fp s) = resources s /\
  resources (tear_step s) = resources s /\
  resources (sweat_step s) = resources s /\
  resources (diamond_step s) = resources s /\
  resources (idle_motion fp s) = resources s /\
  resources (sparkle_decay s) = resources s /\
  resources (heart_decay s) = resources s.
Proof. frame. Qed.

Lemma timer_resources (fp : float_site -> Z -> Z) (now : Z) (s : face_state_t) :
  resources (animation_timer_cb fp now s) = resources s.
Proof.
  unfold animation_timer_cb.
  destruct (initialized s); cbn [negb]; [| reflexivity].
  rewrite <- (scheduler_step_resources now s).
  generalize (scheduler_step now s). intros x. unfold motion_step.
  destruct (blocks_resources fp (sparkle_decay (idle_motion fp (diamond_step (sweat_step
              (tear_step (pupil_motion fp (count_step x)))))))) as (_ & _ & _ & _ & _ & _ & _ & ->).
  destruct (blocks_resources fp (idle_motion fp (diamond_step (sweat_step
              (tear_step (pupil_motion fp (count_step x))))))) as (_ & _ & _ & _ & _ & _ & -> & _).
  destruct (blocks_resources fp (diamond_step (sweat_step
              (tear_step (pupil_motion fp (count_step x)))))) as (_ & _ & _ & _ & _ & -> & _).
  destruct (blocks_resources fp (sweat_step (tear_step (pupil_motion fp (count_step x)))))
    as (_ & _ & _ & _ & -> & _).
  destruct (blocks_resources fp (tear_step (pupil_motion fp (count_step x))))
    as (_ & _ & _ & -> & _).
  destruct (blocks_resources fp (pupil_motion fp (count_step x))) as (_ & _ & -> & _).
  destruct (blocks_resources fp (count_step x)) as (_ & -> & _).
  destruct (blocks_resources fp x) as (-> & _).
  reflexivity.
Qed.

Lemma set_emotion_resources (e : face_emotion_t) (smooth : bool) (s : face_state_t) :
  resources (face_set_emotion e smooth s) = resources s /\
  initialized (face_set_emotion e smooth s) = initialized s.
Proof.
  unfold face_set_emotion.
  destruct (negb (initialized s) || _); [split; reflexivity |].
  destruct smooth; cbn [negb]; [split; reflexivity |]. cbv zeta.
  match goal with
  | |- context [update_emotion_parameters ?e ?s1] =>
      pose proof (resources_params e s1) as Hr;
      pose proof (update_emotion_parameters_control e s1) as Hc;
      destruct (update_emotion_parameters e s1) as [p0 s2]
  end.
  cbn [snd] in Hr, Hc. rewrite resources_store, Hr.
  destruct (store_channels_frame p0 s2) as (_ & Cs).
  rewrite Hc in Cs. apply control_fields in Cs. destruct Cs as (-> & _).
  split; reflexivity.
Qed.

Lemma apply_operation_resources (fp : float_site -> Z -> Z) (op : operation)
  (s : face_state_t) :
  (initialized s = true -> resources s = (true, true, true, true, true, true, true, true)) ->
  initialized (apply_operation fp op s) = true ->
  resources (apply_operation fp op s) = (true, true, true, true, true, true, true, true).
Proof.
  intros H. destruct op; cbn [apply_operation].
  - destruct (initialized s) eqn:Hi.
    + unfold face_animation_init. rewrite Hi. cbn [snd]. intros _. apply H. reflexivity.
    + destruct (all_allocated env) eqn:Ha.
      * intros _. unfold face_animation_init. rewrite Hi. cbv zeta. norm_state.
        unfold all_allocated in Ha.
        destruct (left_eye_alloc env), (right_eye_alloc env), (mouth_alloc env);
          try discriminate Ha.
        cbn [negb orb snd]. reflexivity.
      * intros Hf. exfalso.
        unfold face_animation_init in Hf. rewrite Hi in Hf. cbv zeta in Hf.
        revert Hf. norm_state. unfold all_allocated in Ha.
        destruct (left_eye_alloc env), (right_eye_alloc env), (mouth_alloc env);
          try discriminate Ha; cbn [negb orb snd]; norm_state; rewrite Hi; discriminate.
  - unfold face_animation_deinit.
    destruct (initialized s) eqn:Hi; cbn [negb]; [cbn; discriminate |].
    rewrite Hi. discriminate.
  - destruct (set_emotion_resources emotion smooth s) as (-> & ->). exact H.
  - unfold face_set_eye_openness. cbv zeta. destruct (initialized s) eqn:Hi; cbn [negb];
      [| rewrite Hi; discriminate].
    intros _. apply H. reflexivity.
  - unfold face_set_mouth_shape. cbv zeta. destruct (initialized s) eqn:Hi; cbn [negb];
      [| rewrite Hi; discriminate].
    intros _. apply H. reflexivity.
  - exact H.
  - unfold face_trigger_blink. destruct (initialized s) eqn:Hi; cbn [negb orb];
      [| rewrite Hi; discriminate].
    intros _. destruct (is_blinking s); apply H; reflexivity.
  - unfold face_set_position. destruct (initialized s) eqn:Hi; cbn [negb];
      [| rewrite Hi; discriminate].
    intros _. specialize (H eq_refl). revert H. unfold resources.
    destruct (face_container s) eqn:Ec; norm_state; rewrite ?Ec; intros Hx; exact Hx.
  - rewrite tick_initialized, timer_resources. exact H.
  - unfold face_animation_update.
    destruct (anim_timer s); [rewrite tick_initialized, timer_resources |]; exact H.
Qed.

(** X18: an initialised face has its three canvas buffers.  At every
    observation point (any sequence of public operations and ticks from
    the zero state, whatever the allocator returns at each
    initialisation), [initialized] implies that the left-eye, right-eye
    and mouth buffers are all non-NULL: [face_animation_init] sets the
    flag only behind its test of the three allocations, and nothing but
    [face_animation_deinit], which clears the flag too, resets them. *)
Theorem initialized_face_has_buffers (fp : float_site -> Z -> Z) (ops : list operation) :
  let s := run_operations fp ops face_state_zero in
  initialized s = true ->
  left_eye_buf s = true /\ right_eye_buf s = true /\ mouth_buf s = true.
Proof.
  cbv zeta.
  assert (H : initialized (run_operations fp ops face_state_zero) = true ->
              resources (run_operations fp ops face_state_zero)
                = (true, true, true, true, true, true, true, true)).
  { assert (H0 : initialized face_state_zero = true ->
                 resources face_state_zero = (true, true, true, true, true, true, true, true))
      by (cbn; discriminate).
    revert H0. generalize face_state_zero.
    induction ops as [| op ops IH]; intros st H0; cbn [run_operations]; [exact H0 |].
    apply IH. apply apply_operation_resources. exact H0. }
  revert H. generalize (run_operations fp ops face_state_zero). intros st H Hi.
  specialize (H Hi). unfold resources in H.
  pose proof (f_equal (fun t => snd (fst (fst (fst t)))) H) as H1.
  pose proof (f_equal (fun t => snd (fst (fst t))) H) as H2.
  pose proof (f_equal (fun t => snd (fst t)) H) as H3.
  auto.
Qed.

Lemma initialized_face_has_buffers_witness :
  let ops := [op_init None (mk_init_env 135 135 true false true 0);
              op_set_emotion FACE_HAPPY false;
              op_init None example_env;
              op_timer 30] in
  initialized (run_operations still_libm
                 [op_init None (mk_init_env 135 135 true false true 0)] face_state_zero)
    = false /\
  initialized (run_operations still_libm ops face_state_zero) = true /\
  right_eye_buf (run_operations still_libm ops face_state_zero) = true.
Proof.
  cbv zeta. split; [reflexivity |]. split; [reflexivity |].
  apply (initialized_face_has_buffers still_libm
           [op_init None (mk_init_env 135 135 true false true 0);
            op_set_emotion FACE_HAPPY false;
            op_init None example_env;
            op_timer 30]).
  reflexivity.
Defined.

(** ** The mouth the callback draws *)

Lemma diamond_step_phase (x : face_state_t) :
  if emotion_eqb (current_emotion x) FACE_SURPRISED
  then 50 <= diamond_mouth_phase (diamond_step x) <= 100
  else diamond_mouth_phase (diamond_step x) = 0.
Proof.
  unfold diamond_step.
  destruct (current_emotion x); cbn [emotion_eqb emotion_code Z.eqb Pos.eqb];
    try reflexivity.
  cbv zeta. norm_state.
  destruct (100 <=? to_uint8 (diamond_mouth_phase x + diamond_direction x * 8)) eqn:E1;
    [| apply Z.leb_gt in E1]; norm_state; [lia |].
  destruct (to_uint8 (diamond_mouth_phase x + diamond_direction x * 8) <=? 50) eqn:E2;
    [| apply Z.leb_gt in E2]; norm_state; lia.
Qed.

Lemma late_blocks_diamond (fp : float_site -> Z -> Z) (s : face_state_t) :
  diamond_mouth_phase (idle_motion fp s) = diamond_mouth_phase s /\
  diamond_mouth_phase (sparkle_decay s) = diamond_mouth_phase s /\
  diamond_mouth_phase (heart_decay s) = diamond_mouth_phase s /\
  mouth_canvas (idle_motion fp s) = mouth_canvas s /\
  mouth_canvas (sparkle_decay s) = mouth_canvas s /\
  mouth_canvas (heart_decay s) = mouth_canvas s.
Proof. frame. Qed.

Lemma motion_step_diamond (fp : float_site -> Z -> Z) (x : face_state_t) :
  if emotion_eqb (current_emotion (motion_step fp x)) FACE_SURPRISED
  then 50 <= diamond_mouth_phase (motion_step fp x) <= 100
  else diamond_mouth_phase (motion_step fp x) = 0.
Proof.
  pose proof (control_fields _ _ (motion_step_control fp x))
    as (_ & _ & _ & _ & _ & -> & _).
  unfold motion_step.
  destruct (late_blocks_diamond fp (sparkle_decay (idle_motion fp (diamond_step (sweat_step
              (tear_step (pupil_motion fp (count_step x)))))))) as (_ & _ & -> & _).
  destruct (late_blocks_diamond fp (idle_motion fp (diamond_step (sweat_step
              (tear_step (pupil_motion fp (count_step x))))))) as (_ & -> & _).
  destruct (late_blocks_diamond fp (diamond_step (sweat_step
              (tear_step (pupil_motion fp (count_step x)))))) as (-> & _).
  assert (He : current_emotion (sweat_step (tear_step (pupil_motion fp (count_step x))))
               = current_emotion x).
  { apply get_emotion_inj.
    destruct (pre_blocks_effects fp (tear_step (pupil_motion fp (count_step x))))
      as (_ & _ & _ & (_ & ->) & _).
    destruct (pre_blocks_effects fp (pupil_motion fp (count_step x)))
      as (_ & _ & (_ & ->) & _).
    destruct (pre_blocks_effects fp (count_step x)) as (_ & (_ & ->) & _).
    destruct (pre_blocks_effects fp x) as ((_ & ->) & _).
    reflexivity. }
  rewrite <- He. apply diamond_step_phase.
Qed.

(** X19: after a tick, the round mouth is the diamond exactly in
    Surprised.  The callback redraws with the state it has just computed;
    whenever that redraw takes the round branch of [draw_mouth], it draws
    the pulsating diamond if the current emotion is Surprised (the phase is
    then within [[50, 100]]) and the plain oval otherwise (the phase has
    been reset to 0), whatever the phase was before the tick. *)
Theorem round_mouth_after_a_tick (fp : float_site -> Z -> Z) (now : Z) (s : face_state_t)
  (d : bool) :
  initialized s = true ->
  let r := animation_timer_cb fp now s in
  draw_mouth (mouth_curve r) r = Some (round_o d) ->
  d = emotion_eqb (current_emotion r) FACE_SURPRISED.
Proof.
  intros Hi r. subst r. unfold animation_timer_cb. rewrite Hi. cbn [negb].
  pose proof (motion_step_diamond fp (scheduler_step now s)) as Hd.
  revert Hd. generalize (motion_step fp (scheduler_step now s)). intros r Hd.
  unfold draw_mouth. cbv zeta.
  destruct (negb (mouth_canvas r)); [discriminate |].
  destruct (emotion_eqb (current_emotion r) FACE_WORKING_HARD); [discriminate |].
  destruct (65 <? to_int8 (mouth_curve r)); [discriminate |].
  destruct ((35 <? to_int8 (mouth_curve r)) && (to_int8 (mouth_curve r) <? 65)).
  - intros H. injection H as <-. unfold diamond_test.
    destruct (emotion_eqb (current_emotion r) FACE_SURPRISED).
    + apply Z.leb_le. lia.
    + rewrite Hd. reflexivity.
  - destruct (to_int8 (mouth_curve r) <? -35); discriminate.
Qed.

Lemma round_mouth_after_a_tick_witness :
  let s := face_set_emotion FACE_SMIRK false
             (animation_timer_cb still_libm 30
                (face_set_emotion FACE_SURPRISED false (example_state false))) in
  let r := animation_timer_cb still_libm 60 s in
  initialized s = true /\
  draw_mouth (mouth_curve s) s = Some (round_o true) /\
  draw_mouth (mouth_curve r) r = Some (round_o false) /\
  false = emotion_eqb (current_emotion r) FACE_SURPRISED.
Proof.
  cbv zeta. split; [reflexivity |]. split; [reflexivity |]. split; [reflexivity |].
  apply (round_mouth_after_a_tick still_libm 60
           (face_set_emotion FACE_SMIRK false
              (animation_timer_cb still_libm 30
                 (face_set_emotion FACE_SURPRISED false (example_state false))))
           false eq_refl).
  reflexivity.
Defined.

(** ** The eyes the callback draws *)

Lemma eyes_closed_iff (r : face_state_t) :
  left_eye_canvas r = true -> right_eye_canvas r = true ->
  0 <= left_eye_openness r <= 255 -> 0 <= right_eye_openness r <= 255 ->
  is_closed (fst (eyes_drawn r)) = (left_eye_openness r <=? 20) /\
  is_closed (snd (eyes_drawn r)) = (right_eye_openness r <=? 20).
Proof.
  intros Hl Hr Rl Rr. unfold eyes_drawn, redraw, draw_eye. cbv zeta.
  rewrite Hl, Hr. cbn [negb fst snd option_map eye_main].
  rewrite (to_uint8_small (left_eye_openness r)), (to_uint8_small (right_eye_openness r))
    by assumption.
  rewrite (Z.leb_antisym 20 (left_eye_openness r)), (Z.leb_antisym 20 (right_eye_openness r)).
  destruct (emotion_eqb (current_emotion r) FACE_LOVE); cbn [andb];
    destruct (20 <? left_eye_openness r), (20 <? right_eye_openness r);
    split; reflexivity.
Qed.

Lemma canvases_of_resources (a b : face_state_t) :
  resources a = resources b ->
  left_eye_canvas a = left_eye_canvas b /\ right_eye_canvas a = right_eye_canvas b /\
  mouth_canvas a = mouth_canvas b.
Proof.
  intros H.
  pose proof (f_equal (fun t => fst (fst (fst (fst (fst (fst (fst t))))))) H) as H1.
  pose proof (f_equal (fun t => snd (fst (fst (fst (fst (fst (fst t))))))) H) as H2.
  pose proof (f_equal (fun t => snd (fst (fst (fst (fst (fst t)))))) H) as H3.
  auto.
Qed.

Lemma blink_tick_eyes (fp : float_site -> Z -> Z) (now : Z) (s : face_state_t) :
  initialized s = true -> is_blinking s = true ->
  0 <= blink_phase s -> blink_phase s + 20 < 100 ->
  left_eye_canvas s = true -> right_eye_canvas s = true ->
  let r := animation_timer_cb fp now s in
  (initialized r = true /\ is_blinking r = true /\ blink_phase r = blink_phase s + 20 /\
   left_eye_canvas r = true /\ right_eye_canvas r = true) /\
  is_closed (fst (eyes_drawn r)) = (blink_curve (blink_phase s + 20) <=? 20) /\
  is_closed (snd (eyes_drawn r)) = (blink_curve (blink_phase s + 20) <=? 20).
Proof.
  intros Hi Hb H0 H1 Hl Hr r.
  destruct (tick_blink_advance fp now s Hi Hb H0 H1) as (Hc & El & Er). fold r in Hc, El, Er.
  apply control_eq in Hc. destruct Hc as (Ii & _ & _ & Ib & Ip & _).
  destruct (canvases_of_resources _ _ (timer_resources fp now s)) as (Cl & Cr & _).
  fold r in Cl, Cr.
  assert (Hrange : 0 <= blink_curve (blink_phase s + 20) <= 255).
  { unfold blink_curve. destruct (blink_phase s + 20 <? 50) eqn:E;
      [apply Z.ltb_lt in E | apply Z.ltb_ge in E]; lia. }
  destruct (eyes_closed_iff r) as (L & R); try congruence.
  split; [repeat split; congruence |]. rewrite L, R, El, Er. split; reflexivity.
Qed.

(** X20: a blink shows the closed eye for exactly two ticks.  After
    [face_trigger_blink] on an initialised face with its canvases, the
    redraw of the first blink tick still draws both eyes open (openness
    60; as hearts on a Love face), the second and the third draw the lid
    line and lashes (openness 20 is not above the threshold 20), and the
    fourth draws them open again, whatever the emotion. *)
Theorem blink_closes_eyes_for_two_ticks (fp : float_site -> Z -> Z) (s : face_state_t)
  (t1 t2 t3 t4 : Z) :
  initialized s = true -> is_blinking s = false ->
  left_eye_canvas s = true -> right_eye_canvas s = true ->
  let b := face_trigger_blink s in
  let closed := fun times =>
    (is_closed (fst (eyes_drawn (run_ticks fp times b))),
     is_closed (snd (eyes_drawn (run_ticks fp times b)))) in
  closed [t1] = (false, false) /\
  closed [t1; t2] = (true, true) /\
  closed [t1; t2; t3] = (true, true) /\
  closed [t1; t2; t3; t4] = (false, false).
Proof.
  intros Hi Hb Hl Hr b closed. subst closed. cbv beta. cbn [run_ticks].
  destruct (trigger_blink_starts s Hi Hb) as (Cb & _). fold b in Cb.
  apply control_eq in Cb. destruct Cb as (Ib & _ & _ & Bb & Pb & _).
  assert (Rb : left_eye_canvas b = true /\ right_eye_canvas b = true).
  { subst b. unfold face_trigger_blink. rewrite Hi, Hb. cbn [negb orb]. norm_state. auto. }
  destruct Rb as (Lb & Rb).
  set (s1 := animation_timer_cb fp t1 b).
  destruct (blink_tick_eyes fp t1 b Ib Bb) as ((I1 & B1 & P1 & L1 & R1) & C1l & C1r);
    [lia | lia | assumption | assumption |].
  fold s1 in I1, B1, P1, L1, R1, C1l, C1r. rewrite Pb in P1, C1l, C1r.
  set (s2 := animation_timer_cb fp t2 s1).
  destruct (blink_tick_eyes fp t2 s1 I1 B1) as ((I2 & B2 & P2 & L2 & R2) & C2l & C2r);
    [lia | lia | assumption | assumption |].
  fold s2 in I2, B2, P2, L2, R2, C2l, C2r. rewrite P1 in P2, C2l, C2r.
  set (s3 := animation_timer_cb fp t3 s2).
  destruct (blink_tick_eyes fp t3 s2 I2 B2) as ((I3 & B3 & P3 & L3 & R3) & C3l & C3r);
    [lia | lia | assumption | assumption |].
  fold s3 in I3, B3, P3, L3, R3, C3l, C3r. rewrite P2 in P3, C3l, C3r.
  set (s4 := animation_timer_cb fp t4 s3).
  destruct (blink_tick_eyes fp t4 s3 I3 B3) as (_ & C4l & C4r);
    [lia | lia | assumption | assumption |].
  fold s4 in C4l, C4r. rewrite P3 in C4l, C4r.
  rewrite C1l, C1r, C2l, C2r, C3l, C3r, C4l, C4r.
  repeat split; reflexivity.
Qed.

Lemma blink_closes_eyes_for_two_ticks_witness :
  let s := face_set_emotion FACE_LOVE false (example_state false) in
  let b := face_trigger_blink s in
  initialized s = true /\ is_blinking s = false /\
  left_eye_canvas s = true /\ right_eye_canvas s = true /\
  eyes_drawn s = (Some (heart_eye true), Some (heart_eye true)) /\
  is_closed (fst (eyes_drawn (run_ticks still_libm [30; 60] b))) = true /\
  is_closed (fst (eyes_drawn (run_ticks still_libm [30; 60; 90; 120] b))) = false.
Proof.
  cbv zeta.
  destruct (blink_closes_eyes_for_two_ticks still_libm
              (face_set_emotion FACE_LOVE false (example_state false)) 30 60 90 120
              eq_refl eq_refl eq_refl eq_refl) as (_ & H2 & _ & H4).
  cbv beta in H2, H4.
  split; [reflexivity |]. split; [reflexivity |]. split; [reflexivity |].
  split; [reflexivity |]. split; [reflexivity |].
  split; [exact (f_equal fst H2) | exact (f_equal fst H4)].
Defined.

Lemma cry_idle_both_eyes (fp : float_site -> Z -> Z) (s : face_state_t) :
  fp_bounded fp ->
  current_emotion s = FACE_CRY -> eyes_free s = true ->
  45 <= left_eye_openness (idle_motion fp s) <= 65 /\
  right_eye_openness (idle_motion fp s) = left_eye_openness (idle_motion fp s).
Proof.
  intros fp_ok He Hf.
  pose proof (fp_ok cry_squeeze (bounce_counter s) 0 20 eq_refl eq_refl).
  unfold idle_motion. rewrite He. cbv beta iota zeta.
  replace (eyes_free (set_bounce_offset (to_int8 (fp cry_bounce (bounce_counter s))) s))
    with true by (symmetry; exact Hf).
  unfold set_eyes. cbv zeta. norm_state. rewrite to_int16_small by lia.
  replace (65 - fp cry_squeeze (bounce_counter s) <? 30) with false
    by (symmetry; apply Z.ltb_ge; lia).
  rewrite to_uint8_small by lia. split; [lia | reflexivity].
Qed.

(** X21: a crying face always shows its tears.  With floating-point
    results within their mathematical ranges, a tick on an initialised face
    settled in Cry that neither blinks nor starts a blink leaves both eyes
    at the same openness within [[45, 65]]; the redraw therefore draws both
    eyes open, each with its tear: the squeeze of the idle motion never
    reaches the threshold 30 under which [draw_eye] omits the tear. *)
Theorem crying_face_shows_tears (fp : float_site -> Z -> Z) (now : Z) (s : face_state_t) :
  fp_bounded fp ->
  initialized s = true ->
  current_emotion s = FACE_CRY -> target_emotion s = FACE_CRY ->
  transition_progress s = 100 ->
  is_blinking s = false -> blink_due now s = false ->
  left_eye_canvas s = true -> right_eye_canvas s = true ->
  let r := animation_timer_cb fp now s in
  45 <= left_eye_openness r <= 65 /\ right_eye_openness r = left_eye_openness r /\
  option_map eye_tear (fst (fst (redraw r))) = Some true /\
  option_map eye_tear (snd (fst (redraw r))) = Some true /\
  is_closed (fst (eyes_drawn r)) = false /\ is_closed (snd (eyes_drawn r)) = false.
Proof.
  intros fp_ok Hi Hc Ht Hp Hb Hd Hl Hr r.
  assert (Hs : scheduler_step now s = s).
  { unfold scheduler_step, transition_pending. rewrite Hb, Hd, Hc, Ht. reflexivity. }
  assert (Hm : r = motion_step fp s).
  { subst r. unfold animation_timer_cb. rewrite Hi, Hs. reflexivity. }
  pose proof (motion_step_control fp s) as Cm. rewrite <- Hm in Cm.
  apply control_fields in Cm. destruct Cm as (_ & _ & _ & _ & _ & Ce & _ & _).
  destruct (canvases_of_resources _ _ (timer_resources fp now s)) as (Cl & Cr & _).
  fold r in Cl, Cr.
  destruct (channels_fields _ _ (motion_step_channels_idle fp s)) as (El & Er & _).
  rewrite <- Hm in El, Er.
  destruct (pre_idle_frame fp s) as (Cp & _).
  apply control_fields in Cp. destruct Cp as (_ & _ & _ & Pb & _ & Pe & _ & Pq).
  destruct (cry_idle_both_eyes fp (pre_idle fp s) fp_ok) as (Rl & Rr).
  { congruence. }
  { unfold eyes_free. rewrite Pb, Pq, Hb, Hp. reflexivity. }
  rewrite <- El in Rl. rewrite <- El, <- Er in Rr.
  split; [exact Rl |]. split; [exact Rr |].
  destruct (eyes_closed_iff r) as (L & R); try congruence; try lia.
  rewrite L, R, Rr.
  replace (left_eye_openness r <=? 20) with false by (symmetry; apply Z.leb_gt; lia).
  unfold redraw, draw_eye. cbv zeta. rewrite Cl, Cr, Hl, Hr, Rr, Ce, Hc.
  cbn [negb fst snd option_map eye_tear emotion_eqb emotion_code Z.eqb Pos.eqb andb].
  rewrite to_uint8_small by lia.
  replace (30 <? left_eye_openness r) with true by (symmetry; apply Z.ltb_lt; lia).
  repeat split; reflexivity.
Qed.

Lemma crying_face_shows_tears_witness :
  let s := face_set_emotion FACE_CRY false (example_state false) in
  let r := animation_timer_cb still_libm 30 s in
  fp_bounded still_libm /\ initialized s = true /\
  current_emotion s = FACE_CRY /\ is_blinking s = false /\ blink_due 30 s = false /\
  option_map eye_tear (fst (fst (redraw r))) = Some true.
Proof.
  cbv zeta.
  destruct (crying_face_shows_tears still_libm 30
              (face_set_emotion FACE_CRY false (example_state false))
              still_libm_bounded eq_refl eq_refl eq_refl eq_refl eq_refl eq_refl
              eq_refl eq_refl) as (_ & _ & H & _).
  split; [exact still_libm_bounded |].
  split; [reflexivity |]. split; [reflexivity |]. split; [reflexivity |].
  split; [reflexivity | exact H].
Defined.

(** ** A blink interval shorter than the tick period *)

Lemma blink_step_outcome (now : Z) (s : face_state_t) :
  is_blinking s = true ->
  is_blinking (blink_step now s) = true \/
  (is_blinking (blink_step now s) = false /\ last_blink_time (blink_step now s) = now).
Proof.
  intros Hb. unfold blink_step. cbv zeta. norm_state.
  destruct (100 <=? to_uint8 (blink_phase s + 20)); norm_state; auto.
Qed.

Lemma tick_keeps_blinking (fp : float_site -> Z -> Z) (now : Z) (s : face_state_t) :
  initialized s = true -> auto_blink (config s) = true ->
  is_blinking s = true \/ blink_due now s = true ->
  let r := animation_timer_cb fp now s in
  emotion_view r = emotion_view s /\
  initialized r = true /\ config r = config s /\
  (is_blinking r = true \/ (is_blinking r = false /\ last_blink_time r = now)).
Proof.
  intros Hi Ha H r.
  assert (Hq : is_blinking s = true \/ blink_due now s = true \/ transition_pending s = false)
    by tauto.
  destruct (tick_without_transition fp now s Hq) as (Hv & _). fold r in Hv.
  split; [exact Hv |].
  assert (Hr : r = motion_step fp (scheduler_step now s)).
  { subst r. unfold animation_timer_cb. rewrite Hi. reflexivity. }
  pose proof (motion_step_control fp (scheduler_step now s)) as Cm. rewrite <- Hr in Cm.
  apply control_fields in Cm. destruct Cm as (-> & -> & -> & -> & _).
  unfold scheduler_step.
  destruct (is_blinking s) eqn:Hb.
  - split.
    { pose proof (scheduler_step_initialized now s) as Hs.
      unfold scheduler_step in Hs. rewrite Hb in Hs. rewrite Hs. exact Hi. }
    split; [unfold blink_step; peel |].
    apply blink_step_outcome. exact Hb.
  - destruct H as [H | H]; [discriminate H |]. rewrite H.
    destruct (trigger_blink_starts s Hi Hb) as (Hc & _).
    apply control_eq in Hc. destruct Hc as (-> & -> & _ & -> & _).
    split; [reflexivity |]. split; [reflexivity |]. left. reflexivity.
Qed.

(** X22: a blink interval shorter than the tick period starves the
    transitions.  The blink branches come first in the callback, so when
    automatic blinking is on and every tick comes more than
    [blink_interval] milliseconds after the one before, each blink is
    followed at once by the next: from a face that is blinking or has a
    blink due, no tick ever runs a transition step, and the current
    emotion, the target and the progress of a pending smooth transition
    stay what they were for as long as the timer runs. *)
Theorem restless_blinking_starves_transition (fp : float_site -> Z -> Z) (s : face_state_t)
  (t1 : Z) (times : list Z) :
  initialized s = true -> auto_blink (config s) = true ->
  is_blinking s = true \/ blink_due t1 s = true ->
  spaced (blink_interval (config s)) t1 times ->
  emotion_view (run_ticks fp (t1 :: times) s) = emotion_view s.
Proof.
  revert s t1. induction times as [| t2 times IH]; intros s t1 Hi Ha H Hs.
  - cbn [run_ticks]. apply (tick_keeps_blinking fp t1 s Hi Ha H).
  - destruct (tick_keeps_blinking fp t1 s Hi Ha H) as (Hv & Ii & Ic & Hb).
    change (run_ticks fp (t1 :: t2 :: times) s)
      with (run_ticks fp (t2 :: times) (animation_timer_cb fp t1 s)).
    destruct Hs as (Hgap & Hs).
    rewrite IH; [exact Hv | exact Ii | rewrite Ic; exact Ha | | rewrite Ic; exact Hs].
    destruct Hb as [Hb | (Hb & Hl)]; [left; exact Hb |].
    right. unfold blink_due. rewrite Ic, Ha, Hl. cbn [andb]. apply Z.ltb_lt. exact Hgap.
Qed.

Lemma restless_blinking_starves_transition_witness :
  let s0 := snd (face_animation_init still_libm (Some (mk_face_config true 30 10 true))
                   example_env face_state_zero) in
  let s := face_set_emotion FACE_HAPPY true s0 in
  let times := [60; 90; 120; 150; 180; 210; 240; 270; 300; 330; 360; 390; 420; 450] in
  initialized s = true /\ auto_blink (config s) = true /\
  blink_due 30 s = true /\ transition_pending s = true /\
  emotion_view (run_ticks still_libm (30 :: times) s) = (FACE_NEUTRAL, FACE_HAPPY, 0).
Proof.
  cbv zeta.
  split; [reflexivity |]. split; [reflexivity |]. split; [reflexivity |].
  split; [reflexivity |].
  rewrite (restless_blinking_starves_transition still_libm
             (face_set_emotion FACE_HAPPY true
                (snd (face_animation_init still_libm (Some (mk_face_config true 30 10 true))
                        example_env face_state_zero)))
             30 [60; 90; 120; 150; 180; 210; 240; 270; 300; 330; 360; 390; 420; 450]
             eq_refl eq_refl (or_intror eq_refl)).
  - reflexivity.
  - cbn. repeat split; reflexivity.
Defined.

(** ** Calls before initialisation *)







(** ** The blink cycle *)

Lemma blink_step_end (now : Z) (s : face_state_t) :
  is_blinking s = true -> is_blinking (blink_step now s) = false ->
  left_eye_openness (blink_step now s) = 100 /\
  right_eye_openness (blink_step now s) = 100.
Proof.
  intros Hb. unfold blink_step. cbv zeta. norm_state.
  destruct (100 <=? to_uint8 (blink_phase s + 20)); norm_state.
  - intros _. split; reflexivity.
  - rewrite Hb. discriminate.
Qed.

(** Eyes left at 100 stay there on a settled face whose idle motion does
    not write them: a later blink moves them, and ends at 100 again. *)
Lemma open_eyes_stay_open (fp : float_site -> Z -> Z) (times : list Z) (s : face_state_t) :
  initialized s = true ->
  emotion_eqb (current_emotion s) (target_emotion s) = true ->
  no_eye_idle (current_emotion s) = true ->
  (is_blinking s = false -> left_eye_openness s = 100 /\ right_eye_openness s = 100) ->
  is_blinking (run_ticks fp times s) = false ->
  left_eye_openness (run_ticks fp times s) = 100 /\
  right_eye_openness (run_ticks fp times s) = 100.
Proof.
  revert s. induction times as [| t times IH]; intros s Hi He Hq Ho; cbn [run_ticks];
    [exact Ho |].
  assert (Hn : is_blinking s = true \/ blink_due t s = true \/ transition_pending s = false)
    by (right; right; apply settled_not_pending; exact He).
  destruct (tick_without_transition fp t s Hn) as (Hv & _).
  apply emotion_view_fields in Hv. destruct Hv as (Ec & Et & _).
  apply IH.
  - rewrite tick_initialized. exact Hi.
  - rewrite Ec, Et. exact He.
  - rewrite Ec. exact Hq.
  - assert (Hr : animation_timer_cb fp t s = motion_step fp (scheduler_step t s)).
    { unfold animation_timer_cb. rewrite Hi. reflexivity. }
    rewrite Hr.
    pose proof (control_fields _ _ (motion_step_control fp (scheduler_step t s)))
      as (_ & _ & _ & -> & _ & Em & _).
    destruct (motion_step_eyes fp (scheduler_step t s)) as (-> & ->).
    { right. left.
      destruct (scheduler_step_without_transition t s Hn) as (Hs & _).
      apply emotion_view_fields in Hs. destruct Hs as (-> & _). exact Hq. }
    unfold scheduler_step.
    destruct (is_blinking s) eqn:Hb; [apply blink_step_end; exact Hb |].
    destruct (blink_due t s).
    + destruct (trigger_blink_starts s Hi Hb) as (Hc & _).
      apply control_eq in Hc. destruct Hc as (_ & _ & _ & -> & _). discriminate.
    + rewrite (settled_not_pending s He). intros _. apply Ho. reflexivity.
Qed.

(** C4: what the code does over a blink.  [face_trigger_blink] on an
    initialised, non-blinking face sets [is_blinking] with
    [blink_phase = 0], and a second trigger while blinking changes
    nothing.  Over the next four ticks both eyes go through 60, 20, 20,
    60; the fifth tick ends the blink ([is_blinking] false, phase back at
    0, [last_blink_time] the time of that tick) and leaves both eyes at
    100, the end of the blink curve, whenever the idle motion of the
    current emotion does not write the eyes or a transition is in flight.
    Nothing puts the openness before the blink back: on a face settled in
    such an emotion both eyes are at 100 whenever the face is not
    blinking, for every later run of ticks. *)
Theorem blink_cycle (fp : float_site -> Z -> Z) (s : face_state_t) (t1 t2 t3 t4 t5 : Z) :
  initialized s = true -> is_blinking s = false ->
  let b := face_trigger_blink s in
  let eyes := fun x => (left_eye_openness x, right_eye_openness x) in
  let e := run_ticks fp [t1; t2; t3; t4; t5] b in
  is_blinking b = true /\ blink_phase b = 0 /\
  face_trigger_blink b = b /\
  eyes (run_ticks fp [t1] b) = (60, 60) /\
  eyes (run_ticks fp [t1; t2] b) = (20, 20) /\
  eyes (run_ticks fp [t1; t2; t3] b) = (20, 20) /\
  eyes (run_ticks fp [t1; t2; t3; t4] b) = (60, 60) /\
  is_blinking e = false /\ blink_phase e = 0 /\ last_blink_time e = t5 /\
  current_emotion e = current_emotion s /\
  (no_eye_idle (current_emotion s) = true \/ (transition_progress s =? 100) = false ->
   eyes e = (100, 100)) /\
  (no_eye_idle (current_emotion s) = true ->
   emotion_eqb (current_emotion s) (target_emotion s) = true ->
   forall times, is_blinking (run_ticks fp times e) = false ->
                 eyes (run_ticks fp times e) = (100, 100)).
Proof.
  intros Hi Hb b eyes e.
  destruct (trigger_blink_starts s Hi Hb) as (Cb & _). fold b in Cb.
  apply control_eq in Cb. destruct Cb as (Ib & _ & _ & Bb & Pb & Eb & Tb & Rb).
  subst e eyes. cbv beta. cbn [run_ticks].
  set (s1 := animation_timer_cb fp t1 b).
  destruct (tick_blink_advance fp t1 b Ib Bb) as (C1 & L1 & R1'); [lia | lia |].
  fold s1 in C1, L1, R1'. rewrite Pb in C1, L1, R1'.
  apply control_eq in C1. destruct C1 as (I1 & _ & _ & B1 & P1 & E1 & T1 & R1).
  set (s2 := animation_timer_cb fp t2 s1).
  destruct (tick_blink_advance fp t2 s1) as (C2 & L2 & R2');
    [congruence | congruence | lia | lia |].
  fold s2 in C2, L2, R2'. rewrite P1 in C2, L2, R2'.
  apply control_eq in C2. destruct C2 as (I2 & _ & _ & B2 & P2 & E2 & T2 & R2).
  set (s3 := animation_timer_cb fp t3 s2).
  destruct (tick_blink_advance fp t3 s2) as (C3 & L3 & R3');
    [congruence | congruence | lia | lia |].
  fold s3 in C3, L3, R3'. rewrite P2 in C3, L3, R3'.
  apply control_eq in C3. destruct C3 as (I3 & _ & _ & B3 & P3 & E3 & T3 & R3).
  set (s4 := animation_timer_cb fp t4 s3).
  destruct (tick_blink_advance fp t4 s3) as (C4 & L4 & R4');
    [congruence | congruence | lia | lia |].
  fold s4 in C4, L4, R4'. rewrite P3 in C4, L4, R4'.
  apply control_eq in C4. destruct C4 as (I4 & _ & _ & B4 & P4 & E4 & T4 & R4).
  set (s5 := animation_timer_cb fp t5 s4).
  destruct (tick_blink_finish fp t5 s4) as (C5 & _ & _ & Q5); [congruence | congruence | lia |].
  fold s5 in C5, Q5.
  apply control_eq in C5. destruct C5 as (I5 & _ & L5 & B5 & P5 & E5 & T5 & _).
  assert (Hend : no_eye_idle (current_emotion s) = true \/
                 (transition_progress s =? 100) = false ->
                 left_eye_openness s5 = 100 /\ right_eye_openness s5 = 100).
  { intros Hq. apply Q5. rewrite E4, E3, E2, E1, Eb, R4, R3, R2, R1, Rb. exact Hq. }
  split; [exact Bb |]. split; [exact Pb |].
  split; [apply trigger_blink_while_blinking; exact Bb |].
  split; [rewrite L1, R1'; reflexivity |]. split; [rewrite L2, R2'; reflexivity |].
  split; [rewrite L3, R3'; reflexivity |]. split; [rewrite L4, R4'; reflexivity |].
  split; [exact B5 |]. split; [exact P5 |]. split; [exact L5 |].
  split; [congruence |].
  split.
  { intros Hq. destruct (Hend Hq) as (-> & ->). reflexivity. }
  intros Hq He times Hn.
  destruct (open_eyes_stay_open fp times s5) as (-> & ->); try reflexivity.
  - congruence.
  - rewrite E5, T5, E4, T4, E3, T3, E2, T2, E1, T1, Eb, Tb. exact He.
  - rewrite E5, E4, E3, E2, E1, Eb. exact Hq.
  - intros _. apply Hend. left. exact Hq.
  - exact Hn.
Qed.

Lemma blink_cycle_witness :
  let s := face_set_emotion FACE_WINK false (example_state false) in
  let e := run_ticks still_libm [30; 60; 90; 120; 150] (face_trigger_blink s) in
  initialized s = true /\ is_blinking s = false /\
  (left_eye_openness s, right_eye_openness s) = (85, 15) /\
  is_blinking e = false /\
  (left_eye_openness e, right_eye_openness e) = (100, 100) /\
  (left_eye_openness (run_ticks still_libm [180; 210; 240] e),
   right_eye_openness (run_ticks still_libm [180; 210; 240] e)) = (100, 100).
Proof.
  cbv zeta.
  pose proof (blink_cycle still_libm (face_set_emotion FACE_WINK false (example_state false))
                30 60 90 120 150 eq_refl eq_refl) as H.
  cbv zeta beta in H.
  destruct H as (_ & _ & _ & _ & _ & _ & _ & Hb & _ & _ & _ & He & Hs).
  split; [reflexivity |]. split; [reflexivity |]. split; [reflexivity |].
  split; [exact Hb |]. split; [exact (He (or_introl eq_refl)) |].
  apply (Hs eq_refl eq_refl [180; 210; 240]). reflexivity.
Defined.
